(** * BigO: tiered classification, routing and ledger

    A shallow embedding of the Go packages [pkg/types],
    [internal/conductor] (classifier.go, conductor.go) and
    [internal/ledger] (ledger.go), followed by the properties of the
    classification-and-routing engine.

    Conventions of the embedding.
    - Go [int] values are [Z]; no arithmetic in the modelled code can
      overflow (only comparisons and one subtraction of clock readings).
    - Go [float64] values are Rocq primitive floats (IEEE 754 binary64,
      round to nearest even), so weights, scores and costs compute
      exactly as in the program (on targets that do not fuse multiply-add).
    - Go strings are [string]s (byte sequences).  [strings.ToLower] and
      [regexp.MatchString] are modelled on 7-bit ASCII text, where they
      are exact.  On other text Go also lower-cases the letters beyond
      ASCII (U+212A becomes k, U+0130 becomes i), rewrites invalid UTF-8,
      and lets a case-insensitive s or k match U+017F or U+212A; here the
      bytes above 127 are kept as they are and match no pattern
      character.  Statements that depend on which texts match therefore
      assume an ASCII title and description.
    - A [range] over a Go map visits every key once in an unspecified
      order.  Each such loop takes the visiting order as a list of keys;
      entries of the list that are not keys of the map are skipped.
    - [generateID], [time.Now] and SQLite's CURRENT_TIMESTAMP are
      read from an explicit environment record. *)

Set Warnings "-inexact-float".
From Stdlib Require Import Floats ZArith String Ascii List Bool Lia Permutation.
From stdpp Require Import gmap strings pretty.
Import ListNotations.
Local Open Scope string_scope.
Local Open Scope list_scope.
Local Open Scope Z_scope.

(** ** Package [strings] (the functions the program calls) *)

Module strings.

(** [ToLower] on ASCII text: the bytes A-Z are lower-cased, every other
    byte is kept. *)
Definition lowerByte (c : ascii) : ascii :=
  let n := N_of_ascii c in
  if ((65 <=? n) && (n <=? 90))%N then ascii_of_N (n + 32) else c.

Fixpoint ToLower (s : string) : string :=
  match s with
  | EmptyString => EmptyString
  | String c s' => String (lowerByte c) (ToLower s')
  end.

Fixpoint HasPrefix (s prefix : string) {struct prefix} : bool :=
  match prefix, s with
  | EmptyString, _ => true
  | String _ _, EmptyString => false
  | String p prefix', String c s' =>
      if Ascii.eqb c p then HasPrefix s' prefix' else false
  end.

Fixpoint Contains (s substr : string) : bool :=
  HasPrefix s substr ||
  match s with
  | EmptyString => false
  | String _ s' => Contains s' substr
  end.

Definition Join (parts : list string) (sep : string) : string :=
  String.concat sep parts.

End strings.

(** ** Package [regexp]: the RE2 fragment used by the pattern table *)

Module regexp.

Inductive Regex : Type :=
| Empty                         (* the empty expression *)
| Char (c : ascii)              (* a literal byte *)
| Space                         (* \s *)
| WordBoundary                  (* \b *)
| Cat (r1 r2 : Regex)
| Alt (r1 r2 : Regex)
| Quest (r : Regex)             (* r? *)
| Plus (r : Regex)              (* r+ *)
| Star (r : Regex).             (* r* *)

(** A compiled expression: the (?i) flag and the syntax tree. *)
Record Regexp : Type := mkRegexp { foldCase : bool; expr : Regex }.

(** *** Parsing *)

Definition isMeta (c : ascii) : bool :=
  existsb (Ascii.eqb c)
    ["("; ")"; "|"; "?"; "+"; "*"; "\"; "["; "]"; "{"; "}"; "."; "^"; "$"]%char.

Fixpoint postfix (r : Regex) (s : list ascii) (n : nat) : Regex * list ascii :=
  match n with
  | O => (r, s)
  | S n' =>
      match s with
      | "?"%char :: s' => postfix (Quest r) s' n'
      | "+"%char :: s' => postfix (Plus r) s' n'
      | "*"%char :: s' => postfix (Star r) s' n'
      | _ => (r, s)
      end
  end.

Fixpoint parseAlt (fuel : nat) (s : list ascii) : option (Regex * list ascii) :=
  match fuel with
  | O => None
  | S f =>
      match parseCat f s with
      | Some (r1, "|"%char :: rest) =>
          match parseAlt f rest with
          | Some (r2, rest') => Some (Alt r1 r2, rest')
          | None => None
          end
      | other => other
      end
  end
with parseCat (fuel : nat) (s : list ascii) : option (Regex * list ascii) :=
  match fuel with
  | O => None
  | S f =>
      match s with
      | [] | ")"%char :: _ | "|"%char :: _ => Some (Empty, s)
      | _ =>
          match parseAtom f s with
          | Some (a, rest) =>
              let (r1, rest1) := postfix a rest (length rest) in
              match parseCat f rest1 with
              | Some (Empty, rest2) => Some (r1, rest2)
              | Some (r2, rest2) => Some (Cat r1 r2, rest2)
              | None => None
              end
          | None => None
          end
      end
  end
with parseAtom (fuel : nat) (s : list ascii) : option (Regex * list ascii) :=
  match fuel with
  | O => None
  | S f =>
      match s with
      | "("%char :: rest =>
          match parseAlt f rest with
          | Some (r, ")"%char :: rest') => Some (r, rest')
          | _ => None
          end
      | "\"%char :: "b"%char :: rest => Some (WordBoundary, rest)
      | "\"%char :: "s"%char :: rest => Some (Space, rest)
      | c :: rest => if isMeta c then None else Some (Char c, rest)
      | [] => None
      end
  end.

(** [Compile]: an optional leading (?i), then an alternation that must
    consume the whole source. *)
Definition Compile (src : string) : option Regexp :=
  let bytes := list_ascii_of_string src in
  let '(fc, body) :=
    match bytes with
    | "("%char :: "?"%char :: "i"%char :: ")"%char :: rest => (true, rest)
    | _ => (false, bytes)
    end in
  match parseAlt (3 * S (length body)) body with
  | Some (r, []) => Some (mkRegexp fc r)
  | _ => None
  end.

(** [MustCompile] panics in Go on a syntax error; here it yields an
    expression that matches nothing that way ([Compile] succeeds on
    every pattern of the table, see [initPatterns_compile]). *)
Definition MustCompile (src : string) : Regexp :=
  match Compile src with
  | Some re => re
  | None => mkRegexp false (Cat WordBoundary (Cat (Char "x") WordBoundary))
  end.

(** *** Matching *)

Definition isWordChar (c : ascii) : bool :=
  let n := N_of_ascii c in
  (((48 <=? n) && (n <=? 57)) || ((65 <=? n) && (n <=? 90)) ||
   ((97 <=? n) && (n <=? 122)) || (n =? 95))%N.

Definition isSpace (c : ascii) : bool :=
  let n := N_of_ascii c in
  ((n =? 9) || (n =? 10) || (n =? 12) || (n =? 13) || (n =? 32))%N.

Definition wordAt (text : list ascii) (i : nat) : bool :=
  match nth_error text i with
  | Some c => isWordChar c
  | None => false
  end.

Definition atWordBoundary (text : list ascii) (i : nat) : bool :=
  xorb (match i with O => false | S j => wordAt text j end) (wordAt text i).

(** A literal of the expression against a byte of the text; under
    (?i) the two are compared up to the case of ASCII letters. *)
Definition sameChar (fc : bool) (c x : ascii) : bool :=
  if fc then Ascii.eqb (strings.lowerByte c) (strings.lowerByte x)
  else Ascii.eqb c x.

Fixpoint iterate (step : nat -> list nat) (fuel : nat) (front : list nat) : list nat :=
  match fuel with
  | O => []
  | S f => front ++ iterate step f (flat_map step front)
  end.

(** [ends fc text r i]: every position at which a match of [r] that
    starts at position [i] of [text] can end. *)
Fixpoint ends (fc : bool) (text : list ascii) (r : Regex) (i : nat) : list nat :=
  match r with
  | Empty => [i]
  | Char c =>
      match nth_error text i with
      | Some x => if sameChar fc c x then [S i] else []
      | None => []
      end
  | Space =>
      match nth_error text i with
      | Some x => if isSpace x then [S i] else []
      | None => []
      end
  | WordBoundary => if atWordBoundary text i then [i] else []
  | Cat r1 r2 => flat_map (ends fc text r2) (ends fc text r1 i)
  | Alt r1 r2 => ends fc text r1 i ++ ends fc text r2 i
  | Quest r1 => i :: ends fc text r1 i
  | Plus r1 => iterate (ends fc text r1) (S (length text)) (ends fc text r1 i)
  | Star r1 => i :: iterate (ends fc text r1) (S (length text)) (ends fc text r1 i)
  end.

(** [MatchString]: the expression matches some substring of [s]. *)
Definition MatchString (re : Regexp) (s : string) : bool :=
  let text := list_ascii_of_string s in
  existsb (fun i => match ends (foldCase re) text (expr re) i with
                    | [] => false
                    | _ :: _ => true
                    end)
          (seq 0 (S (length text))).

End regexp.

(** ** Package [types] (pkg/types/types.go) *)

Module types.

(** [type Tier int] *)
Definition Tier : Type := Z.
Definition TierTrivial : Tier := 0.
Definition TierSimple : Tier := 1.
Definition TierStandard : Tier := 2.
Definition TierComplex : Tier := 3.
Definition TierCritical : Tier := 4.

Definition Tier_String (t : Tier) : string :=
  if t =? TierTrivial then "TRIVIAL"
  else if t =? TierSimple then "SIMPLE"
  else if t =? TierStandard then "STANDARD"
  else if t =? TierComplex then "COMPLEX"
  else if t =? TierCritical then "CRITICAL"
  else "UNKNOWN".

(** [type Backend string] *)
Definition Backend : Type := string.
Definition BackendClaudeOpus : Backend := "claude:opus".
Definition BackendClaudeSonnet : Backend := "claude:sonnet".
Definition BackendClaudeHaiku : Backend := "claude:haiku".
Definition BackendOllamaFast : Backend := "ollama:fast".
Definition BackendOllama : Backend := "ollama:default".
Definition BackendOllamaReason : Backend := "ollama:reasoning".

(** [type TaskStatus string] *)
Definition TaskStatus : Type := string.
Definition StatusPending : TaskStatus := "pending".
Definition StatusAssigned : TaskStatus := "assigned".
Definition StatusWorking : TaskStatus := "working".
Definition StatusValidating : TaskStatus := "validating".
Definition StatusApproved : TaskStatus := "approved".
Definition StatusRejected : TaskStatus := "rejected".
Definition StatusDone : TaskStatus := "done".
Definition StatusFailed : TaskStatus := "failed".

(** The task handed to a worker ([time.Time] fields read as [Z]). *)
Record Task : Type := mkTask {
  ID : string;
  ParentID : string;
  Title : string;
  Description : string;
  TaskTier : Tier;
  Status : TaskStatus;
  TaskBackend : Backend;
  ContextPath : string;
  CreatedAt : Z;
  UpdatedAt : Z
}.

Record ClassificationResult : Type := mkClassificationResult {
  Tier_ : Tier;
  Confidence : float;
  RecommendedBackend : Backend;
  Reasoning : string;
  Patterns : list string;
  EstimatedLines : Z;
  EstimatedFiles : Z
}.

Record ExecutionResult : Type := mkExecutionResult {
  ResTaskID : string;
  ResBackend : Backend;
  Success : bool;
  Output : string;
  Diff : string;
  TokensUsed : Z;
  CostUSD : float;
  DurationMs : Z;
  Error : string
}.

Record TierConfig : Type := mkTierConfig {
  PrimaryBackend : Backend;
  ValidatorBackend : Backend;
  ValidatorCount : Z;
  RequiredApprovals : Z
}.

(** The zero value a Go map read yields for a missing key. *)
Definition zeroTierConfig : TierConfig := mkTierConfig "" "" 0 0.

Definition DefaultTierConfigs : gmap Z TierConfig :=
  <[TierTrivial := mkTierConfig BackendOllamaFast "" 0 0]>
  (<[TierSimple := mkTierConfig BackendOllama BackendOllama 1 1]>
  (<[TierStandard := mkTierConfig BackendClaudeSonnet BackendClaudeSonnet 2 2]>
  (<[TierComplex := mkTierConfig BackendClaudeSonnet BackendClaudeSonnet 3 2]>
  (<[TierCritical := mkTierConfig BackendClaudeOpus BackendClaudeSonnet 5 4]> ∅)))).

End types.

(** ** Package [conductor], classifier.go *)

Module classifier.
Import types.

Record Pattern : Type := mkPattern {
  Name : string;
  Regex : regexp.Regexp;
  Weight : float
}.

Definition pat (name src : string) (w : float) : Pattern :=
  mkPattern name (regexp.MustCompile src) w.

(** The pattern table with its sources (as [initPatterns] gives them to
    [regexp.MustCompile]). *)
Definition patternSources : list (Tier * list (string * string * float)) :=
  [ (TierTrivial,
     [ ("typo", "(?i)\b(typo|spelling|spelt|misspell)", 0.9%float);
       ("format", "(?i)\b(format|indent|whitespace|spacing)\b", 0.8%float);
       ("comment", "(?i)\b(add|update|fix)\s+(a\s+)?comment", 0.8%float);
       ("rename_local", "(?i)\brename\s+(the\s+)?(variable|param|local)", 0.7%float);
       ("simple_string", "(?i)\b(change|update)\s+(the\s+)?(string|text|message|label)", 0.6%float);
       ("import", "(?i)\b(add|remove|fix)\s+(an?\s+)?import", 0.7%float) ]);
    (TierSimple,
     [ ("add_function", "(?i)\badd\s+(a\s+)?(simple\s+)?(function|method|helper)", 0.7%float);
       ("fix_bug_obvious", "(?i)\bfix\s+(the\s+)?(bug|issue|error|crash)\s+(in|where|when)", 0.6%float);
       ("update_config", "(?i)\b(update|change|modify)\s+(the\s+)?config", 0.7%float);
       ("add_field", "(?i)\badd\s+(a\s+)?(new\s+)?(field|property|attribute)", 0.6%float);
       ("simple_validation", "(?i)\badd\s+(simple\s+)?validation", 0.6%float);
       ("update_constant", "(?i)\b(update|change)\s+(the\s+)?(constant|value|default)", 0.7%float) ]);
    (TierStandard,
     [ ("new_feature", "(?i)\b(implement|create|build|add)\s+(a\s+)?(new\s+)?feature", 0.7%float);
       ("refactor", "(?i)\brefactor\b", 0.6%float);
       ("add_tests", "(?i)\b(add|write|create)\s+(unit\s+)?tests?", 0.6%float);
       ("api_endpoint", "(?i)\b(add|create|implement)\s+(an?\s+)?(api\s+)?endpoint", 0.7%float);
       ("component", "(?i)\b(create|build|add)\s+(a\s+)?(new\s+)?component", 0.6%float);
       ("integration", "(?i)\bintegrat(e|ion)\b", 0.5%float) ]);
    (TierComplex,
     [ ("architecture", "(?i)\b(architect|redesign|restructure)", 0.8%float);
       ("migration", "(?i)\b(migrat|data\s+migration)", 0.8%float);
       ("cross_cutting", "(?i)\b(across|throughout|all)\s+(the\s+)?(codebase|project|system)", 0.7%float);
       ("api_breaking", "(?i)\bbreaking\s+change", 0.8%float);
       ("multiple_services", "(?i)\bmultiple\s+(service|system|component)s", 0.7%float);
       ("database_schema", "(?i)\b(database|db)\s+schema", 0.7%float) ]);
    (TierCritical,
     [ ("security", "(?i)\b(security|vulnerab|exploit|injection|xss|csrf|auth(entication|orization)?)\b", 0.9%float);
       ("payments", "(?i)\b(payment|billing|transaction|money|financial)", 0.9%float);
       ("encryption", "(?i)\b(encrypt|decrypt|crypto|hash|secret|credential)", 0.8%float);
       ("core_algorithm", "(?i)\bcore\s+(algorithm|logic|system)", 0.8%float);
       ("production_data", "(?i)\bproduction\s+(data|database|system)", 0.9%float);
       ("user_data", "(?i)\b(user|customer|personal)\s+data", 0.8%float) ]) ].

(** [type Classifier struct { patterns map[types.Tier][]Pattern }] *)
Record Classifier : Type := mkClassifier { patterns : gmap Z (list Pattern) }.

Definition compileRow (row : string * string * float) : Pattern :=
  let '(name, src, w) := row in pat name src w.

Definition initPatterns : gmap Z (list Pattern) :=
  Eval vm_compute in
    fold_right (fun entry m => <[fst entry := map compileRow (snd entry)]> m)
               ∅ patternSources.

Definition NewClassifier : Classifier := mkClassifier initPatterns.

(** The five keys of the pattern table. *)
Definition allTiers : list Tier :=
  [TierTrivial; TierSimple; TierStandard; TierComplex; TierCritical].

(** A visiting order of a [range] over a map keyed by tier. *)
Definition MapOrder (order : list Tier) : Prop := Permutation allTiers order.

Definition estimateLines (text : string) : Z :=
  if strings.Contains text "single line" || strings.Contains text "one line" then 1
  else if strings.Contains text "few lines" then 5
  else if strings.Contains text "small" || strings.Contains text "minor" then 20
  else if strings.Contains text "large" || strings.Contains text "major"
          || strings.Contains text "significant" then 200
  else if strings.Contains text "entire" || strings.Contains text "complete"
          || strings.Contains text "full" then 500
  else 50.

Definition estimateFiles (text : string) : Z :=
  if strings.Contains text "single file" || strings.Contains text "one file"
     || strings.Contains text "this file" then 1
  else if strings.Contains text "multiple file" || strings.Contains text "several file" then 5
  else if strings.Contains text "across" || strings.Contains text "throughout" then 10
  else if strings.Contains text "codebase" || strings.Contains text "project-wide" then 20
  else 2.

Definition adjustTierByScope (tier : Tier) (lines files : Z) : Tier :=
  if ((lines >? 500) || (files >? 10)) && (tier <? TierComplex) then TierComplex
  else if ((lines >? 200) || (files >? 5)) && (tier <? TierStandard) then TierStandard
  else if ((lines <? 10) && (files =? 1)) && (tier >? TierSimple) then TierSimple
  else tier.

Definition recommendBackend (tier : Tier) : Backend :=
  match DefaultTierConfigs !! tier with
  | Some cfg => PrimaryBackend cfg
  | None => BackendClaudeSonnet
  end.

Definition itoa (i : Z) : string := pretty i.

Definition generateReasoning (result : ClassificationResult) : string :=
  let parts := ["Tier: " +:+ Tier_String (Tier_ result)] in
  let parts :=
    if (0 <? Z.of_nat (length (Patterns result)))
    then (parts ++ ["Matched patterns: " +:+ strings.Join (Patterns result) ", "])%list
    else parts in
  let parts :=
    (parts ++ ["Estimated scope: ~" +:+ itoa (EstimatedLines result) +:+ " lines across "
              +:+ itoa (EstimatedFiles result) +:+ " file(s)"])%list in
  strings.Join parts ". ".

Definition min (a b : float) : float :=
  if PrimFloat.ltb a b then a else b.

(** *** The scoring loop of [Classify] *)

(** The two maps the first loop fills: [scores] and [matchedPatterns]. *)
Definition ScoreMaps : Type := (gmap Z float * gmap Z (list string))%type.

(** One pattern of one tier: [scores[tier] += p.Weight] and the append
    to [matchedPatterns[tier]] (a missing key reads as 0.0 and nil). *)
Definition scorePattern (text : string) (tier : Tier) (st : ScoreMaps) (p : Pattern)
  : ScoreMaps :=
  if regexp.MatchString (Regex p) text then
    (<[tier := (default 0%float (st.1 !! tier) + Weight p)%float]> (st.1),
     <[tier := (default [] (st.2 !! tier) ++ [Name p])%list]> (st.2))
  else st.

Definition scoreTier (c : Classifier) (text : string) (st : ScoreMaps) (tier : Tier)
  : ScoreMaps :=
  match patterns c !! tier with
  | Some ps => fold_left (scorePattern text tier) ps st
  | None => st
  end.

Definition scoreAll (c : Classifier) (text : string) (order : list Tier) : ScoreMaps :=
  fold_left (scoreTier c text) order (∅, ∅).

(** *** The selection loop of [Classify] *)

(** The variables the second loop updates: [maxScore], [result.Tier]
    and [result.Patterns]. *)
Record Best : Type := mkBest {
  maxScore : float;
  bestTier : Tier;
  bestPatterns : list string
}.

Definition pickTier (maps : ScoreMaps) (b : Best) (tier : Tier) : Best :=
  match maps.1 !! tier with
  | Some score =>
      if PrimFloat.ltb (maxScore b) score
      then mkBest score tier (default [] (maps.2 !! tier))
      else b
  | None => b
  end.

Definition pickBest (maps : ScoreMaps) (order : list Tier) : Best :=
  fold_left (pickTier maps) order (mkBest 0%float TierStandard []).

(** [Classify]; [order1] is the visiting order of the range over
    [c.patterns] and [order2] that of the range over [scores]. *)
Definition Classify (c : Classifier) (order1 order2 : list Tier)
    (title description : string) : ClassificationResult :=
  let text := strings.ToLower (title +:+ " " +:+ description) in
  let maps := scoreAll c text order1 in
  let best := pickBest maps order2 in
  let confidence :=
    if PrimFloat.ltb 0%float (maxScore best)
    then min 0.95%float (0.5 + (maxScore best * 0.15))%float
    else 0.5%float in
  let lines := estimateLines text in
  let files := estimateFiles text in
  let tier := adjustTierByScope (bestTier best) lines files in
  let backend := recommendBackend tier in
  let result :=
    mkClassificationResult tier confidence backend "" (bestPatterns best) lines files in
  mkClassificationResult tier confidence backend (generateReasoning result)
                         (bestPatterns best) lines files.

End classifier.

(** ** Package [ledger] (internal/ledger/ledger.go)

    The SQLite database is the pair of its [tasks] and [executions]
    tables, rows in rowid (insertion) order.  A statement fails only on a
    violated PRIMARY KEY; foreign keys are not enforced by the engine's
    default settings, and the NOT NULL columns always receive Go strings. *)

Module ledger.

Module Task.
Record t : Type := mk {
  ID : string;
  ParentID : option string;
  Title : string;
  Description : string;
  Tier : Z;
  Status : string;
  WorkerBackend : string;
  ContextPath : string;
  CreatedAt : Z;
  UpdatedAt : Z
}.
End Task.

Module Execution.
Record t : Type := mk {
  ID : string;
  TaskID : string;
  WorkerID : string;
  Backend : string;
  InputHash : string;
  Output : string;
  TokensUsed : Z;
  CostUSD : float;
  DurationMs : Z;
  Status : string;
  ErrorMsg : string;
  CreatedAt : Z
}.
End Execution.

Record Ledger : Type := mkLedger {
  tasks : list Task.t;
  executions : list Execution.t
}.

Record Stats : Type := mkStats {
  TotalTasks : Z;
  PendingTasks : Z;
  CompletedTasks : Z;
  TotalExecutions : Z;
  ClaudeTasks : Z;
  ClaudeCost : float;
  GeminiTasks : Z;
  GeminiCost : float;
  OllamaTasks : Z;
  OllamaCost : float;
  EstimatedSavings : float;
  SavingsPercent : float
}.

(** A Go [error]: [None] is nil. *)
Definition error : Type := option string.

(** [Init]: the schema with empty tables. *)
Definition Init : Ledger := mkLedger [] [].

(** *** The SQL the queries use *)

(** [SELECT COUNT( * ) FROM rows WHERE cond] *)
Definition COUNT {A : Type} (cond : A -> bool) (rows : list A) : Z :=
  Z.of_nat (length (List.filter cond rows)).

(** A [float64] bound to a statement, or returned by a function, is
    stored as a REAL, except a NaN, which the engine stores as NULL.  A
    row keeps the [float64] it was given; its column reads [REAL] of it. *)
Definition REAL (v : float) : option float :=
  if PrimFloat.is_nan v then None else Some v.

(** The accumulator of the engine's SUM: the running sum, the error term
    of the Kahan-Babuska-Neumaier summation, and the number of values
    that are not NULL.  The column summed here has REAL affinity, so
    every value that is not NULL is a REAL and the accumulator's integer
    sum is never used. *)
Record SumCtx : Type := mkSumCtx { rSum : float; rErr : float; cnt : Z }.

Definition kahanBabuskaNeumaierStep (p : SumCtx) (r : float) : SumCtx :=
  let s := rSum p in
  let t := (s + r)%float in
  let err := if PrimFloat.ltb (PrimFloat.abs r) (PrimFloat.abs s)
             then (rErr p + ((s - t) + r))%float
             else (rErr p + ((r - t) + s))%float in
  mkSumCtx t err (cnt p).

(** One row of the aggregate; a NULL is skipped. *)
Definition sumStep (p : SumCtx) (v : option float) : SumCtx :=
  match v with
  | None => p
  | Some r => kahanBabuskaNeumaierStep (mkSumCtx (rSum p) (rErr p) (cnt p + 1)) r
  end.

(** The error term is an infinity or a NaN. *)
Definition IsOverflow (x : float) : bool :=
  PrimFloat.is_nan x || PrimFloat.is_infinity x.

(** The value of the aggregate: NULL when no value was summed. *)
Definition sumFinalize (p : SumCtx) : option float :=
  if cnt p >? 0
  then REAL (if IsOverflow (rErr p) then rSum p else (rSum p + rErr p)%float)
  else None.

(** [COALESCE(SUM(col), 0)] over the selected rows, scanned into a
    [float64]: the engine sums the values in row order with the
    compensated summation above. *)
Definition SUM {A : Type} (col : A -> float) (cond : A -> bool) (rows : list A)
  : float :=
  let p := fold_left (fun p row => sumStep p (REAL (col row)))
                     (List.filter cond rows) (mkSumCtx 0 0 0) in
  match sumFinalize p with
  | Some v => v
  | None => 0%float
  end.

(** [col LIKE 'prefix%']; LIKE ignores the case of ASCII letters. *)
Definition LIKE_prefix (prefix col : string) : bool :=
  strings.HasPrefix (strings.ToLower col) (strings.ToLower prefix).

Definition IN (x : string) (l : list string) : bool :=
  existsb (String.eqb x) l.

(** *** The operations; [now] is the statement's CURRENT_TIMESTAMP *)

Definition CreateTask (now : Z) (task : Task.t) (l : Ledger) : error * Ledger :=
  if existsb (fun row => String.eqb (Task.ID row) (Task.ID task)) (tasks l)
  then (Some "UNIQUE constraint failed: tasks.id", l)
  else
    let row := Task.mk (Task.ID task) (Task.ParentID task) (Task.Title task)
                       (Task.Description task) (Task.Tier task) (Task.Status task)
                       (Task.WorkerBackend task) (Task.ContextPath task) now now in
    (None, mkLedger (tasks l ++ [row]) (executions l)).

Definition UpdateTaskStatus (now : Z) (id status : string) (l : Ledger)
  : error * Ledger :=
  let update row :=
    if String.eqb (Task.ID row) id
    then Task.mk (Task.ID row) (Task.ParentID row) (Task.Title row)
                 (Task.Description row) (Task.Tier row) status
                 (Task.WorkerBackend row) (Task.ContextPath row)
                 (Task.CreatedAt row) now
    else row in
  (None, mkLedger (map update (tasks l)) (executions l)).

Definition GetTask (id : string) (l : Ledger) : Task.t + string :=
  match find (fun row => String.eqb (Task.ID row) id) (tasks l) with
  | Some row => inl row
  | None => inr "sql: no rows in result set"
  end.

(** The row keeps the cost it was given; the [cost_usd] column reads
    [REAL] of it, so a NaN cost is a NULL to the queries. *)
Definition CreateExecution (now : Z) (exec : Execution.t) (l : Ledger)
  : error * Ledger :=
  if existsb (fun row => String.eqb (Execution.ID row) (Execution.ID exec))
             (executions l)
  then (Some "UNIQUE constraint failed: executions.id", l)
  else
    let row := Execution.mk (Execution.ID exec) (Execution.TaskID exec)
                 (Execution.WorkerID exec) (Execution.Backend exec)
                 (Execution.InputHash exec) (Execution.Output exec)
                 (Execution.TokensUsed exec) (Execution.CostUSD exec)
                 (Execution.DurationMs exec) (Execution.Status exec)
                 (Execution.ErrorMsg exec) now in
    (None, mkLedger (tasks l) (executions l ++ [row])).

(** [float64(n)] for a row count. *)
Definition float64 (n : Z) : float := PrimFloat.of_uint63 (Uint63.of_Z n).

Definition GetStats (l : Ledger) : Stats :=
  let all {A : Type} (_ : A) := true in
  let totalTasks := COUNT all (tasks l) in
  let pendingTasks :=
    COUNT (fun row => IN (Task.Status row)
                         ["pending"; "assigned"; "working"; "validating"]) (tasks l) in
  let completedTasks := COUNT (fun row => String.eqb (Task.Status row) "done") (tasks l) in
  let totalExecutions := COUNT all (executions l) in
  let class prefix := fun row => LIKE_prefix prefix (Execution.Backend row) in
  let claudeTasks := COUNT (class "claude:") (executions l) in
  let claudeCost := SUM Execution.CostUSD (class "claude:") (executions l) in
  let geminiTasks := COUNT (class "gemini:") (executions l) in
  let geminiCost := SUM Execution.CostUSD (class "gemini:") (executions l) in
  let ollamaTasks := COUNT (class "ollama:") (executions l) in
  let ollamaCost := SUM Execution.CostUSD (class "ollama:") (executions l) in
  let nonClaudeTasks := ollamaTasks + geminiTasks in
  let estimatedSavings := (float64 nonClaudeTasks * 0.05 - geminiCost)%float in
  let savingsPercent :=
    if PrimFloat.ltb 0%float (claudeCost + geminiCost + estimatedSavings)%float
    then
      let totalEstClaudeCost := (claudeCost + geminiCost + estimatedSavings)%float in
      ((estimatedSavings / totalEstClaudeCost) * 100)%float
    else 0%float in
  mkStats totalTasks pendingTasks completedTasks totalExecutions
          claudeTasks claudeCost geminiTasks geminiCost ollamaTasks ollamaCost
          estimatedSavings savingsPercent.

End ledger.

(** ** Package [conductor], conductor.go *)

Module conductor.
Import types classifier.

(** The [Worker] interface.  [Available] is the value the method
    reports during the run; [Execute] yields the result or the Go
    error (the workers never return a nil result with a nil error). *)
Record Worker : Type := mkWorker {
  Execute : types.Task -> ExecutionResult + string;
  Available : bool;
  Backend : types.Backend;
  CheckQuota : ledger.error
}.

(** The conductor: its classifier and its registry.  The ledger it
    points to is the state of the computations below; the stored
    configuration is not read by any of them. *)
Record Conductor : Type := mkConductor {
  classifier : Classifier;
  workers : gmap string Worker
}.

Definition NewConductor : Conductor := mkConductor NewClassifier ∅.

Definition RegisterWorker (c : Conductor) (w : Worker) : Conductor :=
  mkConductor (classifier c) (<[Backend w := w]> (workers c)).

(** The outcome of a run ([ValidationResults] is never assigned and is
    left out). *)
Record RunResult : Type := mkRunResult {
  TaskID : string;
  Classification : ClassificationResult;
  ActualBackend : types.Backend;
  FallbackBackend : types.Backend;
  WorkerAvailable : bool;
  Execution : option ExecutionResult;
  Status : TaskStatus;
  Error : string;
  StartTime : Z;
  EndTime : Z;
  Duration : Z;
  ValidationRequired : bool;
  ValidationPending : bool;
  DryRun_ : bool
}.

(** What a run reads from outside: the visiting orders of the two map
    loops of [Classify], the two identifiers [generateID] draws, the
    two readings of [time.Now] (nanoseconds), and the timestamp of the
    run's n-th ledger statement. *)
Record Env : Type := mkEnv {
  order1 : list Tier;
  order2 : list Tier;
  taskID : string;
  execID : string;
  startTime : Z;
  endTime : Z;
  sqlNow : nat -> Z
}.

(** *** Computations on the ledger that may return a Go error *)

Definition M (A : Type) : Type := ledger.Ledger -> (A + string) * ledger.Ledger.

Definition ret {A : Type} (a : A) : M A := fun l => (inl a, l).

Definition fail {A : Type} (msg : string) : M A := fun l => (inr msg, l).

Definition bind {A B : Type} (m : M A) (k : A -> M B) : M B :=
  fun l => match m l with
           | (inl a, l') => k a l'
           | (inr e, l') => (inr e, l')
           end.

(** [if err := op; err != nil { return nil, fmt.Errorf(msg + ": %w", err) }] *)
Definition check (msg : string) (op : ledger.Ledger -> ledger.error * ledger.Ledger)
  : M unit :=
  fun l => match op l with
           | (None, l') => (inl tt, l')
           | (Some e, l') => (inr (msg +:+ ": " +:+ e), l')
           end.

(** A ledger call whose error is dropped. *)
Definition ignore (op : ledger.Ledger -> ledger.error * ledger.Ledger) : M unit :=
  fun l => (inl tt, snd (op l)).

Declare Scope ledger_scope.
Delimit Scope ledger_scope with ledger.
Notation "x <- m ;; k" := (bind m (fun x => k))
  (at level 100, m at next level, right associativity) : ledger_scope.
Notation "m ;;; k" := (bind m (fun _ => k))
  (at level 100, right associativity) : ledger_scope.
Local Open Scope ledger_scope.

(** *** Fallback resolution *)

Fixpoint firstAvailable (registry : gmap string Worker) (fallbacks : list types.Backend)
  : option Worker :=
  match fallbacks with
  | [] => None
  | backend :: rest =>
      match registry !! backend with
      | Some w => if Available w then Some w else firstAvailable registry rest
      | None => firstAvailable registry rest
      end
  end.

Definition fallbacksFor (tier : Tier) : list types.Backend :=
  if (tier =? TierTrivial) || (tier =? TierSimple)
  then [BackendOllama; BackendOllamaFast; BackendClaudeHaiku]
  else if tier =? TierStandard
  then [BackendClaudeSonnet; BackendOllamaReason; BackendClaudeHaiku]
  else if (tier =? TierComplex) || (tier =? TierCritical)
  then [BackendClaudeOpus; BackendClaudeSonnet]
  else [].

Definition findFallbackWorker (c : Conductor) (tier : Tier) : option Worker :=
  firstAvailable (workers c) (fallbacksFor tier).

(** *** [Run] *)

Definition validatorCount (tier : Tier) : Z :=
  ValidatorCount (default zeroTierConfig (DefaultTierConfigs !! tier)).

(** Step 3 of [Run]: the worker to use and the backend recorded as
    [ActualBackend], or nothing. *)
Definition resolveWorker (c : Conductor) (classification : ClassificationResult)
  : option (Worker * types.Backend) :=
  let primary :=
    match workers c !! RecommendedBackend classification with
    | Some worker => if Available worker then Some worker else None
    | None => None
    end in
  match primary with
  | Some worker => Some (worker, RecommendedBackend classification)
  | None =>
      (* try the fallback backends *)
      match findFallbackWorker c (Tier_ classification) with
      | Some worker => Some (worker, Backend worker)
      | None => None
      end
  end.

Definition Run (c : Conductor) (env : Env) (title description : string) : M RunResult :=
  (* Step 1: classify *)
  let classification :=
    Classify (classifier c) (order1 env) (order2 env) title description in
  (* Step 2: create the task in the ledger *)
  let task :=
    ledger.Task.mk (taskID env) None title description (Tier_ classification)
                   StatusPending (RecommendedBackend classification) "" 0 0 in
  check "failed to create task" (ledger.CreateTask (sqlNow env 0) task) ;;;
  let result actual execution status error endT duration required pending :=
    mkRunResult (ledger.Task.ID task) classification actual "" false execution status
                error (startTime env) endT duration required pending false in
  (* Step 3: find an available worker *)
  match resolveWorker c classification with
  | None =>
      ret (result "" None StatusFailed "no available worker for this task tier"
                  0 0 false false)
  | Some (worker, actualBackend) =>
      (* Step 4: update the status and execute *)
      check "failed to update task status"
            (ledger.UpdateTaskStatus (sqlNow env 1) (ledger.Task.ID task) StatusWorking) ;;;
      match Execute worker
              (types.mkTask (ledger.Task.ID task) "" title description
                            (Tier_ classification) "" actualBackend "" 0 0) with
      | inr err =>
          ignore (ledger.UpdateTaskStatus (sqlNow env 2) (ledger.Task.ID task) StatusFailed) ;;;
          ret (result actualBackend None StatusFailed err 0 0 false false)
      | inl execResult =>
          if negb (Success execResult) then
            ignore (ledger.UpdateTaskStatus (sqlNow env 2) (ledger.Task.ID task)
                                            StatusFailed) ;;;
            ret (result actualBackend (Some execResult) StatusFailed
                        (types.Error execResult) 0 0 false false)
          else
            let duration := endTime env - startTime env in
            (* Step 5: record the execution *)
            let exec :=
              ledger.Execution.mk (execID env) (ledger.Task.ID task) "" actualBackend ""
                (Output execResult) (TokensUsed execResult) (CostUSD execResult)
                (Z.quot duration 1000000) "completed" "" 0 in
            let exec :=
              if negb (Success execResult)
              then ledger.Execution.mk
                     (ledger.Execution.ID exec) (ledger.Execution.TaskID exec)
                     (ledger.Execution.WorkerID exec) (ledger.Execution.Backend exec)
                     (ledger.Execution.InputHash exec) (ledger.Execution.Output exec)
                     (ledger.Execution.TokensUsed exec) (ledger.Execution.CostUSD exec)
                     (ledger.Execution.DurationMs exec) "failed" (types.Error execResult)
                     (ledger.Execution.CreatedAt exec)
              else exec in
            check "failed to record execution"
                  (ledger.CreateExecution (sqlNow env 2) exec) ;;;
            (* Step 6: validation, if the tier requires it *)
            let required := validatorCount (Tier_ classification) >? 0 in
            let pending := required in
            (* the final status *)
            if Success execResult then
              if required && pending then
                ignore (ledger.UpdateTaskStatus (sqlNow env 3) (ledger.Task.ID task)
                                                StatusValidating) ;;;
                ret (result actualBackend (Some execResult) StatusValidating ""
                            (endTime env) duration required pending)
              else
                ignore (ledger.UpdateTaskStatus (sqlNow env 3) (ledger.Task.ID task)
                                                StatusDone) ;;;
                ret (result actualBackend (Some execResult) StatusDone ""
                            (endTime env) duration required pending)
            else
              ignore (ledger.UpdateTaskStatus (sqlNow env 3) (ledger.Task.ID task)
                                              StatusFailed) ;;;
              ret (result actualBackend (Some execResult) StatusFailed ""
                          (endTime env) duration required pending)
      end
  end.

(** *** [DryRun] *)

Definition DryRun (c : Conductor) (env : Env) (title description : string)
  : M RunResult :=
  let classification :=
    Classify (classifier c) (order1 env) (order2 env) title description in
  (* the worker's availability *)
  let workerAvailable :=
    match workers c !! RecommendedBackend classification with
    | Some worker => Available worker
    | None => false
    end in
  let fallbackBackend :=
    if negb workerAvailable then
      match findFallbackWorker c (Tier_ classification) with
      | Some fb => Backend fb
      | None => ""
      end
    else "" in
  ret (mkRunResult "" classification (RecommendedBackend classification)
                   fallbackBackend workerAvailable None "" "" 0 0 0
                   (validatorCount (Tier_ classification) >? 0) false true).

End conductor.

(** * Specification vocabulary

    Definitions the statements below are written with. *)

Module classifier_spec.
Import types classifier.

(** The accumulators of one tier, as the loop over its patterns fills
    them. *)
Definition Acc : Type := (option float * option (list string))%type.

Definition accPattern (text : string) (acc : Acc) (p : Pattern) : Acc :=
  if regexp.MatchString (Regex p) text then
    (Some (default 0%float acc.1 + Weight p)%float,
     Some (default [] acc.2 ++ [Name p])%list)
  else acc.

Definition tierAcc (c : Classifier) (text : string) (tier : Tier) : Acc :=
  match patterns c !! tier with
  | Some ps => fold_left (accPattern text) ps (None, None)
  | None => (None, None)
  end.

(** [scores[tier]], if the key is present. *)
Definition tierScore (text : string) (tier : Tier) : option float :=
  (tierAcc NewClassifier text tier).1.

Definition at_key (st : ScoreMaps) (k : Tier) : Acc := (st.1 !! k, st.2 !! k).

(** The score accumulator alone, over the weights and the outcomes of
    the matches. *)
Definition addScore (acc : option float) (wb : float * bool) : option float :=
  if wb.2 then Some (default 0%float acc + wb.1)%float else acc.

Definition tierWeights (t : Tier) : list float :=
  match initPatterns !! t with
  | Some ps => map Weight ps
  | None => []
  end.

Definition noBest : Best := mkBest 0%float TierStandard [].

(** Every byte of the string is below 128. *)
Definition isASCII (s : string) : bool :=
  forallb (fun c => (N_of_ascii c <? 128)%N) (list_ascii_of_string s).

(** What the loop has selected after visiting [order]: nothing when no
    visited tier has a score, else a visited tier with its score and
    patterns, and no visited tier has a greater score. *)
Definition Selected (maps : ScoreMaps) (order : list Tier) (b : Best) : Prop :=
  ((forall t, t ∈ order -> maps.1 !! t = None) /\ b = noBest) \/
  (exists t, t ∈ order /\ maps.1 !! t = Some (maxScore b) /\ bestTier b = t /\
             bestPatterns b = default [] (maps.2 !! t) /\
             forall t' s', t' ∈ order -> maps.1 !! t' = Some s' ->
                           PrimFloat.ltb (maxScore b) s' = false).

Definition matchesTier (text : string) (t : Tier) : bool :=
  match patterns NewClassifier !! t with
  | Some ps => existsb (fun p => regexp.MatchString (Regex p) text) ps
  | None => false
  end.

(** Some pattern of some tier matches the text. *)
Definition matchesAny (text : string) : bool := existsb (matchesTier text) allTiers.

(** Tier [t] has a score and every other tier's score is smaller. *)
Definition strictlyHighest (text : string) (t : Tier) : bool :=
  match tierScore text t with
  | Some s =>
      forallb (fun t' => (t' =? t) ||
                         match tierScore text t' with
                         | Some s' => PrimFloat.ltb s' s
                         | None => true
                         end) allTiers
  | None => false
  end.

(** No two tiers share the highest score. *)
Definition noTopTie (text : string) : bool :=
  negb (matchesAny text) || existsb (strictlyHighest text) allTiers.

(** A scope cue other than those of the phrase "across the entire
    codebase": a line cue tested before "entire" or a file cue tested
    before "across". *)
Definition otherScopeCue (text : string) : bool :=
  existsb (strings.Contains text)
    ["single line"; "one line"; "few lines"; "small"; "minor"; "large"; "major";
     "significant"; "single file"; "one file"; "this file"; "multiple file";
     "several file"].

End classifier_spec.

Module ledger_spec.
Import ledger.

(** The row an INSERT stores: the columns given, stamped by the engine. *)
Definition taskRow (now : Z) (task : Task.t) : Task.t :=
  Task.mk (Task.ID task) (Task.ParentID task) (Task.Title task) (Task.Description task)
          (Task.Tier task) (Task.Status task) (Task.WorkerBackend task)
          (Task.ContextPath task) now now.

Definition executionRow (now : Z) (exec : Execution.t) : Execution.t :=
  Execution.mk (Execution.ID exec) (Execution.TaskID exec) (Execution.WorkerID exec)
               (Execution.Backend exec) (Execution.InputHash exec)
               (Execution.Output exec) (Execution.TokensUsed exec)
               (Execution.CostUSD exec) (Execution.DurationMs exec)
               (Execution.Status exec) (Execution.ErrorMsg exec) now.

Definition setStatus (now : Z) (status : string) (row : Task.t) : Task.t :=
  Task.mk (Task.ID row) (Task.ParentID row) (Task.Title row) (Task.Description row)
          (Task.Tier row) status (Task.WorkerBackend row) (Task.ContextPath row)
          (Task.CreatedAt row) now.

Definition hasTask (id : string) (rows : list Task.t) : bool :=
  existsb (fun row => String.eqb (Task.ID row) id) rows.

Definition hasExecution (id : string) (rows : list Execution.t) : bool :=
  existsb (fun row => String.eqb (Execution.ID row) id) rows.

(** A sequence of calls, stopping at the first error. *)
Fixpoint CreateTasks (now : Z) (ts : list Task.t) (l : Ledger) : error * Ledger :=
  match ts with
  | [] => (None, l)
  | task :: ts' =>
      match CreateTask now task l with
      | (None, l') => CreateTasks now ts' l'
      | failed => failed
      end
  end.

Fixpoint CreateExecutions (now : Z) (es : list Execution.t) (l : Ledger)
  : error * Ledger :=
  match es with
  | [] => (None, l)
  | exec :: es' =>
      match CreateExecution now exec l with
      | (None, l') => CreateExecutions now es' l'
      | failed => failed
      end
  end.

Definition UpdateStatuses (now : Z) (ups : list (string * string)) (l : Ledger)
  : Ledger :=
  fold_left (fun l' up => snd (UpdateTaskStatus now up.1 up.2 l')) ups l.

(** The status a created task has after the updates [ups]. *)
Definition statusAfter (ups : list (string * string)) (task : Task.t) : string :=
  fold_left (fun st up => if String.eqb (Task.ID task) up.1 then up.2 else st)
            ups (Task.Status task).

(** The backend class of an execution, as the LIKE patterns decide it. *)
Definition inClass (prefix : string) (exec : Execution.t) : bool :=
  LIKE_prefix prefix (Execution.Backend exec).

(** [backend] starts with [prefix], up to the case of ASCII letters. *)
Definition startsWithFold (prefix backend : string) : Prop :=
  exists head rest, backend = head +:+ rest /\
                    strings.ToLower head = strings.ToLower prefix.

Definition count {A : Type} (cond : A -> bool) (rows : list A) : Z :=
  Z.of_nat (length (List.filter cond rows)).

(** The costs of a list of records added up in [float64], in list
    order: the sum a caller computes from the records it inserted. *)
Definition sumCost (es : list Execution.t) : float :=
  fold_left (fun acc exec => (acc + Execution.CostUSD exec)%float) es 0%float.

(** The engine's SUM of a list of costs, in list order: compensated, a
    NaN cost skipped, 0 when no cost is left. *)
Definition engineSum (costs : list float) : float :=
  SUM (fun cost => cost) (fun _ => true) costs.

(** The inserted costs of a backend class. *)
Definition classCosts (prefix : string) (es : list Execution.t) : list float :=
  map Execution.CostUSD (List.filter (inClass prefix) es).

(** [total] is the cost of a class: when the class has a single record,
    and its cost is not a NaN, [total == cost] in [float64]. *)
Definition singleCost (prefix : string) (es : list Execution.t) (total : float) : Prop :=
  forall exec, List.filter (inClass prefix) es = [exec] ->
               PrimFloat.is_nan (Execution.CostUSD exec) = false ->
               PrimFloat.eqb total (Execution.CostUSD exec) = true.

End ledger_spec.

Module conductor_spec.
Import types classifier conductor.

(** The row of the run's task, with its status and last update. *)
Definition runRow (env : Env) (title description : string)
    (cls : ClassificationResult) (status : string) (updated : Z) : ledger.Task.t :=
  ledger.Task.mk (taskID env) None title description (Tier_ cls) status
                 (RecommendedBackend cls) "" (sqlNow env 0) updated.

(** The task [Run] hands to the worker. *)
Definition workerTask (env : Env) (title description : string)
    (cls : ClassificationResult) (actual : types.Backend) : types.Task :=
  types.mkTask (taskID env) "" title description (Tier_ cls) "" actual "" 0 0.

(** The execution row [Run] records for a successful result. *)
Definition runExecution (env : Env) (actual : types.Backend) (res : ExecutionResult)
  : ledger.Execution.t :=
  ledger.Execution.mk (execID env) (taskID env) "" actual "" (Output res)
    (TokensUsed res) (CostUSD res) (Z.quot (endTime env - startTime env) 1000000)
    "completed" "" (sqlNow env 2).

(** The conductors a program can build. *)
Inductive Registered : Conductor -> Prop :=
| Registered_new : Registered NewConductor
| Registered_worker c w : Registered c -> Registered (RegisterWorker c w).

(** The worker registered for [backend], if it reports available. *)
Definition availableWorker (c : Conductor) (backend : types.Backend) : option Worker :=
  match workers c !! backend with
  | Some w => if Available w then Some w else None
  | None => None
  end.

(** An environment and workers for the worked examples. *)
Definition exampleEnv : Env :=
  mkEnv allTiers allTiers "0a1b2c3d" "4e5f6a7b" 0 1500000 (fun n => 100 + Z.of_nat n).

Definition mockWorker (backend : types.Backend) (result : ExecutionResult + string)
  : Worker :=
  mkWorker (fun _ => result) true backend None.

Definition okResult (backend : types.Backend) (output : string) : ExecutionResult :=
  mkExecutionResult "" backend true output "" 10 0%float 0 "".

Definition failedResult (backend : types.Backend) (msg : string) : ExecutionResult :=
  mkExecutionResult "" backend false "" "" 0 0%float 0 msg.

End conductor_spec.

Module classifier_more_spec.
Import types classifier classifier_spec.

(** The text contains one of the cues. *)
Definition anyCue (text : string) (cues : list string) : bool :=
  existsb (strings.Contains text) cues.

(** The line cues that estimate fewer than ten lines. *)
Definition tinyLineCues : list string := ["single line"; "one line"; "few lines"].

(** The file cues that estimate one file. *)
Definition singleFileCues : list string := ["single file"; "one file"; "this file"].

(** The file cues tested before "codebase" and "project-wide". *)
Definition narrowerFileCues : list string :=
  ["single file"; "one file"; "this file"; "multiple file"; "several file";
   "across"; "throughout"].

(** The patterns of a list that match the text, by name, in table order. *)
Definition matchedNames (text : string) (ps : list Pattern) : list string :=
  map Name (List.filter (fun p => regexp.MatchString (Regex p) text) ps).

End classifier_more_spec.

Module ledger_more_spec.
Import ledger ledger_spec.

(** The PRIMARY KEY constraints: no two rows of a table share an id. *)
Definition UniqueIDs (l : Ledger) : Prop :=
  NoDup (map Task.ID (tasks l)) /\ NoDup (map Execution.ID (executions l)).

(** Every execution row names a task row. *)
Definition ExecutionsHaveTasks (l : Ledger) : Prop :=
  forall exec, exec ∈ executions l -> hasTask (Execution.TaskID exec) (tasks l) = true.

(** The ledgers the operations can produce from a new one. *)
Inductive Reachable : Ledger -> Prop :=
| Reachable_Init : Reachable Init
| Reachable_CreateTask now task l :
    Reachable l -> Reachable (CreateTask now task l).2
| Reachable_UpdateTaskStatus now id status l :
    Reachable l -> Reachable (UpdateTaskStatus now id status l).2
| Reachable_CreateExecution now exec l :
    Reachable l -> Reachable (CreateExecution now exec l).2.

(** The statuses [GetStats] counts as pending. *)
Definition isPending (row : Task.t) : bool :=
  IN (Task.Status row) ["pending"; "assigned"; "working"; "validating"].

Definition isDone (row : Task.t) : bool := String.eqb (Task.Status row) "done".

(** An execution whose backend is in none of the three classes. *)
Definition unclassified (exec : Execution.t) : bool :=
  negb (inClass "claude:" exec || inClass "gemini:" exec || inClass "ollama:" exec).

End ledger_more_spec.

(** * Properties *)

(** ** Order of [float64] values *)

Module float_order.

Lemma SFltb_asym x y : SFltb x y = true -> SFltb y x = false.
Proof.
  unfold SFltb, SFcompare.
  destruct x as [sx|sx| |sx mx ex], y as [sy|sy| |sy my ey];
    try destruct sx; try destruct sy; try discriminate; try reflexivity.
  all: destruct (Z.compare_spec ex ey), (Z.compare_spec ey ex); try lia;
       try discriminate; try reflexivity.
  all: rewrite !Pos.compare_cont_spec; cbn [Pos.switch_Eq];
       destruct (Pos.compare_spec mx my), (Pos.compare_spec my mx); try lia;
       cbn; try discriminate; try reflexivity.
Qed.

Lemma SFltb_trans x y z : SFltb x y = true -> SFltb y z = true -> SFltb x z = true.
Proof.
  unfold SFltb, SFcompare.
  destruct x as [sx|sx| |sx mx ex], y as [sy|sy| |sy my ey], z as [sz|sz| |sz mz ez];
    try destruct sx; try destruct sy; try destruct sz;
    try discriminate; try reflexivity.
  all: destruct (Z.compare_spec ex ey), (Z.compare_spec ey ez), (Z.compare_spec ex ez);
       try lia; try discriminate; try reflexivity.
  all: rewrite ?Pos.compare_cont_spec; cbn [Pos.switch_Eq];
       destruct (Pos.compare_spec mx my), (Pos.compare_spec my mz),
                (Pos.compare_spec mx mz);
       try lia; cbn; try discriminate; try reflexivity.
Qed.

Lemma ltb_asym (x y : float) : PrimFloat.ltb x y = true -> PrimFloat.ltb y x = false.
Proof. rewrite !ltb_spec. apply SFltb_asym. Qed.

Lemma ltb_trans (x y z : float) :
  PrimFloat.ltb x y = true -> PrimFloat.ltb y z = true -> PrimFloat.ltb x z = true.
Proof. rewrite !ltb_spec. apply SFltb_trans. Qed.

Lemma ltb_irrefl (x : float) : PrimFloat.ltb x x = false.
Proof.
  destruct (PrimFloat.ltb x x) eqn:E; [|reflexivity].
  pose proof (ltb_asym _ _ E). congruence.
Qed.

Lemma SFltb_total_pos x y :
  SFltb (S754_zero false) x = true -> SFltb (S754_zero false) y = true ->
  SFltb x y = false -> SFltb y x = false -> x = y.
Proof.
  unfold SFltb, SFcompare.
  destruct x as [sx|sx| |sx mx ex], y as [sy|sy| |sy my ey];
    try destruct sx; try destruct sy; try discriminate; try reflexivity.
  destruct (Z.compare_spec ex ey), (Z.compare_spec ey ex); try lia;
    try discriminate.
  rewrite !Pos.compare_cont_spec; cbn [Pos.switch_Eq].
  destruct (Pos.compare_spec mx my), (Pos.compare_spec my mx); try lia;
    cbn; try discriminate. intros. congruence.
Qed.

(** Two positive values neither of which is below the other are the
    same value. *)
Lemma ltb_total_pos (x y : float) :
  PrimFloat.ltb 0 x = true -> PrimFloat.ltb 0 y = true ->
  PrimFloat.ltb x y = false -> PrimFloat.ltb y x = false -> x = y.
Proof.
  rewrite !ltb_spec. change (Prim2SF 0) with (S754_zero false).
  intros. apply Prim2SF_inj. now apply SFltb_total_pos.
Qed.

Lemma SF_zero : Prim2SF 0 = S754_zero false.
Proof. reflexivity. Qed.

Lemma is_nan_SF x :
  PrimFloat.is_nan x = match Prim2SF x with S754_nan => true | _ => false end.
Proof.
  unfold PrimFloat.is_nan. rewrite FloatAxioms.eqb_spec. unfold SFeqb, SFcompare.
  destruct (Prim2SF x) as [s|s| |s m e]; try destruct s; try reflexivity.
  all: rewrite Z.compare_refl, ?Pos.compare_cont_refl; try reflexivity.
  all: rewrite Pos.compare_cont_spec, Pos.compare_refl; reflexivity.
Qed.

Lemma SFsub_diag s m e :
  SFsub prec emax (S754_finite s m e) (S754_finite s m e) = S754_zero false.
Proof.
  unfold SFsub. rewrite Z.min_id. unfold shl_align. rewrite !Z.sub_diag. cbn [fst].
  rewrite ?Z.sub_diag. reflexivity.
Qed.

End float_order.

(** ** The classifier *)

Module classifier_facts.
Import types classifier classifier_spec.

(** Every source of the pattern table is in the fragment [regexp.Compile]
    accepts, so [regexp.MustCompile] never takes its failure branch. *)
Lemma initPatterns_compile :
  forallb (fun entry =>
             forallb (fun row : string * string * float =>
                        match regexp.Compile (snd (fst row)) with
                        | Some _ => true
                        | None => false
                        end) (snd entry)) patternSources = true.
Proof. vm_compute. reflexivity. Qed.

(** *** What the scoring loop leaves in the two maps *)

Lemma scorePattern_at text tier st p k :
  at_key (scorePattern text tier st p) k =
  if decide (k = tier) then accPattern text (at_key st tier) p else at_key st k.
Proof.
  unfold scorePattern, accPattern, at_key.
  destruct (regexp.MatchString (Regex p) text); cbn [fst snd].
  - destruct (decide (k = tier)) as [->|Hne].
    + now rewrite !lookup_insert_eq.
    + now rewrite !lookup_insert_ne by congruence.
  - destruct (decide (k = tier)) as [->|Hne]; reflexivity.
Qed.

Lemma scorePatterns_at text tier ps : forall st k,
  at_key (fold_left (scorePattern text tier) ps st) k =
  if decide (k = tier) then fold_left (accPattern text) ps (at_key st tier)
  else at_key st k.
Proof.
  induction ps as [|p ps IH]; intros st k; cbn [fold_left].
  - destruct (decide (k = tier)) as [->|]; reflexivity.
  - rewrite IH, !scorePattern_at.
    destruct (decide (k = tier)) as [->|Hne].
    + now rewrite decide_True by reflexivity.
    + reflexivity.
Qed.

Lemma scoreTier_at c text st tier k :
  at_key st tier = (None, None) ->
  at_key (scoreTier c text st tier) k =
  if decide (k = tier) then tierAcc c text tier else at_key st k.
Proof.
  intros Hfresh. unfold scoreTier, tierAcc.
  destruct (patterns c !! tier) as [ps|].
  - now rewrite scorePatterns_at, Hfresh.
  - destruct (decide (k = tier)) as [->|]; [exact Hfresh | reflexivity].
Qed.

Lemma scoreTiers_at c text order : forall st k,
  NoDup order ->
  (forall t, t ∈ order -> at_key st t = (None, None)) ->
  at_key (fold_left (scoreTier c text) order st) k =
  if decide (k ∈ order) then tierAcc c text k else at_key st k.
Proof.
  induction order as [|t order IH]; intros st k Hnd Hfresh; cbn [fold_left].
  - rewrite decide_False; [reflexivity | apply not_elem_of_nil].
  - apply NoDup_cons in Hnd as [Hnotin Hnd].
    rewrite IH; [|assumption|].
    + rewrite scoreTier_at by (apply Hfresh; left).
      destruct (decide (k ∈ order)) as [Hin|Hout].
      * rewrite decide_True by now right. reflexivity.
      * destruct (decide (k = t)) as [->|Hne].
        -- rewrite decide_True by left. reflexivity.
        -- rewrite decide_False; [reflexivity|].
           rewrite elem_of_cons. intros [?|?]; congruence.
    + intros t' Hin. rewrite scoreTier_at by (apply Hfresh; left).
      rewrite decide_False by (intros ->; contradiction).
      apply Hfresh. now right.
Qed.

Lemma scoreAll_at c text order k :
  NoDup order ->
  at_key (scoreAll c text order) k =
  if decide (k ∈ order) then tierAcc c text k else (None, None).
Proof.
  intros Hnd. unfold scoreAll. rewrite scoreTiers_at; [|assumption|].
  - destruct (decide (k ∈ order)); [reflexivity|].
    unfold at_key; cbn. now rewrite !lookup_empty.
  - intros t _. unfold at_key; cbn. now rewrite !lookup_empty.
Qed.

Lemma allTiers_NoDup : NoDup allTiers.
Proof. unfold allTiers. repeat (apply NoDup_cons; split); try apply NoDup_nil_2;
  rewrite ?elem_of_cons, elem_of_nil; intuition discriminate. Qed.

Lemma MapOrder_NoDup order : MapOrder order -> NoDup order.
Proof. intros H. unfold MapOrder in H. rewrite <- H. apply allTiers_NoDup. Qed.

Lemma MapOrder_elem order t : MapOrder order -> t ∈ order <-> t ∈ allTiers.
Proof. intros H. unfold MapOrder in H. now rewrite H. Qed.

(** The maps do not depend on the order in which the first loop visits
    the tiers. *)
Lemma scoreAll_order c text order :
  MapOrder order -> scoreAll c text order = scoreAll c text allTiers.
Proof.
  intros Hord.
  assert (Hk : forall k, at_key (scoreAll c text order) k
                         = at_key (scoreAll c text allTiers) k).
  { intros k. rewrite !scoreAll_at by auto using MapOrder_NoDup, allTiers_NoDup.
    destruct (decide (k ∈ order)) as [Hin|Hout],
             (decide (k ∈ allTiers)) as [Hin'|Hout'];
      try reflexivity; exfalso.
    - apply Hout'. now apply (MapOrder_elem order).
    - apply Hout. now apply (MapOrder_elem order). }
  destruct (scoreAll c text order) as [s1 m1] eqn:E1.
  destruct (scoreAll c text allTiers) as [s2 m2] eqn:E2.
  f_equal; apply map_eq; intros k; specialize (Hk k); unfold at_key in Hk;
    cbn [fst snd] in Hk; now injection Hk.
Qed.

(** *** Scores are positive *)

Lemma initPatterns_keys t ps : initPatterns !! t = Some ps -> t ∈ allTiers.
Proof.
  intros H.
  assert (Hdom : dom initPatterns = list_to_set allTiers).
  { refine (bool_decide_unpack _ _). vm_compute. exact I. }
  apply elem_of_dom_2 in H. rewrite Hdom in H. now apply elem_of_list_to_set in H.
Qed.

Lemma accPattern_score text ps : forall acc,
  (fold_left (accPattern text) ps acc).1 =
  fold_left addScore
    (combine (map Weight ps) (map (fun p => regexp.MatchString (Regex p) text) ps))
    acc.1.
Proof.
  induction ps as [|p ps IH]; intros acc; cbn [fold_left map combine]; [reflexivity|].
  rewrite IH. f_equal. unfold accPattern, addScore; cbn [fst snd].
  now destruct (regexp.MatchString (Regex p) text).
Qed.

Lemma addScore_pos t flags s :
  t ∈ allTiers ->
  fold_left addScore (combine (tierWeights t) flags) None = Some s ->
  PrimFloat.ltb 0 s = true.
Proof.
  unfold allTiers. rewrite !elem_of_cons, elem_of_nil.
  intros [->|[->|[->|[->|[->|[]]]]]].
  all: match goal with
       | |- context [tierWeights ?t] =>
           let w := eval vm_compute in (tierWeights t) in
           change (tierWeights t) with w
       end.
  all: destruct flags as [|[] [|[] [|[] [|[] [|[] [|[] flags]]]]]];
       cbn [combine fold_left addScore fst snd default];
       first [discriminate | intros [= <-]; vm_compute; reflexivity].
Qed.

Lemma tierScore_pos text t s :
  tierScore text t = Some s -> PrimFloat.ltb 0 s = true.
Proof.
  unfold tierScore, tierAcc; cbn [patterns NewClassifier].
  destruct (initPatterns !! t) as [ps|] eqn:Hps; [|discriminate].
  rewrite accPattern_score. cbn [fst].
  replace (map Weight ps) with (tierWeights t) by (unfold tierWeights; now rewrite Hps).
  apply addScore_pos. eapply initPatterns_keys, Hps.
Qed.

(** *** The selection loop *)

Lemma pickBest_snoc maps order t :
  pickBest maps (order ++ [t]) = pickTier maps (pickBest maps order) t.
Proof. unfold pickBest. now rewrite fold_left_app. Qed.

Lemma pickBest_selected maps order :
  (forall t s, t ∈ order -> maps.1 !! t = Some s -> PrimFloat.ltb 0 s = true) ->
  Selected maps order (pickBest maps order).
Proof.
  induction order as [|x order IH] using rev_ind; intros Hpos.
  - left. split; [|reflexivity]. intros t Hin. now apply elem_of_nil in Hin.
  - rewrite pickBest_snoc.
    assert (IH' : Selected maps order (pickBest maps order)).
    { apply IH. intros t s Hin. apply Hpos, elem_of_app. now left. }
    clear IH. set (b := pickBest maps order) in *.
    unfold pickTier. destruct (maps.1 !! x) as [sx|] eqn:Hx.
    2:{ destruct IH' as [[Hnone ->]|(t & Hin & Hs & Ht & Hp & Hmax)].
        - left. split; [|reflexivity]. intros t [Hin|Hin%list_elem_of_singleton]%elem_of_app.
          + now apply Hnone.
          + now subst.
        - right. exists t. repeat split; try assumption.
          + apply elem_of_app. now left.
          + intros t' s' [Hin'|Hin'%list_elem_of_singleton]%elem_of_app Hs'.
            * eapply Hmax; eassumption.
            * subst. congruence. }
    assert (Hsx : PrimFloat.ltb 0 sx = true).
    { eapply Hpos; [|exact Hx]. apply elem_of_app. right. now apply list_elem_of_singleton. }
    destruct (PrimFloat.ltb (maxScore b) sx) eqn:Hlt.
    + right. exists x. cbn [maxScore bestTier bestPatterns]. repeat split; try assumption.
      * apply elem_of_app. right. now apply list_elem_of_singleton.
      * intros t' s' [Hin'|Hin'%list_elem_of_singleton]%elem_of_app Hs'.
        -- destruct IH' as [[Hnone _]|(t & _ & _ & _ & _ & Hmax)].
           ++ rewrite Hnone in Hs' by assumption. discriminate.
           ++ destruct (PrimFloat.ltb sx s') eqn:Hlt'; [|reflexivity].
              specialize (Hmax t' s' Hin' Hs').
              rewrite (float_order.ltb_trans _ _ _ Hlt Hlt') in Hmax. discriminate.
        -- subst t'. assert (s' = sx) as -> by congruence.
           apply float_order.ltb_irrefl.
    + destruct IH' as [[Hnone ->]|(t & Hin & Hs & Ht & Hp & Hmax)].
      * cbn [maxScore noBest] in Hlt. congruence.
      * right. exists t. repeat split; try assumption.
        -- apply elem_of_app. now left.
        -- intros t' s' [Hin'|Hin'%list_elem_of_singleton]%elem_of_app Hs'.
           ++ eapply Hmax; eassumption.
           ++ subst t'. assert (s' = sx) as -> by congruence. exact Hlt.
Qed.

(** *** Which tiers have a score *)

Lemma accPattern_nomatch text ps : forall acc,
  existsb (fun p => regexp.MatchString (Regex p) text) ps = false ->
  fold_left (accPattern text) ps acc = acc.
Proof.
  induction ps as [|p ps IH]; intros acc; cbn [fold_left existsb]; [reflexivity|].
  intros [Hp Hps]%orb_false_iff. rewrite IH by assumption.
  unfold accPattern. now rewrite Hp.
Qed.

(** Once both accumulators are set they stay set. *)
Lemma accPattern_set text ps : forall a b, exists a' b',
  fold_left (accPattern text) ps (Some a, Some b) = (Some a', Some b').
Proof.
  induction ps as [|q ps IH]; intros a b; cbn [fold_left]; [eauto|].
  unfold accPattern at 2. destruct (regexp.MatchString (Regex q) text); apply IH.
Qed.

Lemma accPattern_match text ps : forall acc,
  existsb (fun p => regexp.MatchString (Regex p) text) ps = true ->
  exists a b, fold_left (accPattern text) ps acc = (Some a, Some b).
Proof.
  induction ps as [|p ps IH]; intros acc; cbn [fold_left existsb]; [discriminate|].
  destruct (regexp.MatchString (Regex p) text) eqn:Hp; cbn [orb].
  - intros _. unfold accPattern at 2. rewrite Hp. apply accPattern_set.
  - intros Hps. unfold accPattern at 2. rewrite Hp. now apply IH.
Qed.

Lemma tierScore_nomatch text t : matchesTier text t = false -> tierScore text t = None.
Proof.
  unfold matchesTier, tierScore, tierAcc.
  destruct (patterns NewClassifier !! t) as [ps|]; [|reflexivity].
  intros H. now rewrite accPattern_nomatch.
Qed.

Lemma tierScore_match text t :
  matchesTier text t = true -> exists s, tierScore text t = Some s.
Proof.
  unfold matchesTier, tierScore, tierAcc.
  destruct (patterns NewClassifier !! t) as [ps|]; [|discriminate].
  intros H. destruct (accPattern_match text ps (None, None) H) as (a & b & ->). eauto.
Qed.

Lemma matchesAny_false text t :
  matchesAny text = false -> t ∈ allTiers -> tierScore text t = None.
Proof.
  unfold matchesAny. intros H Hin. apply tierScore_nomatch.
  destruct (matchesTier text t) eqn:E; [|reflexivity].
  assert (existsb (matchesTier text) allTiers = true); [|congruence].
  apply existsb_exists. exists t. split; [|assumption]. now apply list_elem_of_In.
Qed.

Lemma matchesAny_true text :
  matchesAny text = true -> exists t s, t ∈ allTiers /\ tierScore text t = Some s.
Proof.
  unfold matchesAny. intros (t & Hin & Hm)%existsb_exists.
  destruct (tierScore_match text t Hm) as [s Hs].
  exists t, s. split; [now apply list_elem_of_In | assumption].
Qed.

(** *** The selection made by [Classify] *)

Lemma Classify_selected text o1 o2 :
  MapOrder o1 -> MapOrder o2 ->
  let b := pickBest (scoreAll NewClassifier text o1) o2 in
  (matchesAny text = false /\ b = noBest) \/
  (exists t, t ∈ allTiers /\ tierAcc NewClassifier text t
                             = (Some (maxScore b), Some (bestPatterns b)) /\
             bestTier b = t /\ PrimFloat.ltb 0 (maxScore b) = true /\
             forall t' s', tierScore text t' = Some s' ->
                           PrimFloat.ltb (maxScore b) s' = false).
Proof.
  intros Ho1 Ho2 b.
  assert (Hat : forall t, t ∈ o2 ->
            at_key (scoreAll NewClassifier text o1) t = tierAcc NewClassifier text t).
  { intros t Hin. rewrite scoreAll_at by now apply MapOrder_NoDup.
    rewrite decide_True; [reflexivity|].
    apply (MapOrder_elem o1); [assumption|]. now apply (MapOrder_elem o2). }
  assert (Hsc : forall t, t ∈ o2 ->
            (scoreAll NewClassifier text o1).1 !! t = tierScore text t).
  { intros t Hin. specialize (Hat t Hin). unfold at_key, tierScore in *.
    now rewrite <- Hat. }
  destruct (pickBest_selected (scoreAll NewClassifier text o1) o2) as
    [[Hnone Hb]|(t & Hin & Hs & Ht & Hp & Hmax)].
  { intros t s Hin Hs. rewrite Hsc in Hs by assumption. eapply tierScore_pos, Hs. }
  - destruct (matchesAny text) eqn:Hany.
    + apply matchesAny_true in Hany as (t & s & Hin & Hs).
      apply (MapOrder_elem o2) in Hin; [|assumption].
      rewrite <- Hsc, Hnone in Hs by assumption. discriminate.
    + left. now split.
  - right. exists t. fold b in Hs, Ht, Hp, Hmax.
    pose proof (Hat t Hin) as Ht'. unfold at_key in Ht'. rewrite Hs in Ht'.
    assert (Hpos : PrimFloat.ltb 0 (maxScore b) = true).
    { eapply tierScore_pos. rewrite <- Hsc by eassumption. exact Hs. }
    repeat split.
    + now apply (MapOrder_elem o2).
    + rewrite <- Ht'. f_equal. rewrite Hp.
      destruct (tierAcc NewClassifier text t) as [a' b'] eqn:E.
      injection Ht' as Ha Hb'. rewrite Hb'.
      destruct b' as [pl|]; [reflexivity|].
      (* a tier with a score has a pattern list *)
      exfalso. unfold tierAcc in E.
      destruct (patterns NewClassifier !! t) as [ps|]; [|congruence].
      destruct (existsb (fun p => regexp.MatchString (Regex p) text) ps) eqn:Hm.
      * destruct (accPattern_match text ps (None, None) Hm) as (x & y & Hxy). congruence.
      * rewrite accPattern_nomatch in E by assumption. congruence.
    + assumption.
    + assumption.
    + intros t' s' Hs'.
      destruct (decide (t' ∈ allTiers)) as [Hin'|Hout].
      * apply (Hmax t'); [now apply (MapOrder_elem o2)|].
        rewrite Hsc; [assumption | now apply (MapOrder_elem o2)].
      * exfalso. unfold tierScore, tierAcc in Hs'. cbn [patterns NewClassifier] in Hs'.
        destruct (initPatterns !! t') as [ps|] eqn:Hps; [|discriminate].
        now apply initPatterns_keys in Hps.
Qed.

Lemma best_eta b : b = mkBest (maxScore b) (bestTier b) (bestPatterns b).
Proof. now destruct b. Qed.

(** With a strictly highest tier the selection is that tier, whatever
    the visiting orders. *)
Lemma pickBest_strictlyHighest text o1 o2 t :
  MapOrder o1 -> MapOrder o2 -> t ∈ allTiers -> strictlyHighest text t = true ->
  exists s ps, tierAcc NewClassifier text t = (Some s, Some ps) /\
               pickBest (scoreAll NewClassifier text o1) o2 = mkBest s t ps.
Proof.
  intros Ho1 Ho2 Hin Hhigh. unfold strictlyHighest in Hhigh.
  destruct (tierScore text t) as [s|] eqn:Hs; [|discriminate].
  rewrite forallb_forall in Hhigh.
  destruct (Classify_selected text o1 o2 Ho1 Ho2) as
    [[Hany _]|(t0 & Hin0 & Hacc & Ht0 & _ & Hmax)].
  - rewrite (matchesAny_false text t Hany Hin) in Hs. discriminate.
  - set (b := pickBest (scoreAll NewClassifier text o1) o2) in *.
    assert (t0 = t) as ->.
    { destruct (decide (t0 = t)) as [|Hne]; [assumption|exfalso].
      specialize (Hhigh t0 (proj1 (list_elem_of_In _ _) Hin0)).
      apply Z.eqb_neq in Hne. rewrite Hne in Hhigh. cbn [orb] in Hhigh.
      unfold tierScore in Hhigh at 1. rewrite Hacc in Hhigh. cbn [fst] in Hhigh.
      rewrite (Hmax t s Hs) in Hhigh. discriminate. }
    exists (maxScore b), (bestPatterns b). split; [assumption|].
    rewrite (best_eta b) at 1. now rewrite Ht0.
Qed.

Lemma pickBest_noTopTie text o1 o2 o1' o2' :
  MapOrder o1 -> MapOrder o2 -> MapOrder o1' -> MapOrder o2' ->
  noTopTie text = true ->
  pickBest (scoreAll NewClassifier text o1) o2 =
  pickBest (scoreAll NewClassifier text o1') o2'.
Proof.
  intros Ho1 Ho2 Ho1' Ho2' Htie. unfold noTopTie in Htie.
  apply orb_true_iff in Htie as [Hany|Hex].
  - apply negb_true_iff in Hany.
    destruct (Classify_selected text o1 o2 Ho1 Ho2) as [[_ ->]|(t & Hin & Hacc & _)],
             (Classify_selected text o1' o2' Ho1' Ho2') as [[_ ->]|(t' & Hin' & Hacc' & _)];
      try reflexivity; exfalso.
    all: match goal with
         | H : tierAcc _ _ ?x = _, Hx : ?x ∈ allTiers |- _ =>
             pose proof (matchesAny_false text x Hany Hx) as Hn;
             unfold tierScore in Hn; rewrite H in Hn; discriminate
         end.
  - apply existsb_exists in Hex as (t & Hin%list_elem_of_In & Hhigh).
    destruct (pickBest_strictlyHighest text o1 o2 t Ho1 Ho2 Hin Hhigh)
      as (s & ps & Hacc & ->).
    destruct (pickBest_strictlyHighest text o1' o2' t Ho1' Ho2' Hin Hhigh)
      as (s' & ps' & Hacc' & ->).
    congruence.
Qed.

(** *** Substrings *)

Lemma ToLower_app a b :
  strings.ToLower (a +:+ b) = strings.ToLower a +:+ strings.ToLower b.
Proof. induction a as [|c a IH]; simpl; [reflexivity | now rewrite IH]. Qed.

Lemma HasPrefix_app_l s p q :
  strings.HasPrefix s (p +:+ q) = true -> strings.HasPrefix s p = true.
Proof.
  revert s. induction p as [|c p IH]; intros s; [reflexivity|]. simpl.
  destruct s as [|d s]; [discriminate|].
  destruct (Ascii.eqb d c); [apply IH | discriminate].
Qed.

Lemma Contains_HasPrefix s p : strings.HasPrefix s p = true -> strings.Contains s p = true.
Proof. intros H. destruct s; cbn [strings.Contains]; now rewrite H. Qed.

Lemma Contains_tail c s p : strings.Contains s p = true -> strings.Contains (String c s) p = true.
Proof. intros H. cbn [strings.Contains]. rewrite H. apply orb_true_r. Qed.

Lemma HasPrefix_app_r s p q :
  strings.HasPrefix s (p +:+ q) = true -> strings.Contains s q = true.
Proof.
  revert s. induction p as [|c p IH]; intros s.
  - apply Contains_HasPrefix.
  - simpl. destruct s as [|d s]; [discriminate|].
    destruct (Ascii.eqb d c); [|discriminate].
    intros H. apply Contains_tail. now apply IH.
Qed.

Lemma Contains_app_l s p q :
  strings.Contains s (p +:+ q) = true -> strings.Contains s p = true.
Proof.
  induction s as [|c s IH]; cbn [strings.Contains].
  - rewrite !orb_false_r. apply HasPrefix_app_l.
  - intros [H|H]%orb_true_iff.
    + now rewrite (HasPrefix_app_l _ _ _ H).
    + rewrite (IH H). apply orb_true_r.
Qed.

Lemma Contains_app_r s p q :
  strings.Contains s (p +:+ q) = true -> strings.Contains s q = true.
Proof.
  induction s as [|c s IH].
  - cbn [strings.Contains]. rewrite orb_false_r. apply HasPrefix_app_r.
  - intros H. change (strings.HasPrefix (String c s) (p +:+ q)
                      || strings.Contains s (p +:+ q) = true) in H.
    apply orb_true_iff in H as [H|H].
    + now apply HasPrefix_app_r in H.
    + apply Contains_tail. now apply IH.
Qed.

Lemma estimateLines_le text : estimateLines text <= 500.
Proof. unfold estimateLines. repeat match goal with |- context [if ?b then _ else _] =>
         destruct b end; lia. Qed.

Lemma estimateFiles_across text :
  strings.Contains text "across" = true -> estimateFiles text <= 10.
Proof.
  intros H. unfold estimateFiles. rewrite H. cbn [orb].
  repeat match goal with |- context [if ?b then _ else _] => destruct b end; lia.
Qed.

Lemma Classify_fields o1 o2 title description :
  let text := strings.ToLower (title +:+ " " +:+ description) in
  let b := pickBest (scoreAll NewClassifier text o1) o2 in
  let r := Classify NewClassifier o1 o2 title description in
  Tier_ r = adjustTierByScope (bestTier b) (estimateLines text) (estimateFiles text) /\
  Confidence r = (if PrimFloat.ltb 0 (maxScore b)
                  then min 0.95 (0.5 + (maxScore b * 0.15)) else 0.5)%float /\
  Patterns r = bestPatterns b /\
  EstimatedLines r = estimateLines text /\ EstimatedFiles r = estimateFiles text /\
  RecommendedBackend r = recommendBackend (Tier_ r).
Proof. cbv zeta. unfold Classify. cbn [Tier_ Confidence Patterns EstimatedLines
  EstimatedFiles RecommendedBackend classifier.patterns]. repeat split. Qed.

(** C10: for every tier and scope estimate, [adjustTierByScope] returns
    critical only for a critical input and trivial only for a trivial
    input; when it raises the tier the result is at most complex, and
    when it lowers the tier the result is at least simple. *)
Theorem adjustTierByScope_clamp (t : Tier) (lines files : Z) :
  let r := adjustTierByScope t lines files in
  (r = TierCritical -> t = TierCritical) /\
  (r = TierTrivial -> t = TierTrivial) /\
  (t < r -> r <= TierComplex) /\
  (r < t -> TierSimple <= r).
Proof.
  cbv zeta. unfold adjustTierByScope, TierCritical, TierTrivial, TierComplex,
    TierStandard, TierSimple.
  repeat match goal with |- context [if ?b then _ else _] => destruct b eqn:? end;
    repeat split; intros; try lia.
  all: repeat match goal with
         | H : _ && _ = true |- _ => apply andb_true_iff in H as [? ?]
         | H : (_ <? _) = true |- _ => apply Z.ltb_lt in H
         | H : (_ >? _) = true |- _ => apply Z.gtb_lt in H
         end; lia.
Qed.

(** With no matching pattern the selection loop changes nothing. *)
Lemma Classify_no_match o1 o2 title description :
  MapOrder o1 -> MapOrder o2 ->
  let text := strings.ToLower (title +:+ " " +:+ description) in
  let r := Classify NewClassifier o1 o2 title description in
  matchesAny text = false ->
  Confidence r = 0.5%float /\ Patterns r = [] /\
  Tier_ r = adjustTierByScope TierStandard (estimateLines text) (estimateFiles text).
Proof.
  intros Ho1 Ho2 text r Hany.
  destruct (Classify_fields o1 o2 title description) as (Ht & Hc & Hp & _).
  fold text r in Ht, Hc, Hp.
  destruct (Classify_selected text o1 o2 Ho1 Ho2) as
    [[_ Hb]|(t & Hin & Hacc & _)].
  - rewrite Hb in Ht, Hc, Hp. repeat split; assumption.
  - pose proof (matchesAny_false text t Hany Hin) as Hn.
    unfold tierScore in Hn. rewrite Hacc in Hn. discriminate.
Qed.

(** C5, as the code has it, for an ASCII title and description: when no
    pattern matches, [Classify] returns confidence exactly 0.5, no
    pattern, and the default standard tier after the scope adjustment
    (which may move it); otherwise some tier [t] with the highest
    accumulated score [s] is selected, the confidence is
    min(0.95, 0.5 + s * 0.15), a function of [s] alone, and the tier is
    [t] after the scope adjustment. *)
Theorem Classify_confidence (title description : string) (o1 o2 : list Tier) :
  isASCII title = true -> isASCII description = true ->
  MapOrder o1 -> MapOrder o2 ->
  let text := strings.ToLower (title +:+ " " +:+ description) in
  let r := Classify NewClassifier o1 o2 title description in
  if matchesAny text then
    exists t s, t ∈ allTiers /\ tierScore text t = Some s /\
      (forall t' s', tierScore text t' = Some s' -> PrimFloat.ltb s s' = false) /\
      Confidence r = min 0.95 (0.5 + (s * 0.15))%float /\
      Tier_ r = adjustTierByScope t (estimateLines text) (estimateFiles text)
  else
    Confidence r = 0.5%float /\ Patterns r = [] /\
    Tier_ r = adjustTierByScope TierStandard (estimateLines text) (estimateFiles text).
Proof.
  intros _ _ Ho1 Ho2 text r.
  destruct (Classify_fields o1 o2 title description) as (Ht & Hc & Hp & _).
  fold text r in Ht, Hc, Hp.
  destruct (Classify_selected text o1 o2 Ho1 Ho2) as
    [[Hany Hb]|(t & Hin & Hacc & Hbt & Hpos & Hmax)].
  - rewrite Hany. now apply Classify_no_match.
  - destruct (matchesAny text) eqn:Hany.
    + exists t, (maxScore (pickBest (scoreAll NewClassifier text o1) o2)).
      rewrite Hpos in Hc. rewrite Hbt in Ht.
      repeat split; try assumption. unfold tierScore. now rewrite Hacc.
    + pose proof (matchesAny_false text t Hany Hin) as Hn.
      unfold tierScore in Hn. rewrite Hacc in Hn. discriminate.
Qed.

Lemma Classify_confidence_witness :
  Confidence (Classify NewClassifier allTiers (rev allTiers) "do the thing" "") = 0.5%float
  /\ Patterns (Classify NewClassifier allTiers (rev allTiers) "do the thing" "") = []
  /\ Tier_ (Classify NewClassifier allTiers (rev allTiers) "do the thing" "") = TierStandard.
Proof.
  exact (Classify_confidence "do the thing" "" allTiers (rev allTiers)
           eq_refl eq_refl (Permutation_refl _) (Permutation_rev _)).
Defined.

(** C5 as stated fails: with no matching pattern the tier need not be
    standard ("the codebase" is estimated at 20 files and raised to
    complex). *)
Lemma Classify_no_match_not_standard :
  ~ (forall (title description : string) (o1 o2 : list Tier),
       MapOrder o1 -> MapOrder o2 ->
       matchesAny (strings.ToLower (title +:+ " " +:+ description)) = false ->
       Tier_ (Classify NewClassifier o1 o2 title description) = TierStandard /\
       Confidence (Classify NewClassifier o1 o2 title description) = 0.5%float).
Proof.
  intros H.
  destruct (H "the codebase" "" allTiers allTiers (Permutation_refl _) (Permutation_refl _))
    as [Ht _]; [vm_compute; reflexivity|].
  vm_compute in Ht. discriminate.
Qed.

(** The highest score is the same whatever the visiting orders, ties
    included. *)
Lemma pickBest_maxScore text o1 o2 o1' o2' :
  MapOrder o1 -> MapOrder o2 -> MapOrder o1' -> MapOrder o2' ->
  maxScore (pickBest (scoreAll NewClassifier text o1) o2) =
  maxScore (pickBest (scoreAll NewClassifier text o1') o2').
Proof.
  intros Ho1 Ho2 Ho1' Ho2'.
  destruct (Classify_selected text o1 o2 Ho1 Ho2) as
    [[Hany Hb]|(t & Hin & Hacc & _ & Hpos & Hmax)],
    (Classify_selected text o1' o2' Ho1' Ho2') as
    [[Hany' Hb']|(t' & Hin' & Hacc' & _ & Hpos' & Hmax')].
  - now rewrite Hb, Hb'.
  - pose proof (matchesAny_false text t' Hany Hin') as Hn.
    unfold tierScore in Hn. rewrite Hacc' in Hn. discriminate.
  - pose proof (matchesAny_false text t Hany' Hin) as Hn.
    unfold tierScore in Hn. rewrite Hacc in Hn. discriminate.
  - apply (f_equal fst) in Hacc, Hacc'. cbn [fst] in Hacc, Hacc'.
    apply float_order.ltb_total_pos; try assumption.
    + now apply (Hmax t').
    + now apply (Hmax' t).
Qed.

(** C1, as the code has it, for an ASCII title and description: two
    calls of [Classify] with identical inputs, whatever order their map
    loops visit the tiers in, return the same confidence, estimated
    lines and estimated files; they return identical results (tier,
    matched patterns and every other field) whenever no two tiers share
    the highest score (one tier is strictly highest, or no pattern
    matches); and when a pattern matches, the tier and the pattern list
    of a call are those of a tier whose score no tier exceeds. *)
Theorem Classify_deterministic_up_to_ties
    (title description : string) (o1 o2 o1' o2' : list Tier) :
  isASCII title = true -> isASCII description = true ->
  MapOrder o1 -> MapOrder o2 -> MapOrder o1' -> MapOrder o2' ->
  let text := strings.ToLower (title +:+ " " +:+ description) in
  let r := Classify NewClassifier o1 o2 title description in
  let r' := Classify NewClassifier o1' o2' title description in
  Confidence r = Confidence r' /\
  EstimatedLines r = EstimatedLines r' /\
  EstimatedFiles r = EstimatedFiles r' /\
  (noTopTie text = true -> r = r') /\
  (matchesAny text = true ->
   exists t s, t ∈ allTiers /\
     tierAcc NewClassifier text t = (Some s, Some (Patterns r)) /\
     (forall t' s', tierScore text t' = Some s' -> PrimFloat.ltb s s' = false) /\
     Tier_ r = adjustTierByScope t (estimateLines text) (estimateFiles text)).
Proof.
  intros _ _ Ho1 Ho2 Ho1' Ho2' text r r'.
  destruct (Classify_fields o1 o2 title description) as (Ht & Hc & Hp & Hl & Hf & _).
  destruct (Classify_fields o1' o2' title description) as (_ & Hc' & _ & Hl' & Hf' & _).
  fold text r in Ht, Hc, Hp, Hl, Hf. fold text r' in Hc', Hl', Hf'.
  split; [|split; [|split; [|split]]].
  - rewrite Hc, Hc'.
    now rewrite (pickBest_maxScore text o1 o2 o1' o2' Ho1 Ho2 Ho1' Ho2').
  - now rewrite Hl, Hl'.
  - now rewrite Hf, Hf'.
  - intros Htie. unfold r, r', Classify. cbn [classifier.patterns]. fold text.
    now rewrite (pickBest_noTopTie text o1 o2 o1' o2' Ho1 Ho2 Ho1' Ho2' Htie).
  - intros Hany.
    destruct (Classify_selected text o1 o2 Ho1 Ho2) as
      [[Hno _]|(t & Hin & Hacc & Hbt & _ & Hmax)]; [congruence|].
    exists t, (maxScore (pickBest (scoreAll NewClassifier text o1) o2)).
    rewrite Hp, Ht, Hbt. repeat split; assumption.
Qed.

Lemma Classify_deterministic_up_to_ties_witness :
  Classify NewClassifier allTiers allTiers
           "implement authentication for the payment API" "fix typo" =
  Classify NewClassifier (rev allTiers) (rev allTiers)
           "implement authentication for the payment API" "fix typo".
Proof.
  destruct (Classify_deterministic_up_to_ties
              "implement authentication for the payment API" "fix typo"
              allTiers allTiers (rev allTiers) (rev allTiers))
    as (_ & _ & _ & Hsame & _).
  - reflexivity.
  - reflexivity.
  - apply Permutation_refl.
  - apply Permutation_refl.
  - apply Permutation_rev.
  - apply Permutation_rev.
  - apply Hsame. vm_compute. reflexivity.
Defined.

(** C1 as stated fails: "fix typo" / "security" scores 0.9 for both the
    trivial and the critical tier, and the tier and the pattern list
    returned are those of the tier the loop over the scores visits
    first. *)
Lemma Classify_tie_depends_on_order :
  ~ (forall (title description : string) (o1 o2 o1' o2' : list Tier),
       MapOrder o1 -> MapOrder o2 -> MapOrder o1' -> MapOrder o2' ->
       Tier_ (Classify NewClassifier o1 o2 title description) =
       Tier_ (Classify NewClassifier o1' o2' title description) /\
       Confidence (Classify NewClassifier o1 o2 title description) =
       Confidence (Classify NewClassifier o1' o2' title description) /\
       Patterns (Classify NewClassifier o1 o2 title description) =
       Patterns (Classify NewClassifier o1' o2' title description)) /\
  ~ (forall (title description : string) (o1 o2 o1' o2' : list Tier),
       MapOrder o1 -> MapOrder o2 -> MapOrder o1' -> MapOrder o2' ->
       Patterns (Classify NewClassifier o1 o2 title description) =
       Patterns (Classify NewClassifier o1' o2' title description)).
Proof.
  split; intros H.
  - destruct (H "fix typo" "security" allTiers allTiers allTiers (rev allTiers)
                (Permutation_refl _) (Permutation_refl _) (Permutation_refl _)
                (Permutation_rev _)) as [Ht _].
    vm_compute in Ht. discriminate.
  - pose proof (H "fix typo" "security" allTiers allTiers allTiers (rev allTiers)
                  (Permutation_refl _) (Permutation_refl _) (Permutation_refl _)
                  (Permutation_rev _)) as Hp.
    vm_compute in Hp. discriminate.
Qed.

(** C2, as the code has it: an ASCII text that contains "across the
    entire codebase" and matches no pattern is classified below complex;
    its estimates are at most 500 lines and 10 files, which the clamp to
    complex (lines > 500 or files > 10) does not reach.  With no other
    scope cue the result is exactly standard, 500 lines, 10 files. *)
Theorem Classify_across_entire_codebase
    (title description : string) (o1 o2 : list Tier) :
  isASCII title = true -> isASCII description = true ->
  MapOrder o1 -> MapOrder o2 ->
  let text := strings.ToLower (title +:+ " " +:+ description) in
  let r := Classify NewClassifier o1 o2 title description in
  strings.Contains text "across the entire codebase" = true ->
  matchesAny text = false ->
  Tier_ r < TierComplex /\ EstimatedLines r <= 500 /\ EstimatedFiles r <= 10 /\
  (otherScopeCue text = false ->
   Tier_ r = TierStandard /\ EstimatedLines r = 500 /\ EstimatedFiles r = 10).
Proof.
  intros _ _ Ho1 Ho2 text r Hsub Hany.
  destruct (Classify_no_match o1 o2 title description Ho1 Ho2 Hany) as (_ & _ & Ht).
  fold text r in Ht.
  destruct (Classify_fields o1 o2 title description) as (_ & _ & _ & Hl & Hf & _).
  fold text r in Hl, Hf.
  assert (Hacross : strings.Contains text "across" = true).
  { apply (Contains_app_l text "across" " the entire codebase"). exact Hsub. }
  assert (Hentire : strings.Contains text "entire" = true).
  { apply (Contains_app_l text "entire" " codebase").
    apply (Contains_app_r text "across the " ("entire" +:+ " codebase")). exact Hsub. }
  pose proof (estimateLines_le text) as Hle.
  pose proof (estimateFiles_across text Hacross) as Hfe.
  rewrite Ht, Hl, Hf. split; [|split; [assumption|split; [assumption|]]].
  - unfold adjustTierByScope, TierComplex, TierStandard, TierSimple.
    replace (estimateLines text >? 500) with false
      by (symmetry; rewrite Z.gtb_ltb; apply Z.ltb_ge; lia).
    replace (estimateFiles text >? 10) with false
      by (symmetry; rewrite Z.gtb_ltb; apply Z.ltb_ge; lia).
    cbn. rewrite andb_false_r.
    destruct ((estimateLines text <? 10) && (estimateFiles text =? 1)); cbn; lia.
  - intros Hcue. unfold otherScopeCue in Hcue. cbn [existsb] in Hcue.
    repeat (apply orb_false_iff in Hcue as [? Hcue]).
    assert (Hl500 : estimateLines text = 500).
    { unfold estimateLines.
      repeat match goal with H : strings.Contains text _ = _ |- _ => rewrite H; clear H end.
      reflexivity. }
    assert (Hf10 : estimateFiles text = 10).
    { unfold estimateFiles.
      repeat match goal with H : strings.Contains text _ = _ |- _ => rewrite H; clear H end.
      reflexivity. }
    rewrite Hl500, Hf10. repeat split.
Qed.

Lemma Classify_across_entire_codebase_witness :
  Tier_ (Classify NewClassifier allTiers allTiers "across the entire codebase" "")
    < TierComplex /\
  Tier_ (Classify NewClassifier allTiers allTiers "across the entire codebase" "")
    = TierStandard.
Proof.
  destruct (Classify_across_entire_codebase "across the entire codebase" ""
              allTiers allTiers eq_refl eq_refl (Permutation_refl _) (Permutation_refl _))
    as (Hlt & _ & _ & Hstd).
  - vm_compute. reflexivity.
  - vm_compute. reflexivity.
  - split; [exact Hlt|]. apply Hstd. vm_compute. reflexivity.
Defined.

(** C2 as stated fails: "across the entire codebase" alone is estimated
    at 500 lines and 10 files and stays standard. *)
Lemma across_entire_codebase_not_complex :
  ~ (forall (title description : string) (o1 o2 : list Tier),
       MapOrder o1 -> MapOrder o2 ->
       let text := strings.ToLower (title +:+ " " +:+ description) in
       strings.Contains text "across the entire codebase" = true ->
       matchesAny text = false ->
       otherScopeCue text = false ->
       TierComplex <= Tier_ (Classify NewClassifier o1 o2 title description)).
Proof.
  intros H.
  specialize (H "across the entire codebase" "" allTiers allTiers
                (Permutation_refl _) (Permutation_refl _)).
  cbv zeta in H.
  assert (Hle : TierComplex <=
                Tier_ (Classify NewClassifier allTiers allTiers
                                "across the entire codebase" "")).
  { apply H; vm_compute; reflexivity. }
  vm_compute in Hle. apply Hle. reflexivity.
Qed.

End classifier_facts.

(** ** The ledger *)

Module ledger_facts.
Import ledger ledger_spec.

Lemma CreateTask_fresh now task l :
  hasTask (Task.ID task) (tasks l) = false ->
  CreateTask now task l = (None, mkLedger (tasks l ++ [taskRow now task]) (executions l)).
Proof. unfold CreateTask, hasTask. now intros ->. Qed.

Lemma CreateTask_duplicate now task l :
  hasTask (Task.ID task) (tasks l) = true ->
  CreateTask now task l = (Some "UNIQUE constraint failed: tasks.id", l).
Proof. unfold CreateTask, hasTask. now intros ->. Qed.

Lemma CreateExecution_fresh now exec l :
  hasExecution (Execution.ID exec) (executions l) = false ->
  CreateExecution now exec l =
  (None, mkLedger (tasks l) (executions l ++ [executionRow now exec])).
Proof. unfold CreateExecution, hasExecution. now intros ->. Qed.

Lemma UpdateTaskStatus_eq now id status l :
  UpdateTaskStatus now id status l =
  (None, mkLedger (map (fun row => if String.eqb (Task.ID row) id
                                   then setStatus now status row else row) (tasks l))
                  (executions l)).
Proof. reflexivity. Qed.

Lemma update_absent now id status rows :
  hasTask id rows = false ->
  map (fun row => if String.eqb (Task.ID row) id then setStatus now status row else row)
      rows = rows.
Proof.
  unfold hasTask. induction rows as [|row rows IH]; cbn [map existsb]; [reflexivity|].
  intros [Hrow Hrows]%orb_false_iff. now rewrite Hrow, IH.
Qed.

Lemma hasTask_app id rows rows' :
  hasTask id (rows ++ rows') = hasTask id rows || hasTask id rows'.
Proof. apply existsb_app. Qed.

(** *** Bulk creation *)

Lemma CreateTasks_ok now ts : forall l,
  NoDup (map Task.ID ts) ->
  (forall task, task ∈ ts -> hasTask (Task.ID task) (tasks l) = false) ->
  CreateTasks now ts l =
  (None, mkLedger (tasks l ++ map (taskRow now) ts) (executions l)).
Proof.
  induction ts as [|task ts IH]; intros l Hnd Hfresh; cbn [CreateTasks map].
  - rewrite app_nil_r. now destruct l.
  - apply NoDup_cons in Hnd as [Hnotin Hnd].
    rewrite CreateTask_fresh by (apply Hfresh; left).
    rewrite IH; cbn [tasks executions].
    + now rewrite <- app_assoc.
    + assumption.
    + intros task' Hin. rewrite hasTask_app, Hfresh by now right.
      cbn. rewrite orb_false_r. apply String.eqb_neq. intros Heq.
      apply Hnotin. rewrite Heq. apply list_elem_of_fmap. now exists task'.
Qed.

Lemma CreateExecutions_ok now es : forall l,
  NoDup (map Execution.ID es) ->
  (forall exec, exec ∈ es -> hasExecution (Execution.ID exec) (executions l) = false) ->
  CreateExecutions now es l =
  (None, mkLedger (tasks l) (executions l ++ map (executionRow now) es)).
Proof.
  induction es as [|exec es IH]; intros l Hnd Hfresh; cbn [CreateExecutions map].
  - rewrite app_nil_r. now destruct l.
  - apply NoDup_cons in Hnd as [Hnotin Hnd].
    rewrite CreateExecution_fresh by (apply Hfresh; left).
    rewrite IH; cbn [tasks executions].
    + now rewrite <- app_assoc.
    + assumption.
    + intros exec' Hin. unfold hasExecution in *. rewrite existsb_app, Hfresh by now right.
      cbn. rewrite orb_false_r. apply String.eqb_neq. intros Heq.
      apply Hnotin. rewrite Heq. apply list_elem_of_fmap. now exists exec'.
Qed.

(** *** Status updates *)

Lemma UpdateStatuses_cons now up ups l :
  UpdateStatuses now (up :: ups) l =
  UpdateStatuses now ups (snd (UpdateTaskStatus now up.1 up.2 l)).
Proof. reflexivity. Qed.

Lemma UpdateStatuses_spec now ups : forall l,
  exists f : Task.t -> Task.t,
    UpdateStatuses now ups l = mkLedger (map f (tasks l)) (executions l) /\
    forall row, Task.ID (f row) = Task.ID row /\
                Task.Status (f row) = statusAfter ups row /\
                Task.WorkerBackend (f row) = Task.WorkerBackend row.
Proof.
  induction ups as [|up ups IH]; intros l.
  - exists (fun row => row). split; [|now intros row].
    cbn. rewrite map_id. now destruct l.
  - rewrite UpdateStatuses_cons, UpdateTaskStatus_eq. cbn [snd].
    set (g := fun row => if String.eqb (Task.ID row) up.1
                         then setStatus now up.2 row else row).
    destruct (IH (mkLedger (map g (tasks l)) (executions l))) as (f & -> & Hf).
    exists (fun row => f (g row)). cbn [tasks executions]. split.
    + now rewrite map_map.
    + intros row. destruct (Hf (g row)) as (Hid & Hst & Hwb).
      rewrite Hid, Hst, Hwb. unfold statusAfter. cbn [fold_left].
      unfold g. destruct (String.eqb (Task.ID row) up.1); repeat split.
Qed.

Lemma filter_all {A : Type} (rows : list A) : List.filter (fun _ => true) rows = rows.
Proof. induction rows as [|row rows IH]; cbn; [reflexivity | now rewrite IH]. Qed.

Lemma count_ext {A : Type} (p q : A -> bool) (rows : list A) :
  (forall row, p row = q row) -> count p rows = count q rows.
Proof.
  intros H. unfold count. f_equal.
  induction rows as [|row rows IH]; cbn; [reflexivity|].
  rewrite H. destruct (q row); cbn; now rewrite IH.
Qed.

Lemma count_map {A B : Type} (f : A -> B) (cond : B -> bool) (rows : list A) :
  COUNT cond (map f rows) = count (fun row => cond (f row)) rows.
Proof.
  unfold COUNT, count. f_equal.
  induction rows as [|row rows IH]; cbn; [reflexivity|].
  destruct (cond (f row)); cbn; now rewrite IH.
Qed.

Lemma SUM_map (f : Execution.t -> Execution.t) (cond : Execution.t -> bool) rows :
  (forall row, Execution.CostUSD (f row) = Execution.CostUSD row) ->
  (forall row, cond (f row) = cond row) ->
  SUM Execution.CostUSD cond (map f rows) =
  engineSum (map Execution.CostUSD (List.filter cond rows)).
Proof.
  intros Hcost Hcond. unfold engineSum, SUM. rewrite filter_all. do 2 f_equal.
  generalize (mkSumCtx 0 0 0) as p.
  induction rows as [|row rows IH]; intros p; cbn [map List.filter]; [reflexivity|].
  rewrite Hcond. destruct (cond row); cbn [map fold_left]; [rewrite Hcost|]; apply IH.
Qed.

(** *** Backend classes *)

Lemma HasPrefix_spec p : forall s,
  strings.HasPrefix s p = true <-> exists rest, s = p +:+ rest.
Proof.
  induction p as [|c p IH]; intros s; simpl.
  - split; [intros _; now exists s | reflexivity].
  - destruct s as [|d s].
    + split; [discriminate | intros [rest Hrest]; discriminate].
    + destruct (Ascii.eqb_spec d c) as [->|Hne].
      * rewrite IH. split; intros [rest Hrest]; exists rest.
        -- now rewrite Hrest.
        -- now injection Hrest.
      * split; [discriminate | intros [rest Hrest]; now injection Hrest].
Qed.

Lemma ToLower_split p : forall s rest,
  strings.ToLower s = p +:+ rest ->
  exists head tail, s = head +:+ tail /\ strings.ToLower head = p /\
                    strings.ToLower tail = rest.
Proof.
  induction p as [|c p IH]; intros s rest Hs.
  - exists "", s. repeat split. exact Hs.
  - destruct s as [|d s]; [discriminate|]. simpl in Hs. injection Hs as Hd Hs.
    destruct (IH s rest Hs) as (head & tail & -> & Hhead & Htail).
    exists (String d head), tail. simpl. now rewrite Hd, Hhead.
Qed.

Lemma inClass_spec prefix exec :
  inClass prefix exec = true <-> startsWithFold prefix (Execution.Backend exec).
Proof.
  unfold inClass, LIKE_prefix, startsWithFold. rewrite HasPrefix_spec. split.
  - intros [rest Hrest].
    destruct (ToLower_split _ _ _ Hrest) as (head & tail & Hb & Hhead & _).
    now exists head, tail.
  - intros (head & rest & -> & Hhead).
    exists (strings.ToLower rest). now rewrite classifier_facts.ToLower_app, Hhead.
Qed.

(** *** The sum of a single value *)

Lemma SUM_single_row {A : Type} (col : A -> float) (cond : A -> bool)
    (rows : list A) (row : A) :
  List.filter cond rows = [row] -> PrimFloat.is_nan (col row) = false ->
  PrimFloat.eqb (SUM col cond rows) (col row) = true.
Proof.
  intros Hrows Hnan. unfold SUM. rewrite Hrows. cbn [fold_left].
  unfold REAL at 1. rewrite Hnan. set (c := col row) in *.
  unfold sumStep, kahanBabuskaNeumaierStep, sumFinalize.
  cbn [rSum rErr cnt]. change (0 + 1 >? 0) with true. cbv iota.
  assert (Hcond : PrimFloat.ltb (PrimFloat.abs c) (PrimFloat.abs 0) = false).
  { rewrite FloatAxioms.ltb_spec, !abs_spec, float_order.SF_zero. unfold SFltb, SFcompare.
    destruct (Prim2SF c) as [sg|sg| |sg m e]; reflexivity. }
  rewrite Hcond.
  rewrite float_order.is_nan_SF in Hnan.
  assert (Hcc : PrimFloat.eqb c c = true).
  { pose proof (float_order.is_nan_SF c) as H. unfold PrimFloat.is_nan in H.
    destruct (Prim2SF c); try discriminate; now destruct (PrimFloat.eqb c c). }
  destruct (Prim2SF c) as [sg|sg| |sg m e] eqn:Hc; [| | discriminate |].
  - (* a zero: the sum is 0 *)
    assert (Ht : (0 + c)%float = 0%float).
    { apply Prim2SF_inj. rewrite add_spec, Hc, float_order.SF_zero. now destruct sg. }
    rewrite Ht.
    assert (He : (0 + (c - 0 + 0))%float = 0%float).
    { apply Prim2SF_inj. rewrite !add_spec, sub_spec, Hc, float_order.SF_zero.
      now destruct sg. }
    rewrite He. change (IsOverflow 0) with false. cbv iota.
    change (REAL (0 + 0)) with (Some 0%float). cbv iota.
    rewrite FloatAxioms.eqb_spec, Hc, float_order.SF_zero. now destruct sg.
  - (* an infinity: the error term is a NaN and is dropped *)
    assert (Ht : (0 + c)%float = c).
    { apply Prim2SF_inj. rewrite add_spec, Hc, float_order.SF_zero. reflexivity. }
    rewrite Ht.
    assert (He : IsOverflow (0 + (c - c + 0)) = true).
    { unfold IsOverflow.
      rewrite float_order.is_nan_SF, !add_spec, sub_spec, Hc, float_order.SF_zero.
      now destruct sg. }
    rewrite He. unfold REAL. rewrite float_order.is_nan_SF, Hc. exact Hcc.
  - (* a finite value: the error term is 0 *)
    assert (Ht : (0 + c)%float = c).
    { apply Prim2SF_inj. rewrite add_spec, Hc, float_order.SF_zero. reflexivity. }
    rewrite Ht.
    assert (He : (0 + (c - c + 0))%float = 0%float).
    { apply Prim2SF_inj. rewrite !add_spec, sub_spec, Hc, float_order.SF_zero.
      unfold SF64sub. rewrite float_order.SFsub_diag. reflexivity. }
    rewrite He. change (IsOverflow 0) with false. cbv iota.
    assert (Hr : (c + 0)%float = c).
    { apply Prim2SF_inj. rewrite add_spec, Hc, float_order.SF_zero. reflexivity. }
    rewrite Hr. unfold REAL. rewrite float_order.is_nan_SF, Hc. exact Hcc.
Qed.

Lemma engineSum_single prefix es : singleCost prefix es (engineSum (classCosts prefix es)).
Proof.
  intros exec Hclass Hnan. unfold classCosts. rewrite Hclass. cbn [map].
  apply (SUM_single_row (fun cost => cost) (fun _ => true)
           [Execution.CostUSD exec] (Execution.CostUSD exec)); [reflexivity | exact Hnan].
Qed.

(** C7, as the code has it: after creating the tasks [ts] and the
    executions [es] in a new ledger and applying the status updates
    [ups], [GetStats] returns the number of tasks, the number of tasks
    whose status is then "done", the number of executions, and for each
    backend class (claude/gemini/ollama) the number of inserted
    executions of that class; the cost of a class is the engine's SUM of
    the inserted costs of the class (compensated, in insertion order, a
    NaN cost skipped), which for a class with a single record whose cost
    is not a NaN is that cost.  An execution is in a class when its
    backend starts with the class prefix, up to the case of ASCII
    letters. *)
Theorem GetStats_round_trip
    (now : Z) (ts : list Task.t) (es : list Execution.t) (ups : list (string * string)) :
  NoDup (map Task.ID ts) -> NoDup (map Execution.ID es) ->
  exists l1 l2,
    CreateTasks now ts Init = (None, l1) /\
    CreateExecutions now es l1 = (None, l2) /\
    let stats := GetStats (UpdateStatuses now ups l2) in
    TotalTasks stats = Z.of_nat (length ts) /\
    CompletedTasks stats = count (fun task => String.eqb (statusAfter ups task) "done") ts /\
    TotalExecutions stats = Z.of_nat (length es) /\
    ClaudeTasks stats = count (inClass "claude:") es /\
    ClaudeCost stats = engineSum (classCosts "claude:" es) /\
    GeminiTasks stats = count (inClass "gemini:") es /\
    GeminiCost stats = engineSum (classCosts "gemini:" es) /\
    OllamaTasks stats = count (inClass "ollama:") es /\
    OllamaCost stats = engineSum (classCosts "ollama:" es) /\
    singleCost "claude:" es (ClaudeCost stats) /\
    singleCost "gemini:" es (GeminiCost stats) /\
    singleCost "ollama:" es (OllamaCost stats) /\
    forall prefix exec,
      inClass prefix exec = true <-> startsWithFold prefix (Execution.Backend exec).
Proof.
  intros Hts Hes.
  eexists _, _. split; [|split].
  - apply CreateTasks_ok; [assumption | reflexivity].
  - apply CreateExecutions_ok; [assumption | reflexivity].
  - cbn [Init tasks executions app].
    destruct (UpdateStatuses_spec now ups
                (mkLedger (map (taskRow now) ts) (map (executionRow now) es)))
      as (f & -> & Hf).
    cbn [tasks executions]. unfold GetStats.
    cbn [TotalTasks CompletedTasks TotalExecutions ClaudeTasks ClaudeCost GeminiTasks
         GeminiCost OllamaTasks OllamaCost tasks executions].
    rewrite !count_map, !SUM_map by reflexivity.
    fold (inClass "claude:") (inClass "gemini:") (inClass "ollama:").
    fold (classCosts "claude:" es) (classCosts "gemini:" es) (classCosts "ollama:" es).
    repeat match goal with |- _ /\ _ => split end;
      try reflexivity; try apply engineSum_single; try apply inClass_spec.
    + unfold count. cbn. now rewrite filter_all.
    + apply count_ext. intros task. destruct (Hf (taskRow now task)) as (_ & -> & _).
      reflexivity.
    + unfold count. cbn. now rewrite filter_all.
Qed.

(** Three tasks, two of them set to done, and seven executions: claude
    costs 0.1, 0.2 and 0.3 (one backend written in capitals), one gemini
    execution costing 0.01 as in the ledger's own test, two free ollama
    executions, one of them with a NaN cost, and one execution of a
    backend outside the three classes. *)
Lemma GetStats_round_trip_witness :
  let task id := Task.mk id None "Test Task" "" 1 "pending" "" "" 0 0 in
  let exec id backend cost := Execution.mk id "task-1" "" backend "" "" 100 cost 0 "" "" 0 in
  let ts := [task "task-1"; task "task-2"; task "task-3"] in
  let es := [exec "exec-1" "claude:opus" 0.1%float; exec "exec-2" "gemini:pro" 0.01%float;
             exec "exec-3" "claude:sonnet" 0.2%float; exec "exec-4" "ollama:fast" 0%float;
             exec "exec-5" "CLAUDE:haiku" 0.3%float; exec "exec-6" "ollama:default" nan;
             exec "exec-7" "local" 5%float] in
  let ups := [("task-1", "working"); ("task-3", "done"); ("task-1", "done")] in
  exists l1 l2,
    CreateTasks 7 ts Init = (None, l1) /\
    CreateExecutions 7 es l1 = (None, l2) /\
    let stats := GetStats (UpdateStatuses 7 ups l2) in
    TotalTasks stats = 3 /\ CompletedTasks stats = 2 /\ TotalExecutions stats = 7 /\
    ClaudeTasks stats = 3 /\ ClaudeCost stats = 0.6%float /\
    GeminiTasks stats = 1 /\ GeminiCost stats = 0.01%float /\
    OllamaTasks stats = 2 /\ OllamaCost stats = 0%float.
Proof.
  intros task exec ts es ups.
  destruct (GetStats_round_trip 7 ts es ups) as (l1 & l2 & H1 & H2 & H).
  - apply (bool_decide_unpack _). vm_compute. reflexivity.
  - apply (bool_decide_unpack _). vm_compute. reflexivity.
  - exists l1, l2. split; [exact H1|]. split; [exact H2|].
    cbv zeta in H.
    destruct H as (Ht & Hd & He & Hc & Hcc & Hg & Hgc & Ho & Hoc & _).
    repeat split; assumption.
Defined.

(** C7 as stated fails: the float64 sum of the inserted costs 0.1, 0.2
    and 0.3 is 0.6000000000000001, and [GetStats] returns 0.6. *)
Lemma GetStats_cost_not_plain_sum :
  ~ (forall (now : Z) (ts : list Task.t) (es : list Execution.t)
            (ups : list (string * string)),
       NoDup (map Task.ID ts) -> NoDup (map Execution.ID es) ->
       exists l1 l2,
         CreateTasks now ts Init = (None, l1) /\
         CreateExecutions now es l1 = (None, l2) /\
         ClaudeCost (GetStats (UpdateStatuses now ups l2)) =
         sumCost (List.filter (inClass "claude:") es)).
Proof.
  intros H.
  pose (exec := fun id backend cost =>
                  Execution.mk id "task-1" "" backend "" "" 100 cost 0 "" "" 0).
  destruct (H 7 [Task.mk "task-1" None "Test Task" "" 1 "pending" "" "" 0 0]
              [exec "exec-1" "claude:opus" 0.1%float;
               exec "exec-2" "claude:sonnet" 0.2%float;
               exec "exec-3" "claude:haiku" 0.3%float] [])
    as (l1 & l2 & H1 & H2 & Hcost).
  - apply NoDup_singleton.
  - apply (bool_decide_unpack _). vm_compute. reflexivity.
  - vm_compute in H1. injection H1 as <-.
    vm_compute in H2. injection H2 as <-.
    apply (f_equal (fun x => PrimFloat.ltb x 0.6000000000000001%float)) in Hcost.
    vm_compute in Hcost. discriminate.
Qed.

End ledger_facts.

(** ** The conductor *)

Module conductor_facts.
Import types classifier conductor conductor_spec.
Import ledger_spec ledger_facts.

Lemma update_last now id status rows row :
  hasTask id rows = false -> ledger.Task.ID row = id ->
  map (fun r => if String.eqb (ledger.Task.ID r) id then setStatus now status r else r)
      (rows ++ [row]) = rows ++ [setStatus now status row].
Proof.
  intros Hfresh Hid. rewrite map_app, update_absent by assumption. cbn [map].
  now rewrite Hid, String.eqb_refl.
Qed.

Ltac run_step :=
  repeat first
    [ rewrite CreateTask_fresh by assumption
    | rewrite ledger_facts.UpdateTaskStatus_eq
    | rewrite CreateExecution_fresh by assumption
    | rewrite update_last by (assumption || reflexivity)
    | progress cbv beta iota
    | progress cbn [fst snd ledger.tasks ledger.executions ledger.Task.ID negb andb] ].

(** [Run] on a ledger that does not hold the drawn task identifier,
    path by path: the value returned and the ledger left behind. *)
Lemma Run_fresh c env title description l :
  hasTask (taskID env) (ledger.tasks l) = false ->
  let cls := Classify (classifier c) (order1 env) (order2 env) title description in
  let row := runRow env title description cls in
  let out := Run c env title description l in
  match resolveWorker c cls with
  | None =>
      (exists r, out.1 = inl r /\ Status r = StatusFailed /\
                 Error r = "no available worker for this task tier" /\
                 Execution r = None /\ TaskID r = taskID env) /\
      out.2 = ledger.mkLedger (ledger.tasks l ++ [row "pending" (sqlNow env 0)])
                              (ledger.executions l)
  | Some (worker, actual) =>
      match Execute worker (workerTask env title description cls actual) with
      | inr err =>
          (exists r, out.1 = inl r /\ Status r = StatusFailed /\ Error r = err /\
                     Execution r = None /\ ActualBackend r = actual) /\
          out.2 = ledger.mkLedger (ledger.tasks l ++ [row "failed" (sqlNow env 2)])
                                  (ledger.executions l)
      | inl res =>
          if Success res then
            if hasExecution (execID env) (ledger.executions l) then
              (exists e, out.1 = inr e) /\
              out.2 = ledger.mkLedger (ledger.tasks l ++ [row "working" (sqlNow env 1)])
                                      (ledger.executions l)
            else
              let final :=
                if validatorCount (Tier_ cls) >? 0 then StatusValidating else StatusDone in
              (exists r, out.1 = inl r /\ Status r = final /\ Error r = "" /\
                         Execution r = Some res /\ ActualBackend r = actual) /\
              out.2 = ledger.mkLedger
                        (ledger.tasks l ++ [row final (sqlNow env 3)])
                        (ledger.executions l ++ [runExecution env actual res])
          else
            (exists r, out.1 = inl r /\ Status r = StatusFailed /\
                       Error r = types.Error res /\
                       Execution r = Some res /\ ActualBackend r = actual) /\
            out.2 = ledger.mkLedger (ledger.tasks l ++ [row "failed" (sqlNow env 2)])
                                    (ledger.executions l)
      end
  end.
Proof.
  intros Hfresh cls row out. subst out. unfold Run. fold cls.
  unfold bind, check, ignore, ret, workerTask.
  rewrite CreateTask_fresh by exact Hfresh. cbv beta iota.
  destruct (resolveWorker c cls) as [[worker actual]|].
  2:{ cbn [fst snd]. split; [eexists; repeat split|reflexivity]. }
  run_step.
  destruct (Execute worker _) as [res|err].
  2:{ run_step. split; [eexists; repeat split|reflexivity]. }
  destruct (Success res) eqn:Hok.
  2:{ run_step. split; [eexists; repeat split|reflexivity]. }
  run_step.
  destruct (hasExecution (execID env) (ledger.executions l)) eqn:Hdup.
  { unfold ledger.CreateExecution. cbn [ledger.executions ledger.Execution.ID].
    unfold hasExecution in Hdup. rewrite Hdup. cbn [fst snd].
    split; [eexists; reflexivity | reflexivity]. }
  rewrite CreateExecution_fresh by exact Hdup.
  destruct (validatorCount (Tier_ cls) >? 0); run_step;
    (split; [eexists; repeat split | reflexivity]).
Qed.

Lemma firstAvailable_empty fallbacks : firstAvailable ∅ fallbacks = None.
Proof.
  induction fallbacks as [|b rest IH]; cbn [firstAvailable]; [reflexivity|].
  now rewrite lookup_empty.
Qed.

Lemma resolveWorker_empty c cls : workers c = ∅ -> resolveWorker c cls = None.
Proof.
  intros H. unfold resolveWorker, findFallbackWorker. rewrite H, lookup_empty.
  now rewrite firstAvailable_empty.
Qed.

Lemma GetTask_last id rows row es :
  hasTask id rows = false -> ledger.Task.ID row = id ->
  ledger.GetTask id (ledger.mkLedger (rows ++ [row]) es) = inl row.
Proof.
  intros Hfresh Hid. unfold ledger.GetTask. cbn [ledger.tasks].
  unfold hasTask in Hfresh.
  induction rows as [|r rows IH]; cbn [app find existsb] in *.
  - now rewrite Hid, String.eqb_refl.
  - apply orb_false_iff in Hfresh as [Hr Hrows]. rewrite Hr. now apply IH.
Qed.

(** C3: with no worker registered, [Run] (once the task row is
    created, that is for a task identifier the ledger does not hold
    yet) returns a result with status failed and a non-empty error,
    writes no execution row, and leaves the created task row pending. *)
Theorem Run_empty_registry
    (c : Conductor) (env : Env) (title description : string) (l : ledger.Ledger) :
  workers c = ∅ ->
  hasTask (taskID env) (ledger.tasks l) = false ->
  exists r l' row,
    Run c env title description l = (inl r, l') /\
    Status r = StatusFailed /\ Error r <> "" /\
    ledger.executions l' = ledger.executions l /\
    ledger.tasks l' = ledger.tasks l ++ [row] /\
    ledger.GetTask (taskID env) l' = inl row /\
    ledger.Task.Status row = StatusPending.
Proof.
  intros Hempty Hfresh.
  pose proof (Run_fresh c env title description l Hfresh) as H. cbv zeta in H.
  rewrite (resolveWorker_empty c _ Hempty) in H.
  destruct H as [(r & Hr & Hst & Herr & _) Hl].
  destruct (Run c env title description l) as [v l'] eqn:Hrun. cbn [fst snd] in Hr, Hl.
  subst v l'. eexists r, _, _. split; [reflexivity|].
  repeat split; cbn [ledger.tasks ledger.executions]; try reflexivity.
  - exact Hst.
  - rewrite Herr. discriminate.
  - now apply GetTask_last.
Qed.

Lemma Run_empty_registry_witness :
  exists r l' row,
    Run NewConductor exampleEnv "implement authentication for the payment API" ""
        ledger.Init = (inl r, l') /\
    Status r = StatusFailed /\ Error r <> "" /\
    ledger.executions l' = [] /\
    ledger.tasks l' = [row] /\
    ledger.GetTask "0a1b2c3d" l' = inl row /\
    ledger.Task.Status row = StatusPending.
Proof.
  apply (Run_empty_registry NewConductor exampleEnv
           "implement authentication for the payment API" "" ledger.Init).
  - reflexivity.
  - reflexivity.
Defined.

(** C4, as the code has it: [DryRun] classifies the task and previews
    the worker's availability and the fallback, and leaves the ledger
    exactly as it was: no task row is created, no execution is
    recorded and no status is changed. *)
Theorem DryRun_preview_only
    (c : Conductor) (env : Env) (title description : string) (l : ledger.Ledger) :
  let cls := Classify (classifier c) (order1 env) (order2 env) title description in
  exists r,
    DryRun c env title description l = (inl r, l) /\
    Classification r = cls /\
    ActualBackend r = RecommendedBackend cls /\
    WorkerAvailable r = bool_decide (is_Some (availableWorker c (RecommendedBackend cls))) /\
    FallbackBackend r =
      (if WorkerAvailable r then ""
       else match findFallbackWorker c (Tier_ cls) with
            | Some fb => Backend fb
            | None => ""
            end) /\
    ValidationRequired r = (validatorCount (Tier_ cls) >? 0) /\
    TaskID r = "" /\ Execution r = None /\ DryRun_ r = true.
Proof.
  intros cls. unfold DryRun, ret. fold cls. eexists. split; [reflexivity|].
  cbn [Classification ActualBackend WorkerAvailable FallbackBackend ValidationRequired
       TaskID Execution DryRun_].
  unfold availableWorker.
  destruct (workers c !! RecommendedBackend cls) as [w|]; [destruct (Available w)|];
    repeat split.
Qed.

Lemma DryRun_ledger c env title description l :
  (DryRun c env title description l).2 = l.
Proof. reflexivity. Qed.

(** C4 as stated fails: [DryRun] does not create the Task record. *)
Lemma DryRun_creates_no_task :
  ~ (forall (c : Conductor) (env : Env) (title description : string) (l : ledger.Ledger),
       exists r l' row,
         DryRun c env title description l = (inl r, l') /\
         row ∈ ledger.tasks l' /\
         ledger.Task.Title row = title /\
         ledger.Task.Status row = StatusPending /\
         ledger.Task.WorkerBackend row = RecommendedBackend (Classification r)).
Proof.
  intros H.
  destruct (H NewConductor exampleEnv "fix typo" "" ledger.Init)
    as (r & l' & row & Hrun & Hin & _).
  apply (f_equal snd) in Hrun. rewrite DryRun_ledger in Hrun. cbn [snd] in Hrun.
  subst l'.
  cbn [ledger.tasks ledger.Init] in Hin. now apply elem_of_nil in Hin.
Qed.

(** *** The registry *)

Lemma Registered_key c : Registered c ->
  forall backend w, workers c !! backend = Some w -> Backend w = backend.
Proof.
  induction 1 as [|c w0 Hc IH]; intros backend w; cbn [workers NewConductor RegisterWorker].
  - now rewrite lookup_empty.
  - destruct (decide (Backend w0 = backend)) as [<-|Hne].
    + rewrite lookup_insert_eq. now intros [= ->].
    + rewrite lookup_insert_ne by assumption. apply IH.
Qed.

Lemma firstAvailable_cons registry backend rest :
  firstAvailable registry (backend :: rest) =
  match (match registry !! backend with
         | Some w => if Available w then Some w else None
         | None => None
         end) with
  | Some w => Some w
  | None => firstAvailable registry rest
  end.
Proof.
  cbn [firstAvailable]. destruct (registry !! backend) as [w|]; [|reflexivity].
  now destruct (Available w).
Qed.

Lemma availableWorker_Some c backend w :
  Registered c -> availableWorker c backend = Some w ->
  Available w = true /\ Backend w = backend.
Proof.
  intros Hc. unfold availableWorker.
  destruct (workers c !! backend) as [w'|] eqn:Hw; [|discriminate].
  destruct (Available w') eqn:Ha; [|discriminate].
  intros [= <-]. split; [assumption|]. eapply Registered_key; eassumption.
Qed.

(** C6: for the complex and the critical tier the fallback resolution
    tries claude:opus, then claude:sonnet, and nothing else: it returns
    the first of the two that is registered and available, none when
    neither is, and never an ollama backend. *)
Theorem findFallbackWorker_complex_critical (c : Conductor) (tier : Tier) :
  Registered c ->
  tier = TierComplex \/ tier = TierCritical ->
  findFallbackWorker c tier =
    match availableWorker c BackendClaudeOpus with
    | Some w => Some w
    | None => availableWorker c BackendClaudeSonnet
    end /\
  forall w, findFallbackWorker c tier = Some w ->
    Available w = true /\
    (Backend w = BackendClaudeOpus \/ Backend w = BackendClaudeSonnet) /\
    strings.HasPrefix (Backend w) "ollama:" = false.
Proof.
  intros Hc Htier.
  assert (Heq : findFallbackWorker c tier =
                match availableWorker c BackendClaudeOpus with
                | Some w => Some w
                | None => availableWorker c BackendClaudeSonnet
                end).
  { unfold findFallbackWorker.
    replace (fallbacksFor tier) with [BackendClaudeOpus; BackendClaudeSonnet]
      by (destruct Htier as [->| ->]; reflexivity).
    rewrite !firstAvailable_cons. fold (availableWorker c BackendClaudeOpus).
    fold (availableWorker c BackendClaudeSonnet).
    destruct (availableWorker c BackendClaudeOpus); [reflexivity|].
    now destruct (availableWorker c BackendClaudeSonnet). }
  split; [exact Heq|]. intros w Hw. rewrite Heq in Hw.
  destruct (availableWorker c BackendClaudeOpus) as [w1|] eqn:H1.
  - injection Hw as ->. destruct (availableWorker_Some c _ w Hc H1) as [Ha Hb].
    rewrite Hb. repeat split; [assumption | now left].
  - destruct (availableWorker_Some c _ w Hc Hw) as [Ha Hb].
    rewrite Hb. repeat split; [assumption | now right].
Qed.

Lemma findFallbackWorker_complex_critical_witness :
  let sonnet := mockWorker BackendClaudeSonnet (inl (okResult BackendClaudeSonnet "ok")) in
  let ollama := mockWorker BackendOllama (inl (okResult BackendOllama "ok")) in
  let c := RegisterWorker (RegisterWorker NewConductor ollama) sonnet in
  findFallbackWorker c TierCritical = Some sonnet /\
  forall w, findFallbackWorker c TierCritical = Some w ->
    Available w = true /\
    (Backend w = BackendClaudeOpus \/ Backend w = BackendClaudeSonnet) /\
    strings.HasPrefix (Backend w) "ollama:" = false.
Proof.
  intros sonnet ollama c.
  apply (findFallbackWorker_complex_critical c TierCritical).
  - repeat constructor.
  - right. reflexivity.
Defined.

Lemma Run_duplicate c env title description l :
  hasTask (taskID env) (ledger.tasks l) = true ->
  exists e, Run c env title description l = (inr e, l).
Proof.
  intros Hdup. unfold Run, bind, check.
  rewrite CreateTask_duplicate by exact Hdup. eexists. reflexivity.
Qed.

(** C8: [Run] adds at most one execution row, and a row it adds has
    status "completed" and an empty error message.  When the resolved
    worker's [Execute] returns an error or a result with Success =
    false, [Run] returns status failed, leaves the executions table as
    it was and the task row failed. *)
Theorem Run_records_only_completed
    (c : Conductor) (env : Env) (title description : string) (l : ledger.Ledger) :
  let cls := Classify (classifier c) (order1 env) (order2 env) title description in
  let out := Run c env title description l in
  (ledger.executions out.2 = ledger.executions l \/
   exists e, ledger.executions out.2 = ledger.executions l ++ [e] /\
             ledger.Execution.Status e = "completed" /\
             ledger.Execution.ErrorMsg e = "") /\
  (forall worker actual,
     hasTask (taskID env) (ledger.tasks l) = false ->
     resolveWorker c cls = Some (worker, actual) ->
     (forall res, Execute worker (workerTask env title description cls actual) = inl res ->
                  Success res = false) ->
     exists r row,
       out.1 = inl r /\ Status r = StatusFailed /\
       ledger.executions out.2 = ledger.executions l /\
       ledger.GetTask (taskID env) out.2 = inl row /\
       ledger.Task.Status row = StatusFailed).
Proof.
  intros cls out.
  destruct (hasTask (taskID env) (ledger.tasks l)) eqn:Hfresh.
  { destruct (Run_duplicate c env title description l Hfresh) as [e He].
    subst out. rewrite He. cbn [fst snd]. split; [now left | discriminate]. }
  pose proof (Run_fresh c env title description l Hfresh) as H. cbv zeta in H.
  fold cls out in H.
  destruct (resolveWorker c cls) as [[worker actual]|] eqn:Hres.
  2:{ destruct H as [_ ->]. split; [now left | discriminate]. }
  destruct (Execute worker (workerTask env title description cls actual))
    as [res|err] eqn:Hexec.
  2:{ destruct H as [(r & Hr & Hst & _) Hl]. rewrite Hl. split; [now left|].
      intros w a _ [= <- <-] _. exists r; eexists. cbn [ledger.executions].
      repeat split; try assumption.
      - now apply GetTask_last.
      - reflexivity. }
  destruct (Success res) eqn:Hok.
  - destruct (hasExecution (execID env) (ledger.executions l)).
    + destruct H as [_ ->]. split; [now left|].
      intros w a _ [= <- <-] Hfail. rewrite Hexec in Hfail.
      specialize (Hfail res eq_refl). congruence.
    + destruct H as [_ ->]. split.
      * right. eexists. cbn [ledger.executions]. repeat split.
      * intros w a _ [= <- <-] Hfail. rewrite Hexec in Hfail.
        specialize (Hfail res eq_refl). congruence.
  - destruct H as [(r & Hr & Hst & _) Hl]. rewrite Hl. split; [now left|].
    intros w a _ [= <- <-] _. exists r; eexists. cbn [ledger.executions].
    repeat split; try assumption.
    + now apply GetTask_last.
    + reflexivity.
Qed.

Lemma Run_records_only_completed_witness :
  let worker := mockWorker BackendOllamaFast
                  (inl (failedResult BackendOllamaFast "model not found")) in
  let c := RegisterWorker NewConductor worker in
  let out := Run c exampleEnv "fix typo" "spelling mistake" ledger.Init in
  exists r row,
    out.1 = inl r /\ Status r = StatusFailed /\
    ledger.executions out.2 = [] /\
    ledger.GetTask "0a1b2c3d" out.2 = inl row /\
    ledger.Task.Status row = StatusFailed.
Proof.
  intros worker c out.
  apply (proj2 (Run_records_only_completed c exampleEnv "fix typo" "spelling mistake"
                  ledger.Init) worker BackendOllamaFast).
  - reflexivity.
  - vm_compute. reflexivity.
  - intros res [= <-]. reflexivity.
Defined.

(** C9: [UpdateTaskStatus] changes nothing but the status and
    updated_at columns of the rows with the given id, and [Run] leaves
    in the task row it creates the backend the classifier recommended,
    whatever backend executes the task; the backend that did is the
    one stored in the execution row. *)
Theorem worker_backend_never_updated :
  (forall (now : Z) (id status : string) (l : ledger.Ledger),
     let l' := (ledger.UpdateTaskStatus now id status l).2 in
     ledger.executions l' = ledger.executions l /\
     Forall2 (fun row row' =>
                row' = setStatus (ledger.Task.UpdatedAt row') (ledger.Task.Status row') row /\
                (ledger.Task.ID row <> id -> row' = row))
             (ledger.tasks l) (ledger.tasks l')) /\
  (forall (c : Conductor) (env : Env) (title description : string) (l : ledger.Ledger),
     hasTask (taskID env) (ledger.tasks l) = false ->
     let cls := Classify (classifier c) (order1 env) (order2 env) title description in
     let out := Run c env title description l in
     exists row,
       ledger.tasks out.2 = ledger.tasks l ++ [row] /\
       ledger.Task.ID row = taskID env /\
       ledger.Task.WorkerBackend row = RecommendedBackend cls /\
       forall r e, out.1 = inl r ->
                   ledger.executions out.2 = ledger.executions l ++ [e] ->
                   ledger.Execution.Backend e = ActualBackend r).
Proof.
  split.
  - intros now id status l l'. subst l'. rewrite ledger_facts.UpdateTaskStatus_eq.
    cbn [snd ledger.tasks ledger.executions]. split; [reflexivity|].
    induction (ledger.tasks l) as [|row rows IH]; cbn [map]; constructor; [|exact IH].
    destruct (String.eqb (ledger.Task.ID row) id) eqn:E.
    + split; [reflexivity|]. apply String.eqb_eq in E. congruence.
    + split; [now destruct row | reflexivity].
  - intros c env title description l Hfresh cls out.
    pose proof (Run_fresh c env title description l Hfresh) as H. cbv zeta in H.
    fold cls out in H.
    assert (Hno : forall (x : ledger.Execution.t) xs, xs = xs ++ [x] -> False).
    { intros x xs Hx. apply (f_equal (@length _)) in Hx.
      rewrite length_app in Hx. cbn in Hx. lia. }
    destruct (resolveWorker c cls) as [[worker actual]|].
    2:{ destruct H as [_ ->]. eexists. cbn [ledger.tasks ledger.executions].
        repeat split. intros r e _ He. now apply Hno in He. }
    destruct (Execute worker _) as [res|err].
    2:{ destruct H as [_ ->]. eexists. cbn [ledger.tasks ledger.executions].
        repeat split. intros r e _ He. now apply Hno in He. }
    destruct (Success res).
    + destruct (hasExecution (execID env) (ledger.executions l)).
      * destruct H as [_ ->]. eexists. cbn [ledger.tasks ledger.executions].
        repeat split. intros r e _ He. now apply Hno in He.
      * destruct H as [(r0 & Hr0 & _ & _ & _ & Hact) ->]. eexists.
        cbn [ledger.tasks ledger.executions]. repeat split.
        intros r e Hr He. apply app_inj_tail in He as [_ <-].
        rewrite Hr0 in Hr. injection Hr as <-. now rewrite Hact.
    + destruct H as [_ ->]. eexists. cbn [ledger.tasks ledger.executions].
      repeat split. intros r e _ He. now apply Hno in He.
Qed.

(** A standard task with only the ollama:reasoning worker registered:
    the task row keeps claude:sonnet, the execution row has
    ollama:reasoning. *)
Lemma worker_backend_never_updated_witness :
  let worker := mockWorker BackendOllamaReason
                  (inl (okResult BackendOllamaReason "Ollama Reason Output")) in
  let c := RegisterWorker NewConductor worker in
  let out := Run c exampleEnv "Implement new feature" "Standard logic" ledger.Init in
  (exists row,
     ledger.tasks out.2 = [row] /\
     ledger.Task.ID row = "0a1b2c3d" /\
     ledger.Task.WorkerBackend row = BackendClaudeSonnet /\
     forall r e, out.1 = inl r -> ledger.executions out.2 = [e] ->
                 ledger.Execution.Backend e = ActualBackend r) /\
  (exists r e, out.1 = inl r /\ ledger.executions out.2 = [e] /\
               ActualBackend r = BackendOllamaReason).
Proof.
  intros worker c out. split.
  - apply (proj2 worker_backend_never_updated c exampleEnv
             "Implement new feature" "Standard logic" ledger.Init).
    reflexivity.
  - vm_compute. eexists _, _. repeat split.
Defined.

End conductor_facts.

(** * Further properties *)

(** ** The classifier *)

Module classifier_more.
Import types classifier classifier_spec classifier_facts classifier_more_spec.

Lemma adjust_in_table t lines files :
  t ∈ allTiers -> adjustTierByScope t lines files ∈ allTiers.
Proof.
  unfold allTiers. rewrite !elem_of_cons, elem_of_nil.
  intros [->|[->|[->|[->|[->|[]]]]]]; unfold adjustTierByScope;
    repeat match goal with |- context [if ?b then _ else _] => destruct b end;
    auto 10.
Qed.

Lemma bestTier_in_table text o1 o2 :
  MapOrder o1 -> MapOrder o2 ->
  bestTier (pickBest (scoreAll NewClassifier text o1) o2) ∈ allTiers.
Proof.
  intros Ho1 Ho2.
  destruct (Classify_selected text o1 o2 Ho1 Ho2) as [[_ ->]|(t & Hin & _ & -> & _)].
  - cbn. unfold allTiers. rewrite !elem_of_cons. auto.
  - assumption.
Qed.

(** X1: [Classify] always returns one of the five tiers (0 to 4), and the
    backend it recommends is that tier's primary backend in
    [DefaultTierConfigs], hence one of ollama:fast, ollama:default,
    claude:sonnet and claude:opus; the fallback branch of
    [recommendBackend] is never taken. *)
Theorem Classify_tier_in_table (title description : string) (o1 o2 : list Tier) :
  MapOrder o1 -> MapOrder o2 ->
  let r := Classify NewClassifier o1 o2 title description in
  0 <= Tier_ r <= 4 /\
  exists cfg, DefaultTierConfigs !! Tier_ r = Some cfg /\
              RecommendedBackend r = PrimaryBackend cfg /\
              RecommendedBackend r ∈ [BackendOllamaFast; BackendOllama;
                                       BackendClaudeSonnet; BackendClaudeOpus].
Proof.
  intros Ho1 Ho2 r.
  destruct (Classify_fields o1 o2 title description) as (Ht & _ & _ & _ & _ & Hb).
  fold r in Ht, Hb.
  assert (Hin : Tier_ r ∈ allTiers).
  { rewrite Ht. apply adjust_in_table, bestTier_in_table; assumption. }
  rewrite Hb. unfold recommendBackend. revert Hin. generalize (Tier_ r). intros t.
  unfold allTiers. rewrite !elem_of_cons, elem_of_nil.
  intros [->|[->|[->|[->|[->|[]]]]]]; (split; [cbv [TierTrivial TierSimple TierStandard TierComplex TierCritical]; lia|]);
    eexists; (split; [reflexivity|]); (split; [reflexivity|]);
    cbn; rewrite !elem_of_cons; auto 10.
Qed.

Lemma Classify_tier_in_table_witness :
  let r := Classify NewClassifier allTiers (rev allTiers)
                    "implement authentication for the payment API" "" in
  0 <= Tier_ r <= 4 /\
  exists cfg, DefaultTierConfigs !! Tier_ r = Some cfg /\
              RecommendedBackend r = PrimaryBackend cfg /\
              RecommendedBackend r ∈ [BackendOllamaFast; BackendOllama;
                                       BackendClaudeSonnet; BackendClaudeOpus].
Proof.
  apply (Classify_tier_in_table "implement authentication for the payment API" ""
           allTiers (rev allTiers)).
  - apply Permutation_refl.
  - apply Permutation_rev.
Defined.

(** *** Bounds of the confidence *)

Lemma confidence_of_score t flags s :
  t ∈ allTiers ->
  fold_left addScore (combine (tierWeights t) flags) None = Some s ->
  PrimFloat.leb 0.5 (min 0.95 (0.5 + (s * 0.15)))%float = true /\
  PrimFloat.leb (min 0.95 (0.5 + (s * 0.15)))%float 0.95 = true.
Proof.
  unfold allTiers. rewrite !elem_of_cons, elem_of_nil.
  intros [->|[->|[->|[->|[->|[]]]]]].
  all: match goal with
       | |- context [tierWeights ?t] =>
           let w := eval vm_compute in (tierWeights t) in
           change (tierWeights t) with w
       end.
  all: destruct flags as [|[] [|[] [|[] [|[] [|[] [|[] flags]]]]]];
       cbn [combine fold_left addScore fst snd default];
       first [discriminate | intros [= <-]; vm_compute; split; reflexivity].
Qed.

(** X2: the confidence [Classify] returns lies between 0.5 and 0.95
    (as float64 comparisons), whatever the text. *)
Theorem Classify_confidence_bounds (title description : string) (o1 o2 : list Tier) :
  MapOrder o1 -> MapOrder o2 ->
  let r := Classify NewClassifier o1 o2 title description in
  PrimFloat.leb 0.5 (Confidence r) = true /\ PrimFloat.leb (Confidence r) 0.95 = true.
Proof.
  intros Ho1 Ho2 r.
  destruct (Classify_fields o1 o2 title description) as (_ & Hc & _).
  fold r in Hc. rewrite Hc. clear Hc.
  set (text := strings.ToLower (title +:+ " " +:+ description)).
  destruct (Classify_selected text o1 o2 Ho1 Ho2) as
    [[_ ->]|(t & Hin & Hacc & _ & Hpos & _)].
  - vm_compute. split; reflexivity.
  - rewrite Hpos. apply (f_equal fst) in Hacc. cbn [fst] in Hacc.
    unfold tierAcc in Hacc. cbn [patterns NewClassifier] in Hacc.
    destruct (initPatterns !! t) as [ps|] eqn:Hps; [|discriminate].
    rewrite accPattern_score in Hacc. cbn [fst] in Hacc.
    replace (map Weight ps) with (tierWeights t) in Hacc
      by (unfold tierWeights; now rewrite Hps).
    exact (confidence_of_score t _ _ Hin Hacc).
Qed.

Lemma Classify_confidence_bounds_witness :
  let r := Classify NewClassifier allTiers allTiers
             "redesign the billing database schema migration" "breaking change" in
  PrimFloat.leb 0.5 (Confidence r) = true /\ PrimFloat.leb (Confidence r) 0.95 = true.
Proof.
  apply (Classify_confidence_bounds "redesign the billing database schema migration"
           "breaking change" allTiers allTiers); apply Permutation_refl.
Defined.


(** *** The scope estimates *)

Lemma estimateLines_values text :
  estimateLines text ∈ [1; 5; 20; 200; 500; 50].
Proof.
  unfold estimateLines.
  repeat match goal with |- context [if ?b then _ else _] => destruct b end;
    rewrite !elem_of_cons; auto 10.
Qed.

Lemma estimateFiles_values text :
  estimateFiles text ∈ [1; 5; 10; 20; 2].
Proof.
  unfold estimateFiles.
  repeat match goal with |- context [if ?b then _ else _] => destruct b end;
    rewrite !elem_of_cons; auto 10.
Qed.

Lemma estimateFiles_20 text :
  estimateFiles text = 20 <->
  anyCue text narrowerFileCues = false /\
  anyCue text ["codebase"; "project-wide"] = true.
Proof.
  unfold estimateFiles, anyCue, narrowerFileCues. cbn [existsb].
  rewrite !orb_false_r.
  destruct (strings.Contains text "single file"), (strings.Contains text "one file"),
    (strings.Contains text "this file"), (strings.Contains text "multiple file"),
    (strings.Contains text "several file"), (strings.Contains text "across"),
    (strings.Contains text "throughout"), (strings.Contains text "codebase"),
    (strings.Contains text "project-wide"); cbn; split; intros H;
    try discriminate; try (destruct H; discriminate); auto.
Qed.

Lemma estimateLines_tiny text :
  (estimateLines text <? 10) = anyCue text tinyLineCues.
Proof.
  unfold estimateLines, anyCue, tinyLineCues. cbn [existsb]. rewrite orb_false_r.
  destruct (strings.Contains text "single line"), (strings.Contains text "one line"),
    (strings.Contains text "few lines"); cbn [orb]; try reflexivity.
  repeat match goal with |- context [if ?b then _ else _] => destruct b end; reflexivity.
Qed.

Lemma estimateFiles_single text :
  (estimateFiles text =? 1) = anyCue text singleFileCues.
Proof.
  unfold estimateFiles, anyCue, singleFileCues. cbn [existsb]. rewrite orb_false_r.
  destruct (strings.Contains text "single file"), (strings.Contains text "one file"),
    (strings.Contains text "this file"); cbn [orb]; try reflexivity.
  repeat match goal with |- context [if ?b then _ else _] => destruct b end; reflexivity.
Qed.

(** X3: for a tier below complex, the scope adjustment applied to the
    estimates of a text yields complex exactly when the file estimate is
    20, that is when the text contains "codebase" or "project-wide" and
    none of the file cues tested before them; the line estimate never
    exceeds 500, so the test lines > 500 plays no part. *)
Theorem scope_escalation_to_complex (text : string) (t : Tier) :
  t < TierComplex ->
  (adjustTierByScope t (estimateLines text) (estimateFiles text) = TierComplex <->
   anyCue text narrowerFileCues = false /\
   anyCue text ["codebase"; "project-wide"] = true).
Proof.
  intros Ht. rewrite <- estimateFiles_20.
  pose proof (estimateLines_values text) as Hl.
  pose proof (estimateFiles_values text) as Hf.
  revert Hl Hf. generalize (estimateLines text) (estimateFiles text). intros lines files.
  rewrite !elem_of_cons, !elem_of_nil. unfold TierComplex in *.
  intros [->|[->|[->|[->|[->|[->|[]]]]]]] [->|[->|[->|[->|[->|[]]]]]];
    unfold adjustTierByScope, TierComplex, TierStandard, TierSimple; cbn [Z.gtb Z.compare
      Pos.compare Pos.compare_cont orb andb Z.ltb Z.eqb Pos.eqb];
    repeat match goal with |- context [if ?b then _ else _] => destruct b eqn:? end;
    split; intros; try lia; try reflexivity;
    repeat match goal with
      | H : _ && _ = true |- _ => apply andb_true_iff in H as [? ?]
      | H : (_ <? _) = true |- _ => apply Z.ltb_lt in H
      | H : (_ <? _) = false |- _ => apply Z.ltb_ge in H
      | H : (_ >? _) = true |- _ => apply Z.gtb_lt in H
      end; try lia; try discriminate.
Qed.

Lemma scope_escalation_to_complex_witness :
  adjustTierByScope TierTrivial (estimateLines "fix typo in the codebase")
                    (estimateFiles "fix typo in the codebase") = TierComplex <->
  anyCue "fix typo in the codebase" narrowerFileCues = false /\
  anyCue "fix typo in the codebase" ["codebase"; "project-wide"] = true.
Proof.
  apply (scope_escalation_to_complex "fix typo in the codebase" TierTrivial).
  reflexivity.
Defined.

(** X4: the scope adjustment applied to the estimates of a text lowers
    a tier exactly when the tier is above simple and the text contains
    both a line cue below ten lines ("single line", "one line", "few
    lines") and a single-file cue ("single file", "one file", "this
    file"); the lowered tier is simple. *)
Theorem scope_deescalation (text : string) (t : Tier) :
  let r := adjustTierByScope t (estimateLines text) (estimateFiles text) in
  (r < t <-> TierSimple < t /\ anyCue text tinyLineCues = true /\
             anyCue text singleFileCues = true) /\
  (r < t -> r = TierSimple).
Proof.
  cbv zeta. rewrite <- estimateLines_tiny, <- estimateFiles_single.
  pose proof (estimateLines_values text) as Hl.
  pose proof (estimateFiles_values text) as Hf.
  revert Hl Hf. generalize (estimateLines text) (estimateFiles text). intros lines files.
  rewrite !elem_of_cons, !elem_of_nil.
  intros [->|[->|[->|[->|[->|[->|[]]]]]]] [->|[->|[->|[->|[->|[]]]]]];
    unfold adjustTierByScope, TierComplex, TierStandard, TierSimple; cbn [Z.gtb Z.compare
      Pos.compare Pos.compare_cont orb andb Z.ltb Z.eqb Pos.eqb];
    repeat match goal with |- context [if ?b then _ else _] => destruct b eqn:? end;
    repeat split; intros;
    repeat match goal with
      | H : _ /\ _ |- _ => destruct H
      | H : _ && _ = true |- _ => apply andb_true_iff in H as [? ?]
      | H : (_ <? _) = true |- _ => apply Z.ltb_lt in H
      | H : (_ <? _) = false |- _ => apply Z.ltb_ge in H
      | H : (_ >? _) = true |- _ => apply Z.gtb_lt in H
      | H : (_ >? _) = false |- _ => rewrite Z.gtb_ltb in H; apply Z.ltb_ge in H
      end; try lia; try discriminate; try reflexivity.
Qed.


(** *** Letter case *)

(** X5: [Classify] ignores the case of ASCII letters: for ASCII titles
    and descriptions that agree after lower-casing, and a text in which
    no two tiers share the highest score, any two calls return identical
    results, whatever order their map loops visit the tiers in. *)
Theorem Classify_ignores_case
    (title description title' description' : string) (o1 o2 o1' o2' : list Tier) :
  isASCII title = true -> isASCII description = true ->
  isASCII title' = true -> isASCII description' = true ->
  strings.ToLower title = strings.ToLower title' ->
  strings.ToLower description = strings.ToLower description' ->
  MapOrder o1 -> MapOrder o2 -> MapOrder o1' -> MapOrder o2' ->
  noTopTie (strings.ToLower (title +:+ " " +:+ description)) = true ->
  Classify NewClassifier o1 o2 title description =
  Classify NewClassifier o1' o2' title' description'.
Proof.
  intros _ _ _ _ Ht Hd Ho1 Ho2 Ho1' Ho2' Htie.
  assert (Htext : strings.ToLower (title' +:+ " " +:+ description') =
                  strings.ToLower (title +:+ " " +:+ description)).
  { now rewrite !ToLower_app, Ht, Hd. }
  unfold Classify. cbn [classifier.patterns]. rewrite Htext.
  now rewrite (pickBest_noTopTie _ o1 o2 o1' o2' Ho1 Ho2 Ho1' Ho2' Htie).
Qed.

Lemma Classify_ignores_case_witness :
  Classify NewClassifier allTiers allTiers "Fix TYPO" "Spelling Mistake" =
  Classify NewClassifier (rev allTiers) (rev allTiers) "fix typo" "spelling mistake".
Proof.
  apply (Classify_ignores_case "Fix TYPO" "Spelling Mistake" "fix typo" "spelling mistake").
  - reflexivity.
  - reflexivity.
  - reflexivity.
  - reflexivity.
  - reflexivity.
  - reflexivity.
  - apply Permutation_refl.
  - apply Permutation_refl.
  - apply Permutation_rev.
  - apply Permutation_rev.
  - vm_compute. reflexivity.
Defined.

(** *** The matched-pattern list *)

Lemma accPattern_names text ps : forall acc,
  (fold_left (accPattern text) ps acc).2 =
  match matchedNames text ps with
  | [] => acc.2
  | names => Some (default [] acc.2 ++ names)
  end.
Proof.
  unfold matchedNames.
  induction ps as [|p ps IH]; intros acc; cbn [fold_left List.filter map]; [reflexivity|].
  rewrite IH. unfold accPattern.
  destruct (regexp.MatchString (Regex p) text); cbn [map snd default]; [|reflexivity].
  destruct (map Name (List.filter _ ps)) as [|n names].
  - reflexivity.
  - unfold id. now rewrite <- app_assoc.
Qed.

(** X6: for an ASCII title and description, when some pattern matches,
    the pattern list [Classify] returns is made of the names of the
    matching patterns of one tier, in the order of the pattern table, it
    is not empty, and the tier returned is that tier after the scope
    adjustment; when no pattern matches the list is empty. *)
Theorem Classify_patterns (title description : string) (o1 o2 : list Tier) :
  isASCII title = true -> isASCII description = true ->
  MapOrder o1 -> MapOrder o2 ->
  let text := strings.ToLower (title +:+ " " +:+ description) in
  let r := Classify NewClassifier o1 o2 title description in
  if matchesAny text then
    exists t ps, t ∈ allTiers /\ patterns NewClassifier !! t = Some ps /\
                 Patterns r = matchedNames text ps /\ Patterns r <> [] /\
                 Tier_ r = adjustTierByScope t (estimateLines text) (estimateFiles text)
  else Patterns r = [].
Proof.
  intros _ _ Ho1 Ho2 text r.
  destruct (Classify_fields o1 o2 title description) as (Ht & _ & Hp & _).
  fold text r in Ht, Hp.
  destruct (Classify_selected text o1 o2 Ho1 Ho2) as
    [[Hany Hb]|(t & Hin & Hacc & Hbt & _)].
  - rewrite Hany, Hp, Hb. reflexivity.
  - destruct (matchesAny text) eqn:Hany.
    2:{ pose proof (matchesAny_false text t Hany Hin) as Hn.
        unfold tierScore in Hn. rewrite Hacc in Hn. discriminate. }
    unfold tierAcc in Hacc.
    destruct (patterns NewClassifier !! t) as [ps|] eqn:Hps; [|discriminate].
    exists t, ps. apply (f_equal snd) in Hacc. cbn [snd] in Hacc.
    rewrite accPattern_names in Hacc. cbn [snd default app] in Hacc.
    rewrite Hp, Ht, Hbt.
    destruct (matchedNames text ps) as [|n names]; [discriminate|].
    injection Hacc as <-. repeat split; try assumption. discriminate.
Qed.

Lemma Classify_patterns_witness :
  let r := Classify NewClassifier allTiers (rev allTiers)
                    "implement authentication for the payment API" "" in
  exists t ps, t ∈ allTiers /\ patterns NewClassifier !! t = Some ps /\
               Patterns r = matchedNames "implement authentication for the payment api " ps /\
               Patterns r <> [] /\
               Tier_ r = adjustTierByScope t 50 2.
Proof.
  exact (Classify_patterns "implement authentication for the payment API" ""
           allTiers (rev allTiers) eq_refl eq_refl (Permutation_refl _) (Permutation_rev _)).
Defined.

End classifier_more.

(** ** The ledger *)

Module ledger_more.
Import ledger ledger_spec ledger_facts ledger_more_spec.

Lemma find_app_absent id rows rows' :
  hasTask id rows = false ->
  find (fun row => String.eqb (Task.ID row) id) (rows ++ rows') =
  find (fun row => String.eqb (Task.ID row) id) rows'.
Proof.
  unfold hasTask. induction rows as [|r rows IH]; cbn [app find existsb]; [reflexivity|].
  intros [Hr Hrows]%orb_false_iff. rewrite Hr. now apply IH.
Qed.

Lemma find_app_other id rows row :
  String.eqb (Task.ID row) id = false ->
  find (fun r => String.eqb (Task.ID r) id) (rows ++ [row]) =
  find (fun r => String.eqb (Task.ID r) id) rows.
Proof.
  intros Hne. induction rows as [|r rows IH]; cbn [app find].
  - now rewrite Hne.
  - destruct (String.eqb (Task.ID r) id); [reflexivity | exact IH].
Qed.

(** X7: [CreateTask] with an id the tasks table does not hold succeeds;
    [GetTask] then returns the inserted columns with created_at and
    updated_at set by the engine, lookups of other ids are unchanged and
    the executions table is untouched. *)
Theorem CreateTask_GetTask (now : Z) (task : Task.t) (l : Ledger) :
  hasTask (Task.ID task) (tasks l) = false ->
  exists l',
    CreateTask now task l = (None, l') /\
    GetTask (Task.ID task) l' = inl (taskRow now task) /\
    (forall id, id <> Task.ID task -> GetTask id l' = GetTask id l) /\
    executions l' = executions l.
Proof.
  intros Hfresh. eexists. split; [now apply CreateTask_fresh|].
  unfold GetTask. cbn [tasks executions]. repeat split.
  - rewrite find_app_absent by assumption. cbn [find taskRow Task.ID].
    now rewrite String.eqb_refl.
  - intros id Hne. rewrite find_app_other; [reflexivity|].
    apply String.eqb_neq. cbn. congruence.
Qed.

Lemma CreateTask_GetTask_witness :
  let task := Task.mk "task-1" None "Test Task" "" 1 "pending" "" "" 0 0 in
  exists l',
    CreateTask 7 task Init = (None, l') /\
    GetTask "task-1" l' = inl (taskRow 7 task) /\
    (forall id, id <> "task-1" -> GetTask id l' = GetTask id Init) /\
    executions l' = [].
Proof.
  intros task. apply (CreateTask_GetTask 7 task Init). reflexivity.
Defined.

(** X8: [CreateTask] returns no error exactly when the id is not in the
    tasks table; on an error the ledger is unchanged, and a second
    insert with the id of a successful one is rejected with the UNIQUE
    constraint error. *)
Theorem CreateTask_rejects_duplicate (now : Z) (task : Task.t) (l : Ledger) :
  ((CreateTask now task l).1 = None <-> hasTask (Task.ID task) (tasks l) = false) /\
  ((CreateTask now task l).1 <> None -> (CreateTask now task l).2 = l) /\
  (forall task' l1,
     CreateTask now task l = (None, l1) -> Task.ID task' = Task.ID task ->
     CreateTask now task' l1 = (Some "UNIQUE constraint failed: tasks.id", l1)).
Proof.
  destruct (hasTask (Task.ID task) (tasks l)) eqn:Hhas.
  - rewrite CreateTask_duplicate by assumption. cbn [fst snd].
    repeat split; discriminate.
  - rewrite CreateTask_fresh by assumption. cbn [fst snd].
    repeat split; try congruence.
    intros task' l1 [= <-] Hid. apply CreateTask_duplicate. cbn [tasks].
    rewrite hasTask_app. cbn. rewrite Hid, String.eqb_refl. apply orb_true_r.
Qed.

(** X9: [GetTask] returns a row of the tasks table with the requested
    id when one exists, and the error "sql: no rows in result set"
    exactly when none does. *)
Theorem GetTask_found (id : string) (l : Ledger) :
  match GetTask id l with
  | inl row => row ∈ tasks l /\ Task.ID row = id /\ hasTask id (tasks l) = true
  | inr e => e = "sql: no rows in result set" /\ hasTask id (tasks l) = false
  end.
Proof.
  unfold GetTask, hasTask.
  induction (tasks l) as [|r rows IH]; cbn [find existsb]; [now split|].
  destruct (String.eqb (Task.ID r) id) eqn:E; cbn [orb].
  - apply String.eqb_eq in E. repeat split; [left | assumption].
  - destruct (find _ rows) as [row|]; [|exact IH].
    destruct IH as (Hin & Hid & Hhas). repeat split; [now right | assumption..].
Qed.

(** *** Status updates *)

Lemma find_update now id status id' rows :
  find (fun r => String.eqb (Task.ID r) id')
       (map (fun row => if String.eqb (Task.ID row) id
                        then setStatus now status row else row) rows) =
  if String.eqb id id'
  then option_map (setStatus now status) (find (fun r => String.eqb (Task.ID r) id') rows)
  else find (fun r => String.eqb (Task.ID r) id') rows.
Proof.
  induction rows as [|r rows IH]; cbn [map find option_map].
  - now destruct (String.eqb id id').
  - destruct (String.eqb (Task.ID r) id) eqn:E.
    + apply String.eqb_eq in E. subst id. cbn [setStatus Task.ID].
      destruct (String.eqb (Task.ID r) id') eqn:E'; [reflexivity | exact IH].
    + destruct (String.eqb (Task.ID r) id') eqn:E'; [|exact IH].
      apply String.eqb_eq in E'. subst id'.
      rewrite String.eqb_sym, E. reflexivity.
Qed.

(** X10: [UpdateTaskStatus] never returns an error; for an id that has
    no row it changes nothing, for an existing row [GetTask] afterwards
    returns it with the new status and updated_at and all other columns
    as before; other ids and the executions table are unaffected. *)
Theorem UpdateTaskStatus_GetTask (now : Z) (id status : string) (l : Ledger) :
  let l' := (UpdateTaskStatus now id status l).2 in
  (UpdateTaskStatus now id status l).1 = None /\
  (hasTask id (tasks l) = false -> l' = l) /\
  (forall row, GetTask id l = inl row -> GetTask id l' = inl (setStatus now status row)) /\
  (forall id', id' <> id -> GetTask id' l' = GetTask id' l) /\
  executions l' = executions l.
Proof.
  cbv zeta. rewrite UpdateTaskStatus_eq. cbn [fst snd]. repeat split.
  - intros Hmiss. rewrite update_absent by assumption. now destruct l.
  - intros row. unfold GetTask. cbn [tasks]. rewrite find_update, String.eqb_refl.
    destruct (find _ (tasks l)); [|discriminate]. now intros [= ->].
  - intros id' Hne. unfold GetTask. cbn [tasks]. rewrite find_update.
    apply not_eq_sym, String.eqb_neq in Hne. now rewrite Hne.
Qed.

(** X11: two status updates of the same id compose to the second one:
    the ledger after both equals the ledger after the last alone. *)
Theorem UpdateTaskStatus_last_wins (now1 now2 : Z) (id s1 s2 : string) (l : Ledger) :
  (UpdateTaskStatus now2 id s2 (UpdateTaskStatus now1 id s1 l).2).2 =
  (UpdateTaskStatus now2 id s2 l).2.
Proof.
  rewrite !UpdateTaskStatus_eq. cbn [snd tasks executions]. f_equal.
  rewrite map_map. apply map_ext. intros row.
  destruct (String.eqb (Task.ID row) id) eqn:E.
  - cbn [setStatus Task.ID]. now rewrite E.
  - now rewrite E.
Qed.


(** *** The primary keys *)

Lemma hasTask_elem id rows :
  hasTask id rows = false <-> id ∉ map Task.ID rows.
Proof.
  unfold hasTask. induction rows as [|r rows IH]; cbn [existsb map].
  - split; [intros _; apply not_elem_of_nil | reflexivity].
  - rewrite orb_false_iff, not_elem_of_cons, IH, String.eqb_neq. intuition congruence.
Qed.

Lemma hasExecution_elem id rows :
  hasExecution id rows = false <-> id ∉ map Execution.ID rows.
Proof.
  unfold hasExecution. induction rows as [|r rows IH]; cbn [existsb map].
  - split; [intros _; apply not_elem_of_nil | reflexivity].
  - rewrite orb_false_iff, not_elem_of_cons, IH, String.eqb_neq. intuition congruence.
Qed.

Lemma NoDup_snoc {A : Type} (x : A) (xs : list A) :
  x ∉ xs -> NoDup xs -> NoDup (xs ++ [x]).
Proof.
  intros Hx Hxs. apply NoDup_app. split; [assumption|]. split.
  - intros y Hy Hy'%list_elem_of_singleton. now subst.
  - apply NoDup_singleton.
Qed.

Lemma CreateTask_unique now task l :
  UniqueIDs l -> UniqueIDs (CreateTask now task l).2.
Proof.
  intros [Ht He]. destruct (hasTask (Task.ID task) (tasks l)) eqn:Hhas.
  - rewrite CreateTask_duplicate by assumption. now split.
  - rewrite CreateTask_fresh by assumption. split; cbn [snd tasks executions]; [|assumption].
    rewrite map_app. cbn [map taskRow Task.ID].
    apply NoDup_snoc; [now apply hasTask_elem | assumption].
Qed.

Lemma CreateExecution_unique now exec l :
  UniqueIDs l -> UniqueIDs (CreateExecution now exec l).2.
Proof.
  intros [Ht He]. destruct (hasExecution (Execution.ID exec) (executions l)) eqn:Hhas.
  - unfold CreateExecution. unfold hasExecution in Hhas. rewrite Hhas. now split.
  - rewrite CreateExecution_fresh by assumption.
    split; cbn [snd tasks executions]; [assumption|].
    rewrite map_app. cbn [map executionRow Execution.ID].
    apply NoDup_snoc; [now apply hasExecution_elem | assumption].
Qed.

Lemma UpdateTaskStatus_IDs now id status l :
  map Task.ID (tasks (UpdateTaskStatus now id status l).2) = map Task.ID (tasks l).
Proof.
  rewrite UpdateTaskStatus_eq. cbn [snd tasks]. rewrite map_map. apply map_ext.
  intros row. now destruct (String.eqb (Task.ID row) id).
Qed.

Lemma UpdateTaskStatus_unique now id status l :
  UniqueIDs l -> UniqueIDs (UpdateTaskStatus now id status l).2.
Proof.
  intros [Ht He]. split; [now rewrite UpdateTaskStatus_IDs | exact He].
Qed.

(** X12: in every ledger produced from [Init] by [CreateTask],
    [UpdateTaskStatus] and [CreateExecution], no two task rows and no
    two execution rows share an id, so an id determines its task row. *)
Theorem Reachable_unique_ids (l : Ledger) :
  Reachable l ->
  UniqueIDs l /\
  forall id row row',
    row ∈ tasks l -> row' ∈ tasks l -> Task.ID row = id -> Task.ID row' = id ->
    row = row'.
Proof.
  intros Hreach.
  assert (Hu : UniqueIDs l).
  { induction Hreach.
    - split; apply NoDup_nil_2.
    - now apply CreateTask_unique.
    - now apply UpdateTaskStatus_unique.
    - now apply CreateExecution_unique. }
  split; [exact Hu|]. destruct Hu as [Ht _].
  intros id row row' Hin Hin' Hid Hid'. subst id. revert Ht Hin Hin' Hid'.
  induction (tasks l) as [|r rows IH]; cbn [map]; intros Hnd Hin Hin' Heq.
  - now apply elem_of_nil in Hin.
  - apply NoDup_cons in Hnd as [Hnotin Hnd].
    apply elem_of_cons in Hin as [->|Hin]; apply elem_of_cons in Hin' as [->|Hin'].
    + reflexivity.
    + exfalso. apply Hnotin. rewrite <- Heq. apply list_elem_of_fmap. now exists row'.
    + exfalso. apply Hnotin. rewrite Heq. apply list_elem_of_fmap. now exists row.
    + now apply IH.
Qed.

Lemma Reachable_unique_ids_witness :
  let l := (CreateTask 2 (Task.mk "a" None "second" "" 2 "pending" "" "" 0 0)
              (CreateTask 1 (Task.mk "a" None "first" "" 1 "pending" "" "" 0 0) Init).2).2 in
  UniqueIDs l /\
  forall id row row',
    row ∈ tasks l -> row' ∈ tasks l -> Task.ID row = id -> Task.ID row' = id ->
    row = row'.
Proof.
  intros l. apply (Reachable_unique_ids l). repeat constructor.
Defined.

(** *** The statistics *)

Lemma count_three {A : Type} (p q r : A -> bool) (rows : list A) :
  (forall x, p x && q x = false) -> (forall x, p x && r x = false) ->
  (forall x, q x && r x = false) ->
  Z.of_nat (length rows) =
  COUNT p rows + COUNT q rows + COUNT r rows
  + COUNT (fun x => negb (p x || q x || r x)) rows.
Proof.
  intros Hpq Hpr Hqr. unfold COUNT.
  induction rows as [|x rows IH]; [reflexivity|].
  cbn [length List.filter].
  specialize (Hpq x). specialize (Hpr x). specialize (Hqr x).
  destruct (p x), (q x), (r x); try discriminate; cbn [orb negb length]; lia.
Qed.

Lemma count_two {A : Type} (p q : A -> bool) (rows : list A) :
  (forall x, p x && q x = false) ->
  Z.of_nat (length rows) =
  COUNT p rows + COUNT q rows + COUNT (fun x => negb (p x || q x)) rows.
Proof.
  intros Hpq. unfold COUNT.
  induction rows as [|x rows IH]; [reflexivity|].
  cbn [length List.filter]. specialize (Hpq x).
  destruct (p x), (q x); try discriminate; cbn [orb negb length]; lia.
Qed.

Lemma LIKE_prefix_first prefix col c rest :
  strings.ToLower prefix = String c rest ->
  LIKE_prefix prefix col = true ->
  exists s, strings.ToLower col = String c s.
Proof.
  unfold LIKE_prefix. intros ->. destruct (strings.ToLower col) as [|d s]; [discriminate|].
  cbn [strings.HasPrefix]. destruct (Ascii.eqb d c) eqn:E; [|discriminate].
  apply Ascii.eqb_eq in E. subst. eauto.
Qed.

Lemma classes_disjoint p q c c' rest rest' exec :
  strings.ToLower p = String c rest -> strings.ToLower q = String c' rest' -> c <> c' ->
  inClass p exec && inClass q exec = false.
Proof.
  intros Hp Hq Hne. unfold inClass.
  destruct (LIKE_prefix p (Execution.Backend exec)) eqn:E1; [|reflexivity].
  destruct (LIKE_prefix q (Execution.Backend exec)) eqn:E2; [|reflexivity].
  destruct (LIKE_prefix_first _ _ _ _ Hp E1) as [s Hs].
  destruct (LIKE_prefix_first _ _ _ _ Hq E2) as [s' Hs']. congruence.
Qed.

(** X13: in [GetStats] the total task count is the number of task rows
    and splits into pending, completed and the tasks of any other status
    (failed, approved, rejected, ...); the total execution count is the
    number of execution rows and splits into the claude, gemini and
    ollama classes and the executions of no class: no row is counted
    twice. *)
Theorem GetStats_partition (l : Ledger) :
  let stats := GetStats l in
  TotalTasks stats = Z.of_nat (length (tasks l)) /\
  TotalExecutions stats = Z.of_nat (length (executions l)) /\
  TotalTasks stats =
    PendingTasks stats + CompletedTasks stats
    + count (fun row => negb (isPending row || isDone row)) (tasks l) /\
  TotalExecutions stats =
    ClaudeTasks stats + GeminiTasks stats + OllamaTasks stats
    + count unclassified (executions l).
Proof.
  cbv zeta. unfold GetStats.
  cbn [TotalTasks TotalExecutions PendingTasks CompletedTasks ClaudeTasks GeminiTasks
       OllamaTasks].
  assert (Hall : forall (A : Type) (rows : list A),
             COUNT (fun _ => true) rows = Z.of_nat (length rows)).
  { intros A rows. unfold COUNT. now rewrite filter_all. }
  rewrite !Hall. repeat split.
  - apply (count_two isPending isDone).
    intros x. unfold isPending, isDone, IN. cbn [existsb].
    destruct (String.eqb (Task.Status x) "done") eqn:E; [|apply andb_false_r].
    apply String.eqb_eq in E. rewrite E. reflexivity.
  - apply (count_three (inClass "claude:") (inClass "gemini:") (inClass "ollama:")).
    + intros x. eapply classes_disjoint; [reflexivity..|discriminate].
    + intros x. eapply classes_disjoint; [reflexivity..|discriminate].
    + intros x. eapply classes_disjoint; [reflexivity..|discriminate].
Qed.

(** X14: with an empty executions table [GetStats] reports zero
    executions, zero cost per class, zero estimated savings and a
    savings percentage of exactly 0 (the guard avoids dividing 0 by 0),
    whatever the tasks are. *)
Theorem GetStats_without_executions (l : Ledger) :
  executions l = [] ->
  let stats := GetStats l in
  TotalExecutions stats = 0 /\
  ClaudeTasks stats = 0 /\ GeminiTasks stats = 0 /\ OllamaTasks stats = 0 /\
  ClaudeCost stats = 0%float /\ GeminiCost stats = 0%float /\
  OllamaCost stats = 0%float /\
  EstimatedSavings stats = 0%float /\ SavingsPercent stats = 0%float.
Proof.
  intros He. cbv zeta. unfold GetStats. rewrite He.
  cbn [TotalExecutions ClaudeTasks GeminiTasks OllamaTasks ClaudeCost GeminiCost
       OllamaCost EstimatedSavings SavingsPercent].
  repeat split.
Qed.

Lemma GetStats_without_executions_witness :
  let l := (CreateTask 1 (Task.mk "a" None "first" "" 1 "done" "" "" 0 0) Init).2 in
  let stats := GetStats l in
  TotalExecutions stats = 0 /\
  ClaudeTasks stats = 0 /\ GeminiTasks stats = 0 /\ OllamaTasks stats = 0 /\
  ClaudeCost stats = 0%float /\ GeminiCost stats = 0%float /\
  OllamaCost stats = 0%float /\
  EstimatedSavings stats = 0%float /\ SavingsPercent stats = 0%float.
Proof.
  intros l. apply (GetStats_without_executions l). reflexivity.
Defined.

End ledger_more.

(** ** The conductor *)

Module conductor_more.
Import types classifier conductor conductor_spec.
Import ledger_spec ledger_facts conductor_facts.
Import ledger_more_spec ledger_more.
Import classifier_spec classifier_facts classifier_more.

(** X15: for the trivial and simple tiers [findFallbackWorker] returns
    the first registered and available worker among ollama:default,
    ollama:fast, claude:haiku in that order; for the standard tier among
    claude:sonnet, ollama:reasoning, claude:haiku; for a tier value
    outside the five tiers it returns none. *)
Theorem findFallbackWorker_by_tier (c : Conductor) (tier : Tier) :
  (tier = TierTrivial \/ tier = TierSimple ->
   findFallbackWorker c tier =
     match availableWorker c BackendOllama with
     | Some w => Some w
     | None =>
         match availableWorker c BackendOllamaFast with
         | Some w => Some w
         | None => availableWorker c BackendClaudeHaiku
         end
     end) /\
  (tier = TierStandard ->
   findFallbackWorker c tier =
     match availableWorker c BackendClaudeSonnet with
     | Some w => Some w
     | None =>
         match availableWorker c BackendOllamaReason with
         | Some w => Some w
         | None => availableWorker c BackendClaudeHaiku
         end
     end) /\
  (tier < TierTrivial \/ TierCritical < tier -> findFallbackWorker c tier = None).
Proof.
  unfold findFallbackWorker. repeat split.
  - intros Ht.
    replace (fallbacksFor tier) with [BackendOllama; BackendOllamaFast; BackendClaudeHaiku]
      by (destruct Ht as [->| ->]; reflexivity).
    rewrite !firstAvailable_cons. unfold availableWorker. cbn [firstAvailable].
    repeat match goal with |- context [match ?x with _ => _ end] => destruct x end;
      reflexivity.
  - intros ->. change (fallbacksFor TierStandard)
      with [BackendClaudeSonnet; BackendOllamaReason; BackendClaudeHaiku].
    rewrite !firstAvailable_cons. unfold availableWorker. cbn [firstAvailable].
    repeat match goal with |- context [match ?x with _ => _ end] => destruct x end;
      reflexivity.
  - intros Ht. unfold fallbacksFor, TierTrivial, TierSimple, TierStandard, TierComplex,
      TierCritical in *.
    repeat match goal with |- context [?a =? ?b] =>
      let E := fresh in destruct (Z.eqb_spec a b) as [E|E]; [lia|] end.
    reflexivity.
Qed.


(** *** Runs that execute *)

Lemma Registered_classifier c : Registered c -> classifier c = NewClassifier.
Proof. induction 1; [reflexivity | assumption]. Qed.

Lemma validatorCount_trivial t :
  t ∈ allTiers -> (validatorCount t >? 0) = negb (t =? TierTrivial).
Proof.
  unfold allTiers. rewrite !elem_of_cons, elem_of_nil.
  intros [->|[->|[->|[->|[->|[]]]]]]; reflexivity.
Qed.

Lemma resolveWorker_primary c cls worker :
  workers c !! RecommendedBackend cls = Some worker -> Available worker = true ->
  resolveWorker c cls = Some (worker, RecommendedBackend cls).
Proof. intros Hw Ha. unfold resolveWorker. now rewrite Hw, Ha. Qed.

(** X16: when the recommended backend's worker is registered and
    available and its [Execute] succeeds (and neither drawn identifier is
    taken), [Run] returns that result with no error, the recommended
    backend as ActualBackend, and status done for the trivial tier and
    validating for every other tier; the ledger gains the task row with
    that status and one completed execution row. *)
Theorem Run_primary_success
    (c : Conductor) (env : Env) (title description : string) (l : ledger.Ledger)
    (worker : Worker) (res : ExecutionResult) :
  Registered c -> MapOrder (order1 env) -> MapOrder (order2 env) ->
  hasTask (taskID env) (ledger.tasks l) = false ->
  hasExecution (execID env) (ledger.executions l) = false ->
  let cls := Classify NewClassifier (order1 env) (order2 env) title description in
  workers c !! RecommendedBackend cls = Some worker ->
  Available worker = true ->
  Execute worker (workerTask env title description cls (RecommendedBackend cls)) = inl res ->
  Success res = true ->
  let final := if Tier_ cls =? TierTrivial then StatusDone else StatusValidating in
  exists r,
    Run c env title description l =
      (inl r,
       ledger.mkLedger
         (ledger.tasks l ++ [runRow env title description cls final (sqlNow env 3)])
         (ledger.executions l ++ [runExecution env (RecommendedBackend cls) res])) /\
    Status r = final /\ Error r = "" /\ Execution r = Some res /\
    ActualBackend r = RecommendedBackend cls.
Proof.
  intros Hreg Ho1 Ho2 Hfresh Hexec cls Hw Ha Hrun Hok final.
  pose proof (Run_fresh c env title description l Hfresh) as H. cbv zeta in H.
  rewrite (Registered_classifier c Hreg) in H. fold cls in H.
  rewrite (resolveWorker_primary c cls worker Hw Ha), Hrun, Hok, Hexec in H.
  rewrite validatorCount_trivial in H.
  2:{ destruct (Classify_fields (order1 env) (order2 env) title description) as (Ht & _).
      fold cls in Ht. rewrite Ht. apply adjust_in_table, bestTier_in_table; assumption. }
  assert (Hfinal : (if negb (Tier_ cls =? TierTrivial) then StatusValidating else StatusDone)
                   = final).
  { subst final. now destruct (Tier_ cls =? TierTrivial). }
  rewrite Hfinal in H. destruct H as [(r & Hr & Hst & Herr & Hex & Hact) Hl].
  exists r. repeat split; try assumption.
  destruct (Run c env title description l) as [v l']. cbn [fst snd] in Hr, Hl.
  now subst.
Qed.

Lemma Run_primary_success_witness :
  let worker := mockWorker BackendOllamaFast (inl (okResult BackendOllamaFast "fixed")) in
  let c := RegisterWorker NewConductor worker in
  let cls := Classify NewClassifier allTiers allTiers "fix the typo in the word recieve" "" in
  exists r,
    Run c exampleEnv "fix the typo in the word recieve" "" ledger.Init =
      (inl r,
       ledger.mkLedger
         [runRow exampleEnv "fix the typo in the word recieve" "" cls StatusDone 103]
         [runExecution exampleEnv BackendOllamaFast (okResult BackendOllamaFast "fixed")]) /\
    Status r = StatusDone /\ Error r = "" /\
    Execution r = Some (okResult BackendOllamaFast "fixed") /\
    ActualBackend r = BackendOllamaFast.
Proof.
  intros worker c cls.
  apply (Run_primary_success c exampleEnv "fix the typo in the word recieve" ""
           ledger.Init worker (okResult BackendOllamaFast "fixed")).
  - repeat constructor.
  - apply Permutation_refl.
  - apply Permutation_refl.
  - reflexivity.
  - reflexivity.
  - vm_compute. reflexivity.
  - reflexivity.
  - reflexivity.
  - reflexivity.
Defined.

Lemma Run_returns_fresh c env title description l r l' :
  Run c env title description l = (inl r, l') ->
  hasTask (taskID env) (ledger.tasks l) = false.
Proof.
  intros Hrun. destruct (hasTask (taskID env) (ledger.tasks l)) eqn:Hhas; [|reflexivity].
  destruct (Run_duplicate c env title description l Hhas) as [e He]. congruence.
Qed.

(** X17: every result [Run] returns has status failed, done or
    validating; a status other than failed comes with an empty error and
    an execution result; and the task row in the ledger carries the
    returned status, except that it is still pending when no worker was
    available. *)
Theorem Run_terminal_status
    (c : Conductor) (env : Env) (title description : string) (l l' : ledger.Ledger)
    (r : RunResult) :
  Run c env title description l = (inl r, l') ->
  Status r ∈ [StatusFailed; StatusDone; StatusValidating] /\
  (Status r <> StatusFailed -> Error r = "" /\ Execution r <> None) /\
  exists row,
    ledger.GetTask (taskID env) l' = inl row /\
    (ledger.Task.Status row = Status r \/
     (Status r = StatusFailed /\ Error r = "no available worker for this task tier" /\
      ledger.Task.Status row = StatusPending)).
Proof.
  intros Hrun. pose proof (Run_returns_fresh _ _ _ _ _ _ _ Hrun) as Hfresh.
  pose proof (Run_fresh c env title description l Hfresh) as H. cbv zeta in H.
  rewrite Hrun in H. cbn [fst snd] in H.
  destruct (resolveWorker c _) as [[worker actual]|].
  2:{ destruct H as [(r0 & [= <-] & Hst & Herr & _) ->]. rewrite Hst, Herr.
      split; [left|]. split; [congruence|].
      eexists. split; [now apply GetTask_last|]. right. repeat split. }
  destruct (Execute worker _) as [res|err].
  2:{ destruct H as [(r0 & [= <-] & Hst & _) ->]. rewrite Hst.
      split; [left|]. split; [congruence|].
      eexists. split; [now apply GetTask_last|]. now left. }
  destruct (Success res).
  - destruct (hasExecution (execID env) (ledger.executions l)).
    + destruct H as [[e He] _]. discriminate.
    + destruct H as [(r0 & [= <-] & Hst & Herr & Hex & _) ->]. rewrite Hst, Herr, Hex.
      split.
      { destruct (validatorCount _ >? 0); rewrite !elem_of_cons; auto. }
      split; [intros _; split; [reflexivity | discriminate]|].
      eexists. split; [now apply GetTask_last|]. now left.
  - destruct H as [(r0 & [= <-] & Hst & _) ->]. rewrite Hst.
    split; [left|]. split; [congruence|].
    eexists. split; [now apply GetTask_last|]. now left.
Qed.

Lemma Run_terminal_status_witness :
  let worker := mockWorker BackendOllamaReason
                  (inl (okResult BackendOllamaReason "Ollama Reason Output")) in
  let c := RegisterWorker NewConductor worker in
  match Run c exampleEnv "Implement new feature" "Standard logic" ledger.Init with
  | (inl r, l') =>
      Status r ∈ [StatusFailed; StatusDone; StatusValidating] /\
      (Status r <> StatusFailed -> Error r = "" /\ Execution r <> None) /\
      exists row,
        ledger.GetTask "0a1b2c3d" l' = inl row /\
        (ledger.Task.Status row = Status r \/
         (Status r = StatusFailed /\ Error r = "no available worker for this task tier" /\
          ledger.Task.Status row = StatusPending))
  | (inr _, _) => False
  end.
Proof.
  intros worker c.
  destruct (Run c exampleEnv "Implement new feature" "Standard logic" ledger.Init)
    as [[r|e] l'] eqn:Hrun.
  - exact (Run_terminal_status c exampleEnv "Implement new feature" "Standard logic"
             ledger.Init l' r Hrun).
  - vm_compute in Hrun. discriminate.
Defined.


(** *** Runs that cannot persist *)

(** X18: when the drawn task id is already in the tasks table, [Run]
    returns the error "failed to create task: UNIQUE constraint failed:
    tasks.id" and leaves the ledger unchanged. *)
Theorem Run_task_id_collision
    (c : Conductor) (env : Env) (title description : string) (l : ledger.Ledger) :
  hasTask (taskID env) (ledger.tasks l) = true ->
  Run c env title description l =
  (inr "failed to create task: UNIQUE constraint failed: tasks.id", l).
Proof.
  intros Hdup. unfold Run, bind, check.
  rewrite CreateTask_duplicate by exact Hdup. reflexivity.
Qed.

Lemma Run_task_id_collision_witness :
  let l := (ledger.CreateTask 1 (ledger.Task.mk "0a1b2c3d" None "earlier" "" 2 "done"
                                                "claude:sonnet" "" 0 0) ledger.Init).2 in
  Run NewConductor exampleEnv "fix typo" "" l =
  (inr "failed to create task: UNIQUE constraint failed: tasks.id", l).
Proof.
  intros l. apply (Run_task_id_collision NewConductor exampleEnv "fix typo" "" l).
  reflexivity.
Defined.

(** X19: when the worker succeeds but the drawn execution id is already
    in the executions table, [Run] returns the error "failed to record
    execution: ..." and the task row is left in status working, with no
    execution added. *)
Theorem Run_execution_id_collision
    (c : Conductor) (env : Env) (title description : string) (l : ledger.Ledger)
    (worker : Worker) (actual : types.Backend) (res : ExecutionResult) :
  hasTask (taskID env) (ledger.tasks l) = false ->
  hasExecution (execID env) (ledger.executions l) = true ->
  let cls := Classify (classifier c) (order1 env) (order2 env) title description in
  resolveWorker c cls = Some (worker, actual) ->
  Execute worker (workerTask env title description cls actual) = inl res ->
  Success res = true ->
  Run c env title description l =
  (inr "failed to record execution: UNIQUE constraint failed: executions.id",
   ledger.mkLedger
     (ledger.tasks l ++ [runRow env title description cls StatusWorking (sqlNow env 1)])
     (ledger.executions l)).
Proof.
  intros Hfresh Hdup cls Hres Hexec Hok.
  unfold Run. fold cls. unfold bind, check, ignore, ret.
  rewrite CreateTask_fresh by exact Hfresh. cbv beta iota. rewrite Hres.
  rewrite ledger_facts.UpdateTaskStatus_eq. cbv beta iota.
  cbn [ledger.tasks ledger.executions ledger.Task.ID].
  rewrite update_last by (assumption || reflexivity).
  unfold workerTask in Hexec. rewrite Hexec, Hok. cbn [negb].
  unfold ledger.CreateExecution. cbn [ledger.executions ledger.Execution.ID].
  unfold hasExecution in Hdup. rewrite Hdup. reflexivity.
Qed.

Lemma Run_execution_id_collision_witness :
  let worker := mockWorker BackendOllamaFast (inl (okResult BackendOllamaFast "fixed")) in
  let c := RegisterWorker NewConductor worker in
  let earlier := ledger.Execution.mk "4e5f6a7b" "gone" "" "ollama:fast" "" "" 0 0%float 0
                                     "completed" "" 0 in
  let l := (ledger.CreateExecution 1 earlier ledger.Init).2 in
  let cls := Classify NewClassifier allTiers allTiers "fix typo" "" in
  Run c exampleEnv "fix typo" "" l =
  (inr "failed to record execution: UNIQUE constraint failed: executions.id",
   ledger.mkLedger [runRow exampleEnv "fix typo" "" cls StatusWorking 101]
                   (ledger.executions l)).
Proof.
  intros worker c earlier l cls.
  apply (Run_execution_id_collision c exampleEnv "fix typo" "" l worker BackendOllamaFast
           (okResult BackendOllamaFast "fixed")).
  - reflexivity.
  - reflexivity.
  - vm_compute. reflexivity.
  - reflexivity.
  - reflexivity.
Defined.

(** *** Integrity of the ledger across a run *)

Lemma hasTask_snoc id rows row :
  hasTask id (rows ++ [row]) = hasTask id rows || String.eqb (ledger.Task.ID row) id.
Proof. rewrite hasTask_app. cbn. now rewrite orb_false_r. Qed.

Ltac shape :=
  eexists; cbn [ledger.tasks ledger.executions];
  (split; [|split; [reflexivity|]]); [reflexivity|].

Lemma Run_ledger_shape c env title description l :
  hasTask (taskID env) (ledger.tasks l) = false ->
  exists row,
    ledger.Task.ID row = taskID env /\
    ledger.tasks (Run c env title description l).2 = ledger.tasks l ++ [row] /\
    (ledger.executions (Run c env title description l).2 = ledger.executions l \/
     exists e, hasExecution (execID env) (ledger.executions l) = false /\
               ledger.Execution.ID e = execID env /\
               ledger.Execution.TaskID e = taskID env /\
               ledger.executions (Run c env title description l).2
               = ledger.executions l ++ [e]).
Proof.
  intros Hfresh.
  pose proof (Run_fresh c env title description l Hfresh) as H. cbv zeta in H.
  destruct (resolveWorker c _) as [[worker actual]|].
  2:{ destruct H as [_ ->]. shape. now left. }
  destruct (Execute worker _) as [res|err].
  2:{ destruct H as [_ ->]. shape. now left. }
  destruct (Success res).
  - destruct (hasExecution (execID env) (ledger.executions l)) eqn:Hdup.
    + destruct H as [_ ->]. shape. now left.
    + destruct H as [_ ->]. shape. right.
      eexists; (split; [reflexivity|]); (split; [|split; [|reflexivity]]); reflexivity.
  - destruct H as [_ ->]. shape. now left.
Qed.

(** X20: [Run] keeps the ledger's integrity: if ids are unique and every
    execution names an existing task before the run, the same holds
    after it, whatever the run's outcome. *)
Theorem Run_preserves_integrity
    (c : Conductor) (env : Env) (title description : string) (l : ledger.Ledger) :
  UniqueIDs l -> ExecutionsHaveTasks l ->
  UniqueIDs (Run c env title description l).2 /\
  ExecutionsHaveTasks (Run c env title description l).2.
Proof.
  intros [Hut Hue] Hrefs.
  destruct (hasTask (taskID env) (ledger.tasks l)) eqn:Hfresh.
  { destruct (Run_duplicate c env title description l Hfresh) as [e ->]. now repeat split. }
  destruct (Run_ledger_shape c env title description l Hfresh)
    as (row & Hid & Htasks & Hexecs).
  assert (Hold : forall exec, exec ∈ ledger.executions l ->
            hasTask (ledger.Execution.TaskID exec)
                    (ledger.tasks (Run c env title description l).2) = true).
  { intros exec Hin. rewrite Htasks, hasTask_snoc, (Hrefs exec Hin). reflexivity. }
  unfold UniqueIDs, ExecutionsHaveTasks. rewrite Htasks at 1.
  rewrite map_app. cbn [map]. rewrite Hid.
  split; [split|].
  - apply NoDup_snoc; [now apply hasTask_elem | assumption].
  - destruct Hexecs as [->|(e & Hnew & Heid & _ & ->)]; [assumption|].
    rewrite map_app. cbn [map]. rewrite Heid.
    apply NoDup_snoc; [now apply hasExecution_elem | assumption].
  - destruct Hexecs as [->|(e & _ & _ & Htid & ->)]; [exact Hold|].
    intros exec [Hin|Hin%list_elem_of_singleton]%elem_of_app; [now apply Hold|].
    subst exec. rewrite Htid, Htasks, hasTask_snoc, Hid, String.eqb_refl.
    apply orb_true_r.
Qed.

Lemma Run_preserves_integrity_witness :
  let worker := mockWorker BackendOllamaFast (inl (okResult BackendOllamaFast "fixed")) in
  let c := RegisterWorker NewConductor worker in
  UniqueIDs (Run c exampleEnv "fix typo" "" ledger.Init).2 /\
  ExecutionsHaveTasks (Run c exampleEnv "fix typo" "" ledger.Init).2.
Proof.
  intros worker c.
  apply (Run_preserves_integrity c exampleEnv "fix typo" "" ledger.Init).
  - split; apply NoDup_nil_2.
  - intros exec Hin. now apply elem_of_nil in Hin.
Defined.


(** *** The preview and the run *)

Lemma firstAvailable_key registry fallbacks w :
  firstAvailable registry fallbacks = Some w ->
  exists backend, backend ∈ fallbacks /\ registry !! backend = Some w /\
                  Available w = true.
Proof.
  induction fallbacks as [|b rest IH]; cbn [firstAvailable]; [discriminate|].
  destruct (registry !! b) as [w0|] eqn:Hb.
  - destruct (Available w0) eqn:Ha.
    + intros [= <-]. exists b. repeat split; [left | assumption..].
    + intros (b' & Hin & H)%IH. exists b'. split; [now right | assumption].
  - intros (b' & Hin & H)%IH. exists b'. split; [now right | assumption].
Qed.

Lemma fallbacksFor_named tier backend :
  backend ∈ fallbacksFor tier -> backend <> "".
Proof.
  unfold fallbacksFor.
  repeat match goal with |- context [if ?b then _ else _] => destruct b end;
    rewrite ?elem_of_cons, elem_of_nil; intros H;
    repeat (destruct H as [->|H]; [discriminate|]); contradiction.
Qed.

Lemma Run_result_fields c env title description l r l' :
  Run c env title description l = (inl r, l') ->
  let cls := Classify (classifier c) (order1 env) (order2 env) title description in
  Classification r = cls /\ TaskID r = taskID env /\
  match resolveWorker c cls with
  | None => ActualBackend r = "" /\ Status r = StatusFailed /\
            Error r = "no available worker for this task tier" /\
            Execution r = None /\
            l' = ledger.mkLedger
                   (ledger.tasks l ++ [runRow env title description cls StatusPending
                                              (sqlNow env 0)])
                   (ledger.executions l)
  | Some (_, actual) => ActualBackend r = actual
  end.
Proof.
  intros Hrun cls. pose proof (Run_returns_fresh _ _ _ _ _ _ _ Hrun) as Hfresh.
  revert Hrun. unfold Run. fold cls. unfold bind, check, ignore, ret.
  rewrite CreateTask_fresh by exact Hfresh. cbv beta iota.
  destruct (resolveWorker c cls) as [[worker actual]|].
  2:{ intros [= <- <-]. repeat split. }
  run_step.
  destruct (Execute worker _) as [res|err].
  2:{ intros [= <- <-]. repeat split. }
  destruct (Success res); run_step.
  2:{ intros [= <- <-]. repeat split. }
  destruct (ledger.CreateExecution _ _ _) as [[e|] l2]; [discriminate|].
  destruct (validatorCount (Tier_ cls) >? 0); run_step; intros [= <- <-]; repeat split.
Qed.

(** X21: [DryRun] predicts a later [Run] of the same ASCII title and
    description, each call ranging over the maps in an order of its own,
    when no two tiers share the highest score: both carry the same
    classification; if the preview reports the worker available, the run
    uses the previewed backend; otherwise the run uses the previewed
    fallback backend, and when the preview found no fallback the run
    fails with "no available worker for this task tier" and records no
    execution. *)
Theorem DryRun_predicts_Run
    (c : Conductor) (envd envr : Env) (title description : string)
    (l l' : ledger.Ledger) (d r : RunResult) :
  Registered c ->
  isASCII title = true -> isASCII description = true ->
  MapOrder (order1 envd) -> MapOrder (order2 envd) ->
  MapOrder (order1 envr) -> MapOrder (order2 envr) ->
  noTopTie (strings.ToLower (title +:+ " " +:+ description)) = true ->
  (DryRun c envd title description l).1 = inl d ->
  Run c envr title description l = (inl r, l') ->
  Classification r = Classification d /\
  (WorkerAvailable d = true -> ActualBackend r = ActualBackend d) /\
  (WorkerAvailable d = false -> ActualBackend r = FallbackBackend d) /\
  (WorkerAvailable d = false -> FallbackBackend d = "" ->
   Status r = StatusFailed /\ Error r = "no available worker for this task tier" /\
   Execution r = None /\ ledger.executions l' = ledger.executions l).
Proof.
  intros Hreg _ _ Hd1 Hd2 Hr1 Hr2 Htie Hdry Hrun.
  assert (Hsame : Classify (classifier c) (order1 envd) (order2 envd) title description =
                  Classify (classifier c) (order1 envr) (order2 envr) title description).
  { rewrite (Registered_classifier c Hreg). unfold Classify. cbn [classifier.patterns].
    now rewrite (pickBest_noTopTie _ _ _ _ _ Hd1 Hd2 Hr1 Hr2 Htie). }
  pose proof (Run_result_fields c envr title description l r l' Hrun) as H.
  cbv zeta in H. unfold DryRun, ret in Hdry. cbn [fst] in Hdry. rewrite Hsame in Hdry.
  remember (Classify (classifier c) (order1 envr) (order2 envr) title description)
    as cls eqn:Hc in *.
  destruct H as (Hcls & _ & Hres). injection Hdry as <-.
  cbn [Classification WorkerAvailable ActualBackend FallbackBackend].
  split; [exact Hcls|].
  unfold resolveWorker in Hres.
  assert (Hnamed : forall fb, findFallbackWorker c (Tier_ cls) = Some fb -> Backend fb <> "").
  { intros fb Hfb. destruct (firstAvailable_key _ _ _ Hfb) as (b & Hin & Hb & _).
    rewrite (Registered_key c Hreg b fb Hb). exact (fallbacksFor_named _ _ Hin). }
  destruct (workers c !! RecommendedBackend cls) as [w|]; [destruct (Available w)|];
    cbn [negb] in *.
  - repeat split; intros; congruence.
  - destruct (findFallbackWorker c (Tier_ cls)) as [fb|] eqn:Hfb.
    + specialize (Hnamed fb eq_refl). repeat split; intros; congruence.
    + destruct Hres as (Ha & Hst & Herr & Hex & ->).
      repeat split; intros; congruence.
  - destruct (findFallbackWorker c (Tier_ cls)) as [fb|] eqn:Hfb.
    + specialize (Hnamed fb eq_refl). repeat split; intros; congruence.
    + destruct Hres as (Ha & Hst & Herr & Hex & ->).
      repeat split; intros; congruence.
Qed.

Lemma DryRun_predicts_Run_witness :
  let worker := mockWorker BackendOllamaReason
                  (inl (okResult BackendOllamaReason "Ollama Reason Output")) in
  let c := RegisterWorker NewConductor worker in
  let envr := mkEnv (rev allTiers) (rev allTiers) "0a1b2c3d" "4e5f6a7b" 0 1500000
                    (fun n => 100 + Z.of_nat n) in
  match (DryRun c exampleEnv "Implement new feature" "Standard logic" ledger.Init).1,
        Run c envr "Implement new feature" "Standard logic" ledger.Init with
  | inl d, (inl r, l') =>
      Classification r = Classification d /\
      (WorkerAvailable d = true -> ActualBackend r = ActualBackend d) /\
      (WorkerAvailable d = false -> ActualBackend r = FallbackBackend d) /\
      (WorkerAvailable d = false -> FallbackBackend d = "" ->
       Status r = StatusFailed /\ Error r = "no available worker for this task tier" /\
       Execution r = None /\ ledger.executions l' = [])
  | _, _ => False
  end.
Proof.
  intros worker c envr.
  destruct (DryRun c exampleEnv "Implement new feature" "Standard logic" ledger.Init).1
    as [d|e] eqn:Hdry; [|vm_compute in Hdry; discriminate].
  destruct (Run c envr "Implement new feature" "Standard logic" ledger.Init)
    as [[r|e] l'] eqn:Hrun; [|vm_compute in Hrun; discriminate].
  apply (DryRun_predicts_Run c exampleEnv envr "Implement new feature" "Standard logic"
           ledger.Init l' d r).
  - repeat constructor.
  - reflexivity.
  - reflexivity.
  - apply Permutation_refl.
  - apply Permutation_refl.
  - apply Permutation_rev.
  - apply Permutation_rev.
  - vm_compute. reflexivity.
  - exact Hdry.
  - exact Hrun.
Defined.

(** *** The registry *)

(** X22: in every conductor built by [RegisterWorker] each registry key
    is its worker's backend; registering a worker makes it the one found
    under its backend, leaves the other backends as they were, and
    replaces a worker registered earlier for the same backend. *)
Theorem Registered_registry (c : Conductor) :
  Registered c ->
  (forall backend w, workers c !! backend = Some w -> Backend w = backend) /\
  forall w,
    Registered (RegisterWorker c w) /\
    workers (RegisterWorker c w) !! Backend w = Some w /\
    (forall backend, backend <> Backend w ->
       workers (RegisterWorker c w) !! backend = workers c !! backend) /\
    (forall w', Backend w' = Backend w ->
       RegisterWorker (RegisterWorker c w') w = RegisterWorker c w).
Proof.
  intros Hreg. split; [now apply Registered_key|].
  intros w. repeat split.
  - now constructor.
  - cbn [RegisterWorker workers]. apply lookup_insert_eq.
  - intros backend Hne. cbn [RegisterWorker workers]. now apply lookup_insert_ne.
  - intros w' Heq. unfold RegisterWorker. cbn [classifier workers]. f_equal.
    rewrite Heq. apply insert_insert_eq.
Qed.

Lemma Registered_registry_witness :
  let first := mockWorker BackendOllama (inr "down") in
  let second := mockWorker BackendOllama (inl (okResult BackendOllama "ok")) in
  RegisterWorker (RegisterWorker NewConductor first) second =
  RegisterWorker NewConductor second.
Proof.
  intros first second.
  apply (proj2 (Registered_registry NewConductor Registered_new) second).
  reflexivity.
Defined.


(** *** A run seen through the statistics *)

Lemma COUNT_snoc {A : Type} (cond : A -> bool) (rows : list A) (row : A) :
  ledger.COUNT cond (rows ++ [row]) =
  ledger.COUNT cond rows + (if cond row then 1 else 0).
Proof.
  unfold ledger.COUNT. rewrite List.filter_app, length_app. cbn [List.filter].
  destruct (cond row); cbn [length]; lia.
Qed.

(** X23: a [Run] that returns a result adds exactly one task to the
    statistics; it adds one execution unless the status is failed, one
    completed task exactly when the status is done, and one pending task
    exactly when the status is validating or no worker was available. *)
Theorem Run_then_GetStats
    (c : Conductor) (env : Env) (title description : string) (l l' : ledger.Ledger)
    (r : RunResult) :
  Run c env title description l = (inl r, l') ->
  let cls := Classify (classifier c) (order1 env) (order2 env) title description in
  let noWorker := match resolveWorker c cls with None => true | Some _ => false end in
  let before := ledger.GetStats l in
  let after := ledger.GetStats l' in
  ledger.TotalTasks after = ledger.TotalTasks before + 1 /\
  ledger.TotalExecutions after =
    ledger.TotalExecutions before + (if String.eqb (Status r) StatusFailed then 0 else 1) /\
  ledger.CompletedTasks after =
    ledger.CompletedTasks before + (if String.eqb (Status r) StatusDone then 1 else 0) /\
  ledger.PendingTasks after =
    ledger.PendingTasks before
    + (if String.eqb (Status r) StatusValidating || noWorker then 1 else 0).
Proof.
  intros Hrun cls noWorker before after. subst before after noWorker.
  pose proof (Run_returns_fresh _ _ _ _ _ _ _ Hrun) as Hfresh.
  pose proof (Run_fresh c env title description l Hfresh) as H. cbv zeta in H.
  fold cls in H. rewrite Hrun in H. cbn [fst snd] in H.
  unfold ledger.GetStats.
  cbn [ledger.TotalTasks ledger.TotalExecutions ledger.CompletedTasks ledger.PendingTasks].
  destruct (resolveWorker c cls) as [[worker actual]|].
  2:{ destruct H as [(r0 & [= <-] & -> & _) ->]. cbn [ledger.tasks ledger.executions].
      rewrite !COUNT_snoc. cbn. repeat split; lia. }
  destruct (Execute worker _) as [res|err].
  2:{ destruct H as [(r0 & [= <-] & -> & _) ->]. cbn [ledger.tasks ledger.executions].
      rewrite !COUNT_snoc. cbn. repeat split; lia. }
  destruct (Success res).
  - destruct (hasExecution (execID env) (ledger.executions l)).
    + destruct H as [[e He] _]. discriminate.
    + destruct H as [(r0 & [= <-] & -> & _) ->]. cbn [ledger.tasks ledger.executions].
      rewrite !COUNT_snoc. destruct (validatorCount (Tier_ cls) >? 0); cbn; repeat split; lia.
  - destruct H as [(r0 & [= <-] & -> & _) ->]. cbn [ledger.tasks ledger.executions].
    rewrite !COUNT_snoc. cbn. repeat split; lia.
Qed.

Lemma Run_then_GetStats_witness :
  match Run NewConductor exampleEnv "implement authentication" "" ledger.Init with
  | (inl r, l') =>
      Status r = StatusFailed /\
      ledger.TotalTasks (ledger.GetStats l') = 1 /\
      ledger.TotalExecutions (ledger.GetStats l') = 0 /\
      ledger.CompletedTasks (ledger.GetStats l') = 0 /\
      ledger.PendingTasks (ledger.GetStats l') = 1
  | (inr _, _) => False
  end.
Proof.
  destruct (Run NewConductor exampleEnv "implement authentication" "" ledger.Init)
    as [[r|e] l'] eqn:Hrun; [|vm_compute in Hrun; discriminate].
  pose proof (Run_then_GetStats NewConductor exampleEnv "implement authentication" ""
                ledger.Init l' r Hrun) as H.
  cbv zeta in H.
  assert (Hst : Status r = StatusFailed).
  { destruct (Run_result_fields _ _ _ _ _ _ _ Hrun) as (_ & _ & Hres).
    cbv zeta in Hres. rewrite resolveWorker_empty in Hres by reflexivity.
    now destruct Hres as (_ & -> & _). }
  rewrite Hst, resolveWorker_empty in H by reflexivity.
  split; [exact Hst | exact H].
Defined.

End conductor_more.
